(** * Appointment scheduler of the clinic backend (src/controllers/citas.js)

    A shallow embedding of the appointment ("cita") controller, its routes
    (src/routes/citas.js) and its schema (src/models/cita.js), and the
    properties of the specification proved or refuted on it.

    Conventions of the embedding
    - a Mongo collection is the list of its documents, in insertion order;
    - an [ObjectId] is a natural number, a [Date] is its [getTime()] value;
      date strings that do not parse are outside the model;
    - a JavaScript value that may be [undefined] is an [option];
    - a handler is a function from the request and the collection to the
      response and the new collection; reprogramarCita, which runs in a
      transaction, is written in a monad of state and exceptions, and is
      the one handler for which failing storage calls are modelled;
    - whether a notification is delivered is a parameter of every run;
    - a string is the sequence of the bytes of its UTF-8 encoding;
    - the [createdAt]/[updatedAt] timestamps are left out: no handler
      reads them. *)

From Stdlib Require Import ZArith List Ascii String Bool Arith Lia.
From Stdlib Require Import Permutation Sorted.
Import ListNotations.

Local Open Scope string_scope.
Local Open Scope Z_scope.
Local Open Scope list_scope.

(** ** Data model (src/models/cita.js, paciente.js, user.js, tratamiento.js) *)

Definition ObjectId := nat.
Definition Fecha := Z.

(** [estado] enum of citaSchema. *)
Inductive Estado :=
| programada | confirmada | en_curso | completada
| cancelada | reprogramada | no_asistio.

(** [canceladoPor] enum of citaSchema. *)
Inductive CanceladoPor := por_paciente | por_medico | por_sistema | no_aplica.

(** [rol] enum of userSchema. *)
Inductive Rol := rol_administrador | rol_medico | rol_secretaria | rol_paciente.

(** ** Strings and the schema's [trim]

    The schema declares [notas] and [motivoCancelacion] with [trim: true]:
    Mongoose passes every string set on these paths through
    [String.prototype.trim], which removes the white space and the line
    terminators of ECMAScript at both ends: U+0009 to U+000D, U+0020,
    U+00A0, U+1680, U+2000 to U+200A, U+2028, U+2029, U+202F, U+205F,
    U+3000 and U+FEFF. *)

Definition octeto (c : ascii) : N := N_of_ascii c.

(** The white space of one byte. *)
Definition espacio1 (c : ascii) : bool :=
  ((9 <=? octeto c) && (octeto c <=? 13) || (octeto c =? 32))%N.

(** U+00A0, encoded C2 A0. *)
Definition espacio2 (c1 c2 : ascii) : bool :=
  ((octeto c1 =? 194) && (octeto c2 =? 160))%N.

(** U+1680 (E1 9A 80), U+2000 to U+200A (E2 80 80 to E2 80 8A), U+2028,
    U+2029 and U+202F (E2 80 A8, A9 and AF), U+205F (E2 81 9F), U+3000
    (E3 80 80) and U+FEFF (EF BB BF). *)
Definition espacio3 (c1 c2 c3 : ascii) : bool :=
  ((octeto c1 =? 225) && (octeto c2 =? 154) && (octeto c3 =? 128)
   || (octeto c1 =? 226) && (octeto c2 =? 128)
      && ((128 <=? octeto c3) && (octeto c3 <=? 138)
          || (octeto c3 =? 168) || (octeto c3 =? 169) || (octeto c3 =? 175))
   || (octeto c1 =? 226) && (octeto c2 =? 129) && (octeto c3 =? 159)
   || (octeto c1 =? 227) && (octeto c2 =? 128) && (octeto c3 =? 128)
   || (octeto c1 =? 239) && (octeto c2 =? 187) && (octeto c3 =? 191))%N.

(** The string after its first character, when that is white space. *)
Definition espacioAlInicio (l : list ascii) : option (list ascii) :=
  match l with
  | [] => None
  | c1 :: r1 =>
      if espacio1 c1 then Some r1
      else
        match r1 with
        | [] => None
        | c2 :: r2 =>
            if espacio2 c1 c2 then Some r2
            else
              match r2 with
              | [] => None
              | c3 :: r3 => if espacio3 c1 c2 c3 then Some r3 else None
              end
        end
  end.

(** The same from the end, on the reversed string: the reversed string
    after its first character, when the string ends in white space. *)
Definition espacioAlFinal (l : list ascii) : option (list ascii) :=
  match l with
  | [] => None
  | c1 :: r1 =>
      if espacio1 c1 then Some r1
      else
        match r1 with
        | [] => None
        | c2 :: r2 =>
            if espacio2 c2 c1 then Some r2
            else
              match r2 with
              | [] => None
              | c3 :: r3 => if espacio3 c3 c2 c1 then Some r3 else None
              end
        end
  end.

(** Dropping characters at the front for as long as [cabeza] finds one;
    [n] bounds the number of rounds. *)
Fixpoint quitar (cabeza : list ascii -> option (list ascii)) (n : nat)
    (l : list ascii) : list ascii :=
  match n with
  | O => l
  | S m =>
      match cabeza l with
      | Some r => quitar cabeza m r
      | None => l
      end
  end.

(** [s.trimStart()] and [s.trimEnd()]. *)
Definition trimStart (l : list ascii) : list ascii :=
  quitar espacioAlInicio (List.length l) l.

Definition trimEnd (l : list ascii) : list ascii :=
  rev (quitar espacioAlFinal (List.length l) (rev l)).

Definition trim (s : string) : string :=
  string_of_list_ascii (trimEnd (trimStart (list_ascii_of_string s))).

(** Entries of [recordatoriosEnviados]. *)
Inductive Canal := canal_email | canal_sms.
Inductive EstadoEnvio := enviado | fallido | recibido.

Record Recordatorio := {
  tipo : Canal;
  fecha : Fecha;
  estadoEnvio : EstadoEnvio
}.

Record Cita := {
  _id : ObjectId;
  paciente : ObjectId;
  medico : ObjectId;
  tratamiento : ObjectId;
  fechaInicio : Fecha;
  fechaFin : Fecha;
  estado : Estado;
  notas : option string;
  citaOriginal : option ObjectId;
  recordatoriosEnviados : list Recordatorio;
  canceladoPor : CanceladoPor;
  motivoCancelacion : option string
}.

(** The user document, with the fields the controller reads. *)
Record Usuario := {
  u_id : ObjectId;
  u_rol : Rol;
  activo : bool;
  email : option string;
  telefono : option string
}.

(** The patient document: its user reference and [preferencias]. *)
Record Paciente := {
  p_id : ObjectId;
  usuario : ObjectId;
  recordatoriosEmail : bool;
  recordatoriosSMS : bool
}.

Record Tratamiento := {
  t_id : ObjectId;
  t_activo : bool;
  profesionalesHabilitados : list ObjectId
}.

(** The collections the scheduler only reads. *)
Record Directorios := {
  pacientes : list Paciente;
  usuarios : list Usuario;
  tratamientos : list Tratamiento
}.

(** [req.user], set by the auth middleware. *)
Record ReqUser := {
  userId : ObjectId;
  rol : Rol
}.

Definition Estado_eqb (a b : Estado) : bool :=
  match a, b with
  | programada, programada | confirmada, confirmada | en_curso, en_curso
  | completada, completada | cancelada, cancelada
  | reprogramada, reprogramada | no_asistio, no_asistio => true
  | _, _ => false
  end.

(** [lista.includes(e)] on a list of states. *)
Definition includes (l : list Estado) (e : Estado) : bool :=
  existsb (Estado_eqb e) l.
Arguments includes l e : simpl never.

(** Field updates of a loaded document ([cita.campo = valor]); the setter
    of the schema trims [notas] and [motivoCancelacion]. *)
Definition con_fechaInicio (v : Fecha) (c : Cita) : Cita :=
  {| _id := _id c; paciente := paciente c; medico := medico c;
     tratamiento := tratamiento c; fechaInicio := v; fechaFin := fechaFin c;
     estado := estado c; notas := notas c; citaOriginal := citaOriginal c;
     recordatoriosEnviados := recordatoriosEnviados c;
     canceladoPor := canceladoPor c;
     motivoCancelacion := motivoCancelacion c |}.

Definition con_fechaFin (v : Fecha) (c : Cita) : Cita :=
  {| _id := _id c; paciente := paciente c; medico := medico c;
     tratamiento := tratamiento c; fechaInicio := fechaInicio c; fechaFin := v;
     estado := estado c; notas := notas c; citaOriginal := citaOriginal c;
     recordatoriosEnviados := recordatoriosEnviados c;
     canceladoPor := canceladoPor c;
     motivoCancelacion := motivoCancelacion c |}.

Definition con_estado (v : Estado) (c : Cita) : Cita :=
  {| _id := _id c; paciente := paciente c; medico := medico c;
     tratamiento := tratamiento c; fechaInicio := fechaInicio c;
     fechaFin := fechaFin c;
     estado := v; notas := notas c; citaOriginal := citaOriginal c;
     recordatoriosEnviados := recordatoriosEnviados c;
     canceladoPor := canceladoPor c;
     motivoCancelacion := motivoCancelacion c |}.

Definition con_notas (v : option string) (c : Cita) : Cita :=
  {| _id := _id c; paciente := paciente c; medico := medico c;
     tratamiento := tratamiento c; fechaInicio := fechaInicio c;
     fechaFin := fechaFin c;
     estado := estado c; notas := option_map trim v;
     citaOriginal := citaOriginal c;
     recordatoriosEnviados := recordatoriosEnviados c;
     canceladoPor := canceladoPor c;
     motivoCancelacion := motivoCancelacion c |}.

Definition con_canceladoPor (v : CanceladoPor) (c : Cita) : Cita :=
  {| _id := _id c; paciente := paciente c; medico := medico c;
     tratamiento := tratamiento c; fechaInicio := fechaInicio c;
     fechaFin := fechaFin c;
     estado := estado c; notas := notas c; citaOriginal := citaOriginal c;
     recordatoriosEnviados := recordatoriosEnviados c;
     canceladoPor := v;
     motivoCancelacion := motivoCancelacion c |}.

Definition con_motivoCancelacion (v : option string) (c : Cita) : Cita :=
  {| _id := _id c; paciente := paciente c; medico := medico c;
     tratamiento := tratamiento c; fechaInicio := fechaInicio c;
     fechaFin := fechaFin c;
     estado := estado c; notas := notas c; citaOriginal := citaOriginal c;
     recordatoriosEnviados := recordatoriosEnviados c;
     canceladoPor := canceladoPor c;
     motivoCancelacion := option_map trim v |}.

(** [cita.recordatoriosEnviados.push(r)]. *)
Definition push_recordatorio (r : Recordatorio) (c : Cita) : Cita :=
  {| _id := _id c; paciente := paciente c; medico := medico c;
     tratamiento := tratamiento c; fechaInicio := fechaInicio c;
     fechaFin := fechaFin c;
     estado := estado c; notas := notas c; citaOriginal := citaOriginal c;
     recordatoriosEnviados := recordatoriosEnviados c ++ [r];
     canceladoPor := canceladoPor c;
     motivoCancelacion := motivoCancelacion c |}.

(** ** The collection *)

(** [Cita.findById(id)]. *)
Definition findById (id : ObjectId) (citas : list Cita) : option Cita :=
  find (fun c => Nat.eqb (_id c) id) citas.

(** [doc.save()]: replaces the stored document of the same [_id], or inserts
    the document when the collection has none. *)
Fixpoint save (d : Cita) (citas : list Cita) : list Cita :=
  match citas with
  | [] => [d]
  | c :: resto =>
      if Nat.eqb (_id c) (_id d) then d :: resto else c :: save d resto
  end.

(** The [_id] of a [new Cita(...)]: an identifier no stored document has. *)
Definition nuevoId (citas : list Cita) : ObjectId :=
  S (list_max (map _id citas)).

(** ** Overlap detection *)

(** The [$or] of the three clauses of the query, on one stored document,
    for the candidate window from [ini] to [fin]. *)
Definition solapa (ini fin : Fecha) (c : Cita) : bool :=
  ((ini <=? fechaInicio c) && (fechaInicio c <? fin))
  || ((ini <? fechaFin c) && (fechaFin c <=? fin))
  || ((fechaInicio c <=? ini) && (fin <=? fechaFin c)).

(** The whole filter: [_id: {$ne: excl}] (update and reschedule only),
    [medico], [estado: {$nin: ['cancelada', 'reprogramada']}] and [$or]. *)
Definition filtroSolapada (excl : option ObjectId) (med : ObjectId)
    (ini fin : Fecha) (c : Cita) : bool :=
  match excl with
  | Some i => negb (Nat.eqb (_id c) i)
  | None => true
  end
  && Nat.eqb (medico c) med
  && negb (includes [cancelada; reprogramada] (estado c))
  && solapa ini fin c.

(** [Cita.findOne({...})] with that filter. *)
Definition citaSolapada (excl : option ObjectId) (med : ObjectId)
    (ini fin : Fecha) (citas : list Cita) : option Cita :=
  find (filtroSolapada excl med ini fin) citas.

(** The specification's predicate: the windows from [s1] to [e1] and from
    [s2] to [e2], both half-open, intersect. *)
Definition intersecan (s1 e1 s2 e2 : Fecha) : Prop :=
  s1 < e2 /\ s2 < e1.

(** The appointments the specification tests: same practitioner, state not
    in canceled or rescheduled, and not the appointment being changed. *)
Definition candidata (excl : option ObjectId) (med : ObjectId) (c : Cita)
    : Prop :=
  medico c = med
  /\ estado c <> cancelada /\ estado c <> reprogramada
  /\ excl <> Some (_id c).

Definition ventana_valida (c : Cita) : Prop := fechaInicio c < fechaFin c.

(** ** Responses *)

(** The [message] of an error response. *)
Inductive Mensaje :=
| PacienteNoEncontrado        (* 'Paciente no encontrado' *)
| MedicoNoEncontrado          (* 'Médico no encontrado o no está activo' *)
| TratamientoNoEncontrado     (* 'Tratamiento no encontrado o no está activo' *)
| MedicoNoHabilitado          (* 'El médico no está habilitado ...' *)
| MedicoOcupado               (* 'El médico ya tiene otra cita programada en ese horario' *)
| CitaNoEncontrada            (* 'Cita no encontrada' *)
| NoSePuedeActualizar (e : Estado)     (* 'No se puede actualizar una cita en estado e' *)
| EstadoNoValido                       (* 'Estado no válido' *)
| NoSePuedeCambiarEstado (e : Estado)  (* 'No se puede cambiar el estado de una cita e' *)
| NoSePuedeReprogramar (e : Estado)    (* 'No se puede reprogramar una cita en estado e' *)
| NoSePuedeCancelar (e : Estado)       (* 'No se puede cancelar una cita en estado e' *)
| SinPermisoCancelar                   (* 'No tienes permiso para cancelar esta cita' *)
| DatosNoValidos (campos : list string) (* rejected by the validators of the route *)
| ErrorInterno.                        (* the message of a catch block *)

(** The [cita] object of the answers of cambiarEstadoCita and cancelarCita
    is a projection of the saved document; the document itself stands for
    it here. The answer of reprogramarCita carries [_id] and [estado] of
    the original, and the new document with its [citaOriginal] populated:
    the pair of the document and the document it refers to. The populated
    patient, practitioner and treatment of the answers are left out. *)
Inductive Respuesta :=
| Creada (cita : option Cita)                                   (* 201 *)
| Actualizada (cita : option Cita)                              (* 200 *)
| EstadoActualizado (cita : Cita) (sugerencia : bool)           (* 200 *)
| Reprogramada (citaOriginal_ : ObjectId * Estado)
    (nuevaCita : option (Cita * option Cita))                   (* 200 *)
| CitaCancelada (cita : Cita)                                   (* 200 *)
| Rechazo (status : nat) (m : Mensaje).

(** The error kinds of the specification (section 7), and the kind under
    which each error message of the controller falls. *)
Inductive Clase :=
| NotFound | ValidationError | InvalidAssignment
| SchedulingConflict | InvalidState | InvalidTransition.

Definition clase (r : Respuesta) : option Clase :=
  match r with
  | Rechazo _ m =>
      match m with
      | PacienteNoEncontrado | MedicoNoEncontrado
      | TratamientoNoEncontrado | CitaNoEncontrada => Some NotFound
      | MedicoNoHabilitado => Some InvalidAssignment
      | MedicoOcupado => Some SchedulingConflict
      | NoSePuedeActualizar _ | NoSePuedeReprogramar _
      | NoSePuedeCancelar _ => Some InvalidState
      | NoSePuedeCambiarEstado _ => Some InvalidTransition
      | EstadoNoValido | DatosNoValidos _ => Some ValidationError
      | SinPermisoCancelar | ErrorInterno => None
      end
  | _ => None
  end.

Definition exito (r : Respuesta) : bool :=
  match r with
  | Rechazo _ _ => false
  | _ => true
  end.

(** ** Exceptions and state

    The body of a [try] block, and the handler that runs in a transaction,
    thread a state and may throw. [Caida] is the process dying at that
    point: no [catch] and no [finally] runs after it. *)

Inductive Salida (A : Type) :=
| Valor (a : A)
| Excepcion
| Caida.
Arguments Valor {A} a.
Arguments Excepcion {A}.
Arguments Caida {A}.

Definition M (St A : Type) : Type := St -> Salida A * St.

Definition ret {St A} (a : A) : M St A := fun s => (Valor a, s).

Definition bind {St A B} (m : M St A) (f : A -> M St B) : M St B :=
  fun s =>
    match m s with
    | (Valor a, s') => f a s'
    | (Excepcion, s') => (Excepcion, s')
    | (Caida, s') => (Caida, s')
    end.

Definition lanzar {St A} : M St A := fun s => (Excepcion, s).

(** [try { m } catch { h }]. *)
Definition atrapar {St A} (m : M St A) (h : M St A) : M St A :=
  fun s =>
    match m s with
    | (Excepcion, s') => h s'
    | r => r
    end.

(** [try { m } finally { f }]. *)
Definition finalmente {St A} (m : M St A) (f : St -> St) : M St A :=
  fun s =>
    match m s with
    | (Caida, s') => (Caida, s')
    | (r, s') => (r, f s')
    end.

Definition leer {St A} (f : St -> A) : M St A := fun s => (Valor (f s), s).

Definition modificar {St} (f : St -> St) : M St unit :=
  fun s => (Valor tt, f s).

Declare Scope m_scope.
Delimit Scope m_scope with m.
Notation "x <- m ;; k" := (bind m (fun x => k))
  (at level 61, m at next level, right associativity) : m_scope.
Notation "m ;;; k" := (bind m (fun _ => k))
  (at level 61, right associativity) : m_scope.

(** ** Small helpers of the controller *)

(** The truthiness of a string that may be [undefined]. *)
Definition truthy (s : option string) : bool :=
  match s with
  | Some t => negb (String.eqb t "")
  | None => false
  end.

(** [s || d] on such a string. *)
Definition o_bien (s : option string) (d : string) : string :=
  match s with
  | Some t => if String.eqb t "" then d else t
  | None => d
  end.

Definition estadosValidos : list string :=
  ["programada"; "confirmada"; "en_curso"; "completada";
   "cancelada"; "reprogramada"; "no_asistio"].

(** The stored state a valid [estado] string denotes. *)
Definition parseEstado (s : string) : option Estado :=
  if String.eqb s "programada" then Some programada
  else if String.eqb s "confirmada" then Some confirmada
  else if String.eqb s "en_curso" then Some en_curso
  else if String.eqb s "completada" then Some completada
  else if String.eqb s "cancelada" then Some cancelada
  else if String.eqb s "reprogramada" then Some reprogramada
  else if String.eqb s "no_asistio" then Some no_asistio
  else None.

(** The schema's enum validation of [canceladoPor] on save. *)
Definition parseCanceladoPor (s : string) : option CanceladoPor :=
  if String.eqb s "paciente" then Some por_paciente
  else if String.eqb s "medico" then Some por_medico
  else if String.eqb s "sistema" then Some por_sistema
  else if String.eqb s "no_aplica" then Some no_aplica
  else None.

(** [req.user.rol === 'paciente' ? 'paciente' : 'medico']. *)
Definition canceladoPorSegunRol (r : Rol) : CanceladoPor :=
  match r with
  | rol_paciente => por_paciente
  | _ => por_medico
  end.

(** Lookups in the read-only collections. *)
Definition buscarPaciente (dir : Directorios) (id : ObjectId)
    : option Paciente :=
  find (fun p => Nat.eqb (p_id p) id) (pacientes dir).

Definition buscarPacienteDeUsuario (dir : Directorios) (uid : ObjectId)
    : option Paciente :=
  find (fun p => Nat.eqb (usuario p) uid) (pacientes dir).

Definition buscarUsuario (dir : Directorios) (id : ObjectId)
    : option Usuario :=
  find (fun u => Nat.eqb (u_id u) id) (usuarios dir).

(** [User.findOne({ _id: medico, rol: 'medico', activo: true })]. *)
Definition buscarMedicoActivo (dir : Directorios) (id : ObjectId)
    : option Usuario :=
  find (fun u => Nat.eqb (u_id u) id
                 && match u_rol u with rol_medico => true | _ => false end
                 && activo u) (usuarios dir).

Definition buscarTratamiento (dir : Directorios) (id : ObjectId)
    : option Tratamiento :=
  find (fun t => Nat.eqb (t_id t) id) (tratamientos dir).

(** [Tratamiento.findOne({ _id: tratamiento, activo: true })]. *)
Definition buscarTratamientoActivo (dir : Directorios) (id : ObjectId)
    : option Tratamiento :=
  find (fun t => Nat.eqb (t_id t) id && t_activo t) (tratamientos dir).

(** ** Notification services (src/services/email.js, sms.js)

    Whether a send resolves is not decided by the scheduler: it is a
    parameter of every run. [false] is the service throwing. *)
Record Mensajeria := {
  emailOk : bool;
  smsOk : bool
}.

(** Reading a property of [o], a TypeError when [o] is null. *)
Definition deref {St A} (o : option A) : M St A :=
  match o with
  | Some a => ret a
  | None => lanzar
  end.

(** [emailService.enviarConfirmacionCita]: it reads [cita.medico.nombre]
    and [cita.tratamiento.nombre], then sends. *)
Definition enviarConfirmacionCita {St} (msj : Mensajeria)
    (med : option Usuario) (trat : option Tratamiento) : M St unit :=
  (_ <- deref med ;;
   _ <- deref trat ;;
   if emailOk msj then ret tt else lanzar)%m.

(** [smsService.enviarRecordatorioCita]. *)
Definition enviarRecordatorioCita {St} (msj : Mensajeria) : M St unit :=
  if smsOk msj then ret tt else lanzar.

Definition recordatorio (t : Canal) (ahora : Fecha) : Recordatorio :=
  {| tipo := t; fecha := ahora; estadoEnvio := enviado |}.

(** ** crearCita (POST /api/citas) *)

Record CrearBody := {
  b_paciente : ObjectId;
  b_medico : ObjectId;
  b_tratamiento : ObjectId;
  b_fechaInicio : Fecha;
  b_fechaFin : Fecha;
  b_notas : option string
}.

(** The [try] block after the first save: the e-mail confirmation, then the
    SMS reminder, each recorded in the document and saved when sent; the
    [catch] only logs. *)
Definition avisarCreacion (msj : Mensajeria) (ahora : Fecha)
    (pac : Paciente) (usr : option Usuario) (med : Usuario)
    (trat : Tratamiento) (nuevaCita : Cita) : M (list Cita) unit :=
  atrapar
    (n1 <- (if recordatoriosEmail pac then
              u <- deref usr ;;
              if truthy (email u) then
                enviarConfirmacionCita msj (Some med) (Some trat) ;;;
                let n := push_recordatorio (recordatorio canal_email ahora)
                                           nuevaCita in
                modificar (save n) ;;;
                ret n
              else ret nuevaCita
            else ret nuevaCita) ;;
     if recordatoriosSMS pac then
       u <- deref usr ;;
       if truthy (telefono u) then
         enviarRecordatorioCita msj ;;;
         modificar (save (push_recordatorio (recordatorio canal_sms ahora) n1))
       else ret tt
     else ret tt)%m
    (ret tt).

Definition crearCita (dir : Directorios) (msj : Mensajeria) (ahora : Fecha)
    (b : CrearBody) (citas : list Cita) : Respuesta * list Cita :=
  match buscarPaciente dir (b_paciente b) with
  | None => (Rechazo 404 PacienteNoEncontrado, citas)
  | Some pacienteExistente =>
  match buscarMedicoActivo dir (b_medico b) with
  | None => (Rechazo 404 MedicoNoEncontrado, citas)
  | Some medicoExistente =>
  match buscarTratamientoActivo dir (b_tratamiento b) with
  | None => (Rechazo 404 TratamientoNoEncontrado, citas)
  | Some tratamientoExistente =>
  if negb (Nat.eqb (List.length (profesionalesHabilitados tratamientoExistente)) 0)
     && negb (existsb (Nat.eqb (u_id medicoExistente))
                      (profesionalesHabilitados tratamientoExistente))
  then (Rechazo 400 MedicoNoHabilitado, citas)
  else
  match citaSolapada None (b_medico b) (b_fechaInicio b) (b_fechaFin b) citas
  with
  | Some _ => (Rechazo 400 MedicoOcupado, citas)
  | None =>
      let nuevaCita :=
        {| _id := nuevoId citas;
           paciente := b_paciente b;
           medico := b_medico b;
           tratamiento := b_tratamiento b;
           fechaInicio := b_fechaInicio b;
           fechaFin := b_fechaFin b;
           estado := programada;
           notas := option_map trim (b_notas b);
           citaOriginal := None;
           recordatoriosEnviados := [];
           canceladoPor := no_aplica;
           motivoCancelacion := None |} in
      let citas1 := save nuevaCita citas in
      let citas2 :=
        snd (avisarCreacion msj ahora pacienteExistente
               (buscarUsuario dir (usuario pacienteExistente))
               medicoExistente tratamientoExistente nuevaCita citas1) in
      (Creada (findById (_id nuevaCita) citas2), citas2)
  end end end end.

(** ** actualizarCita (PUT /api/citas/:id) *)

Record ActualizarBody := {
  a_fechaInicio : option Fecha;
  a_fechaFin : option Fecha;
  a_notas : option string
}.

(** [f && new Date(f).getTime() !== actual.getTime()]. *)
Definition difiere (f : option Fecha) (actual : Fecha) : bool :=
  match f with
  | Some t => negb (t =? actual)
  | None => false
  end.

(** [f ? new Date(f) : actual]. *)
Definition o_actual (f : option Fecha) (actual : Fecha) : Fecha :=
  match f with
  | Some t => t
  | None => actual
  end.

Definition presente {A} (f : option A) : bool :=
  match f with
  | Some _ => true
  | None => false
  end.

(** The [try] block that notifies a change of date. *)
Definition avisarActualizacion (dir : Directorios) (msj : Mensajeria)
    (ahora : Fecha) (cita : Cita) : M (list Cita) unit :=
  atrapar
    (let med := buscarUsuario dir (medico cita) in
     let trat := buscarTratamiento dir (tratamiento cita) in
     pac <- deref (buscarPaciente dir (paciente cita)) ;;
     if recordatoriosEmail pac then
       u <- deref (buscarUsuario dir (usuario pac)) ;;
       if truthy (email u) then
         enviarConfirmacionCita msj med trat ;;;
         modificar (save (push_recordatorio (recordatorio canal_email ahora)
                                            cita))
       else ret tt
     else ret tt)%m
    (ret tt).

Definition actualizarCita (dir : Directorios) (msj : Mensajeria)
    (ahora : Fecha) (citaId : ObjectId) (b : ActualizarBody)
    (citas : list Cita) : Respuesta * list Cita :=
  match findById citaId citas with
  | None => (Rechazo 404 CitaNoEncontrada, citas)
  | Some cita =>
  if includes [cancelada; completada; no_asistio] (estado cita)
  then (Rechazo 400 (NoSePuedeActualizar (estado cita)), citas)
  else
    (* None: the new window collides *)
    let conFechas : option Cita :=
      if difiere (a_fechaInicio b) (fechaInicio cita)
         || difiere (a_fechaFin b) (fechaFin cita)
      then
        let nuevoInicio := o_actual (a_fechaInicio b) (fechaInicio cita) in
        let nuevoFin := o_actual (a_fechaFin b) (fechaFin cita) in
        match citaSolapada (Some citaId) (medico cita) nuevoInicio nuevoFin
                           citas with
        | Some _ => None
        | None =>
            let c1 := match a_fechaInicio b with
                      | Some t => con_fechaInicio t cita
                      | None => cita
                      end in
            Some match a_fechaFin b with
                 | Some t => con_fechaFin t c1
                 | None => c1
                 end
        end
      else Some cita in
    match conFechas with
    | None => (Rechazo 400 MedicoOcupado, citas)
    | Some c2 =>
        let c3 := match a_notas b with
                  | Some n => con_notas (Some n) c2
                  | None => c2
                  end in
        let citas1 := save c3 citas in
        let citas2 :=
          if presente (a_fechaInicio b) || presente (a_fechaFin b)
          then snd (avisarActualizacion dir msj ahora c3 citas1)
          else citas1 in
        (Actualizada (findById citaId citas2), citas2)
    end
  end.

(** ** cambiarEstadoCita (PUT /api/citas/:id/estado) *)

Record EstadoBody := {
  e_estado : option string;
  e_notas : option string
}.

(** [estadosValidos.includes(estado)], with the state the string denotes. *)
Definition estadoPedido (b : EstadoBody) : option Estado :=
  match e_estado b with
  | Some s => parseEstado s
  | None => None
  end.

Definition estadosFinales : list Estado := [completada; cancelada; no_asistio].

Definition cambiarEstadoCita (user : ReqUser) (citaId : ObjectId)
    (b : EstadoBody) (citas : list Cita) : Respuesta * list Cita :=
  match estadoPedido b with
  | None => (Rechazo 400 EstadoNoValido, citas)
  | Some est =>
  match findById citaId citas with
  | None => (Rechazo 404 CitaNoEncontrada, citas)
  | Some cita =>
  if includes estadosFinales (estado cita)
     && negb (Estado_eqb (estado cita) est)
  then (Rechazo 400 (NoSePuedeCambiarEstado (estado cita)), citas)
  else
    let c1 := con_estado est cita in
    let c2 := match e_notas b with
              | Some n => con_notas (Some n) c1
              | None => c1
              end in
    let c3 :=
      match est with
      | cancelada =>
          con_motivoCancelacion
            (Some (o_bien (e_notas b) "No se especificó motivo"))
            (con_canceladoPor (canceladoPorSegunRol (rol user)) c2)
      | no_asistio =>
          con_motivoCancelacion (Some "Paciente no asistió")
            (con_canceladoPor no_aplica c2)
      | _ => c2
      end in
    (EstadoActualizado c3 (Estado_eqb est completada), save c3 citas)
  end end.

(** ** cancelarCita (POST /api/citas/:id/cancelar) *)

Record CancelarBody := {
  k_motivo : option string;
  k_canceladoPor : option string
}.

(** The permission check: a patient cancels only their own appointments, a
    practitioner only their own. *)
Definition sinPermiso (dir : Directorios) (user : ReqUser) (cita : Cita)
    : bool :=
  match rol user with
  | rol_paciente =>
      match buscarPacienteDeUsuario dir (userId user) with
      | None => true
      | Some p => negb (Nat.eqb (p_id p) (paciente cita))
      end
  | rol_medico => negb (Nat.eqb (userId user) (medico cita))
  | _ => false
  end.

(** "Determinar quién cancela". *)
Definition origen (user : ReqUser) (canceladoPor_ : option string) : string :=
  match rol user with
  | rol_paciente => "paciente"
  | rol_medico => "medico"
  | _ => o_bien canceladoPor_ "sistema"
  end.

Definition cancelarCita (dir : Directorios) (user : ReqUser)
    (citaId : ObjectId) (b : CancelarBody) (citas : list Cita)
    : Respuesta * list Cita :=
  match findById citaId citas with
  | None => (Rechazo 404 CitaNoEncontrada, citas)
  | Some cita =>
  if includes [completada; cancelada; no_asistio] (estado cita)
  then (Rechazo 400 (NoSePuedeCancelar (estado cita)), citas)
  else if sinPermiso dir user cita
  then (Rechazo 403 SinPermisoCancelar, citas)
  else
    (* the save rejects a [canceladoPor] outside the schema's enum *)
    match parseCanceladoPor (origen user (k_canceladoPor b)) with
    | None => (Rechazo 500 ErrorInterno, citas)
    | Some por =>
        let c :=
          con_motivoCancelacion
            (Some (o_bien (k_motivo b) "No se especificó motivo"))
            (con_canceladoPor por (con_estado cancelada cita)) in
        (CitaCancelada c, save c citas)
    end
  end.

(** ** reprogramarCita (POST /api/citas/:id/reprogramar)

    The handler runs in a session with a transaction. What readers see is
    [confirmadas]; a save made with [{ session }] stays in [pendientes]
    until the transaction commits, and is dropped when it aborts. *)

(** The state of the transaction as the driver keeps it in the session;
    [Confirmada] is the state after [commitTransaction()] was called. *)
Inductive EstadoTx := SinTransaccion | EnCurso | Confirmada | Abortada.

Record Mundo := {
  confirmadas : list Cita;
  pendientes : list Cita;
  transaccion : EstadoTx
}.

(** The awaited calls of the handler, in program order. *)
Inductive Paso :=
| PBuscar               (* Cita.findById(citaId) *)
| PSolapada             (* Cita.findOne({...}) *)
| PGuardarOriginal      (* cita.save({ session }) *)
| PGuardarNueva         (* nuevaCita.save({ session }) *)
| PLeerPaciente         (* Paciente.findById(...).populate('usuario') *)
| PLeerMedico           (* User.findById(...) *)
| PLeerTratamiento      (* Tratamiento.findById(...) *)
| PGuardarRecordatorio  (* nuevaCita.save({ session }), in the inner try *)
| PCommit               (* session.commitTransaction() *)
| PPoblar.              (* Cita.findById(nuevaCita._id).populate(...) *)

(** What happens when a step is reached: it runs, it throws, or the
    process dies there. *)
Inductive Evento := Normal | Lanza | Cae.

Definition Plan := Paso -> Evento.

Definition sinFallos : Plan := fun _ => Normal.

(** A read or a save under the plan: when it throws or the process dies,
    the session is as it was before the call. (The commit is not such a
    step: see [commitTransaction].) *)
Definition paso {A} (plan : Plan) (p : Paso) (m : M Mundo A) : M Mundo A :=
  fun w =>
    match plan p with
    | Normal => m w
    | Lanza => (Excepcion, w)
    | Cae => (Caida, w)
    end.

Definition startTransaction (w : Mundo) : Mundo :=
  {| confirmadas := confirmadas w; pendientes := [];
     transaccion := EnCurso |}.

(** [doc.save({ session })]. *)
Definition guardarEnSesion (d : Cita) : M Mundo unit :=
  modificar (fun w =>
    {| confirmadas := confirmadas w; pendientes := pendientes w ++ [d];
       transaccion := transaccion w |}).

Definition aplicar (escrituras : list Cita) (citas : list Cita) : list Cita :=
  fold_left (fun acc d => save d acc) escrituras citas.

(** [session.commitTransaction()]. The driver marks the transaction as
    committed when the call is made, before the command is sent. When the
    command then fails, nothing is written and the call throws, but the
    transaction is no longer in progress: the [abortTransaction()] of the
    [catch] block throws in turn. *)
Definition commitTransaction (plan : Plan) : M Mundo unit :=
  fun w =>
    match plan PCommit with
    | Normal =>
        (Valor tt,
         {| confirmadas := aplicar (pendientes w) (confirmadas w);
            pendientes := []; transaccion := Confirmada |})
    | Lanza =>
        (Excepcion,
         {| confirmadas := confirmadas w; pendientes := [];
            transaccion := Confirmada |})
    | Cae => (Caida, w)
    end.

(** The driver refuses to abort a transaction that is not in progress. *)
Definition abortTransaction : M Mundo unit :=
  fun w =>
    match transaccion w with
    | EnCurso =>
        (Valor tt, {| confirmadas := confirmadas w; pendientes := [];
                      transaccion := Abortada |})
    | _ => (Excepcion, w)
    end.

(** Ending the session aborts the transaction still in progress. *)
Definition endSession (w : Mundo) : Mundo :=
  {| confirmadas := confirmadas w; pendientes := [];
     transaccion := match transaccion w with
                    | EnCurso => Abortada
                    | t => t
                    end |}.

Record ReprogramarBody := {
  r_fechaInicio : Fecha;
  r_fechaFin : Fecha;
  r_motivo : option string
}.

(** The inner [try] block: the confirmation e-mail of the new appointment. *)
Definition avisarReprogramacion (plan : Plan) (dir : Directorios)
    (msj : Mensajeria) (ahora : Fecha) (cita nuevaCita : Cita)
    : M Mundo unit :=
  atrapar
    (pac <- paso plan PLeerPaciente
              (ret (buscarPaciente dir (paciente cita))) ;;
     med <- paso plan PLeerMedico
              (ret (buscarUsuario dir (medico cita))) ;;
     trat <- paso plan PLeerTratamiento
              (ret (buscarTratamiento dir (tratamiento cita))) ;;
     p <- deref pac ;;
     if recordatoriosEmail p then
       u <- deref (buscarUsuario dir (usuario p)) ;;
       if truthy (email u) then
         enviarConfirmacionCita msj med trat ;;;
         paso plan PGuardarRecordatorio
           (guardarEnSesion
              (push_recordatorio (recordatorio canal_email ahora) nuevaCita))
       else ret tt
     else ret tt)%m
    (ret tt).

(** The original as the handler retires it. *)
Definition retirada (user : ReqUser) (motivo : option string) (cita : Cita)
    : Cita :=
  con_canceladoPor (canceladoPorSegunRol (rol user))
    (con_motivoCancelacion (Some (o_bien motivo "Cita reprogramada"))
       (con_estado reprogramada cita)).

(** The successor the handler creates. *)
Definition sucesora (id : ObjectId) (b : ReprogramarBody) (cita : Cita)
    : Cita :=
  {| _id := id;
     paciente := paciente cita;
     medico := medico cita;
     tratamiento := tratamiento cita;
     fechaInicio := r_fechaInicio b;
     fechaFin := r_fechaFin b;
     estado := programada;
     notas := option_map trim (notas cita);
     citaOriginal := Some (_id cita);
     recordatoriosEnviados := [];
     canceladoPor := no_aplica;
     motivoCancelacion := None |}.

(** [.populate('citaOriginal')] on the result of a [findById]. *)
Definition poblarCitaOriginal (citas : list Cita) (c : option Cita)
    : option (Cita * option Cita) :=
  match c with
  | Some d =>
      Some (d, match citaOriginal d with
               | Some i => findById i citas
               | None => None
               end)
  | None => None
  end.

(** The handler after the availability check: the two writes, the
    notification, the commit and the answer. *)
Definition retirarYCrear (plan : Plan) (dir : Directorios)
    (msj : Mensajeria) (ahora : Fecha) (user : ReqUser)
    (b : ReprogramarBody) (cita : Cita) : M Mundo Respuesta :=
  (let cita' := retirada user (r_motivo b) cita in
   paso plan PGuardarOriginal (guardarEnSesion cita') ;;;
   id <- leer (fun w => nuevoId (confirmadas w)) ;;
   let nuevaCita := sucesora id b cita' in
   paso plan PGuardarNueva (guardarEnSesion nuevaCita) ;;;
   avisarReprogramacion plan dir msj ahora cita' nuevaCita ;;;
   commitTransaction plan ;;;
   citaReprogramada <-
     paso plan PPoblar
       (leer (fun w => poblarCitaOriginal (confirmadas w)
                         (findById (_id nuevaCita) (confirmadas w)))) ;;
   ret (Reprogramada (_id cita', estado cita') citaReprogramada))%m.

(** The [try] block of the handler. *)
Definition intentoReprogramar (plan : Plan) (dir : Directorios)
    (msj : Mensajeria) (ahora : Fecha) (user : ReqUser) (citaId : ObjectId)
    (b : ReprogramarBody) : M Mundo Respuesta :=
  (encontrada <- paso plan PBuscar
                   (leer (fun w => findById citaId (confirmadas w))) ;;
   match encontrada with
   | None => ret (Rechazo 404 CitaNoEncontrada)
   | Some cita =>
       if includes [cancelada; completada; no_asistio; reprogramada]
                   (estado cita)
       then ret (Rechazo 400 (NoSePuedeReprogramar (estado cita)))
       else
         citaSolapada_ <-
           paso plan PSolapada
             (leer (fun w => citaSolapada (Some citaId) (medico cita)
                               (r_fechaInicio b) (r_fechaFin b)
                               (confirmadas w))) ;;
         match citaSolapada_ with
         | Some _ => ret (Rechazo 400 MedicoOcupado)
         | None => retirarYCrear plan dir msj ahora user b cita
         end
   end)%m.

Definition reprogramarCita (plan : Plan) (dir : Directorios)
    (msj : Mensajeria) (ahora : Fecha) (user : ReqUser) (citaId : ObjectId)
    (b : ReprogramarBody) : M Mundo Respuesta :=
  fun w0 =>
    finalmente
      (atrapar
         (intentoReprogramar plan dir msj ahora user citaId b)
         (abortTransaction ;;; ret (Rechazo 500 ErrorInterno))%m)
      endSession
      (startTransaction w0).

(** A run of the handler on a collection with no transaction open: the
    response, when one is sent, and what readers see afterwards. *)
Definition mundoInicial (citas : list Cita) : Mundo :=
  {| confirmadas := citas; pendientes := []; transaccion := SinTransaccion |}.

Definition ejecutarReprogramar (plan : Plan) (dir : Directorios)
    (msj : Mensajeria) (ahora : Fecha) (user : ReqUser) (citaId : ObjectId)
    (b : ReprogramarBody) (citas : list Cita)
    : Salida Respuesta * list Cita :=
  let (r, w) := reprogramarCita plan dir msj ahora user citaId b
                  (mundoInicial citas) in
  (r, confirmadas w).

(** ** The routes (src/routes/citas.js) *)

(** Modelled from the spec: [validate] of middleware/security, which every
    route puts between its chain of validators and its controller, is not
    among the sources, and the specification keeps the validation
    middleware outside the scheduler. It is taken to do what [validar] of
    middleware/validacion.js does with the result of the validators of the
    chain: answer 400 when one of them failed, call the controller
    otherwise. *)
Definition validate (errores : list string)
    (controlador : list Cita -> Respuesta * list Cita)
    (citas : list Cita) : Respuesta * list Cita :=
  match errores with
  | [] => controlador citas
  | _ => (Rechazo 400 (DatosNoValidos errores), citas)
  end.

(** A validator of a chain: the field it reports when it fails. *)
Definition comprobar (campo : string) (ok : bool) : list string :=
  if ok then [] else [campo].

(** [notEmpty()] and [isIn(lista)] of express-validator; a missing field is
    validated as the empty string. *)
Definition notEmpty (v : option string) : bool := truthy v.

Definition isIn (lista : list string) (v : option string) : bool :=
  match v with
  | Some s => existsb (String.eqb s) lista
  | None => false
  end.

(** The body of POST /api/citas as the validators see it: [None] is a field
    that fails [isMongoId()] or [isISO8601()], or is missing. *)
Record CrearCrudo := {
  cr_paciente : option ObjectId;
  cr_medico : option ObjectId;
  cr_tratamiento : option ObjectId;
  cr_fechaInicio : option Fecha;
  cr_fechaFin : option Fecha;
  cr_notas : option string
}.

Definition erroresCrear (c : CrearCrudo) : list string :=
  comprobar "paciente" (presente (cr_paciente c))
  ++ comprobar "medico" (presente (cr_medico c))
  ++ comprobar "tratamiento" (presente (cr_tratamiento c))
  ++ comprobar "fechaInicio" (presente (cr_fechaInicio c))
  ++ comprobar "fechaFin" (presente (cr_fechaFin c)).

Definition post_citas (dir : Directorios) (msj : Mensajeria) (ahora : Fecha)
    (c : CrearCrudo) (citas : list Cita) : Respuesta * list Cita :=
  match cr_paciente c, cr_medico c, cr_tratamiento c,
        cr_fechaInicio c, cr_fechaFin c with
  | Some p, Some m, Some t, Some i, Some f =>
      validate (erroresCrear c)
        (crearCita dir msj ahora
           {| b_paciente := p; b_medico := m; b_tratamiento := t;
              b_fechaInicio := i; b_fechaFin := f; b_notas := cr_notas c |})
        citas
  | _, _, _, _, _ => (Rechazo 400 (DatosNoValidos (erroresCrear c)), citas)
  end.

(** PUT /api/citas/:id has an empty chain. *)
Definition put_cita (dir : Directorios) (msj : Mensajeria) (ahora : Fecha)
    (citaId : ObjectId) (b : ActualizarBody)
    : list Cita -> Respuesta * list Cita :=
  validate [] (actualizarCita dir msj ahora citaId b).

(** PUT /api/citas/:id/estado: [estado] is in the list; [notas] is
    optional. *)
Definition put_estado (user : ReqUser) (citaId : ObjectId) (b : EstadoBody)
    : list Cita -> Respuesta * list Cita :=
  validate (comprobar "estado" (isIn estadosValidos (e_estado b)))
    (cambiarEstadoCita user citaId b).

(** POST /api/citas/:id/cancelar: [motivo] is not empty and [canceladoPor]
    is one of the three values. *)
Definition post_cancelar (dir : Directorios) (user : ReqUser)
    (citaId : ObjectId) (b : CancelarBody)
    : list Cita -> Respuesta * list Cita :=
  validate
    (comprobar "motivo" (notEmpty (k_motivo b))
     ++ comprobar "canceladoPor"
          (isIn ["paciente"; "medico"; "sistema"] (k_canceladoPor b)))
    (cancelarCita dir user citaId b).

(** ** Vocabulary of the statements *)

(** The specification's conflict: some stored appointment the check has
    to test has a window that intersects the candidate window. *)
Definition hayConflicto (excl : option ObjectId) (med : ObjectId)
    (ini fin : Fecha) (citas : list Cita) : Prop :=
  exists c,
    In c citas /\ candidata excl med c
    /\ intersecan (fechaInicio c) (fechaFin c) ini fin.

(** A booking reaches the availability check when the look-ups before it
    pass: the patient exists, the practitioner is an active practitioner,
    the treatment is active and does not exclude the practitioner. *)
Definition llegaAlControl (dir : Directorios) (b : CrearBody) : Prop :=
  buscarPaciente dir (b_paciente b) <> None
  /\ buscarMedicoActivo dir (b_medico b) <> None
  /\ exists trat,
       buscarTratamientoActivo dir (b_tratamiento b) = Some trat
       /\ (profesionalesHabilitados trat = []
           \/ In (b_medico b) (profesionalesHabilitados trat)).

(** An update changes the window when it carries a start or an end other
    than the stored one. *)
Definition cambiaVentana (b : ActualizarBody) (cita : Cita) : Prop :=
  (exists t, a_fechaInicio b = Some t /\ t <> fechaInicio cita)
  \/ (exists t, a_fechaFin b = Some t /\ t <> fechaFin cita).

(** A document without its notification log. *)
Definition sinRecordatorios (c : Cita) : Cita :=
  {| _id := _id c; paciente := paciente c; medico := medico c;
     tratamiento := tratamiento c; fechaInicio := fechaInicio c;
     fechaFin := fechaFin c;
     estado := estado c; notas := notas c; citaOriginal := citaOriginal c;
     recordatoriosEnviados := [];
     canceladoPor := canceladoPor c;
     motivoCancelacion := motivoCancelacion c |}.


Definition olvidarRespuesta (r : Respuesta) : Respuesta :=
  match r with
  | Creada c => Creada (option_map sinRecordatorios c)
  | Actualizada c => Actualizada (option_map sinRecordatorios c)
  | EstadoActualizado c s => EstadoActualizado (sinRecordatorios c) s
  | Reprogramada o c =>
      Reprogramada o
        (option_map (fun p => (sinRecordatorios (fst p),
                               option_map sinRecordatorios (snd p))) c)
  | CitaCancelada c => CitaCancelada (sinRecordatorios c)
  | Rechazo st m => Rechazo st m
  end.


(** A run that did not answer with a success. *)
Definition fallida (r : Salida Respuesta) : bool :=
  match r with
  | Valor resp => negb (exito resp)
  | _ => true
  end.

(** What a committed reschedule of [cita] leaves visible in [despues],
    starting from [antes]: the original retired, a successor under a new
    identifier, and every other document as it was. *)
Definition ambasVisibles (user : ReqUser) (b : ReprogramarBody)
    (cita : Cita) (antes despues : list Cita) : Prop :=
  findById (_id cita) despues = Some (retirada user (r_motivo b) cita)
  /\ findById (nuevoId antes) antes = None
  /\ (exists nueva,
        findById (nuevoId antes) despues = Some nueva
        /\ sinRecordatorios nueva
           = sucesora (nuevoId antes) b (retirada user (r_motivo b) cita))
  /\ (forall i, i <> _id cita -> i <> nuevoId antes ->
                findById i despues = findById i antes).

(** Some stored appointment names [i] as its original. *)
Definition tieneSucesora (i : ObjectId) (citas : list Cita) : Prop :=
  exists n, In n citas /\ citaOriginal n = Some i.

(** [despues] is [antes] after saves of documents that differ from [c] in
    the notification log only. *)
Inductive soloRecordatorios (c : Cita) (antes : list Cita)
    : list Cita -> Prop :=
| sr_nada : soloRecordatorios c antes antes
| sr_guardar (d : Cita) (l : list Cita) :
    soloRecordatorios c antes l ->
    sinRecordatorios d = sinRecordatorios c ->
    soloRecordatorios c antes (save d l).

(** Every document of [antes] is still in [despues], under its identifier
    and with its back-reference. *)
Definition extiende (antes despues : list Cita) : Prop :=
  forall c, In c antes ->
    exists c', In c' despues /\ _id c' = _id c
               /\ citaOriginal c' = citaOriginal c.

(** The transition table of the specification (section 4.1). *)
Definition tablaPermitida (desde hacia : Estado) : bool :=
  match desde with
  | programada =>
      includes [confirmada; en_curso; completada; cancelada; reprogramada;
                no_asistio] hacia
  | confirmada =>
      includes [en_curso; completada; cancelada; reprogramada; no_asistio]
               hacia
  | en_curso =>
      includes [completada; cancelada; reprogramada; no_asistio] hacia
  | completada | cancelada | reprogramada | no_asistio => false
  end.

(** The requests of the scheduler that write, and the collection each one
    leaves. *)
Inductive Peticion :=
| PideCrear (msj : Mensajeria) (ahora : Fecha) (b : CrearBody)
| PideActualizar (msj : Mensajeria) (ahora : Fecha) (citaId : ObjectId)
    (b : ActualizarBody)
| PideCambiarEstado (user : ReqUser) (citaId : ObjectId) (b : EstadoBody)
| PideReprogramar (plan : Plan) (msj : Mensajeria) (ahora : Fecha)
    (user : ReqUser) (citaId : ObjectId) (b : ReprogramarBody)
| PideCancelar (user : ReqUser) (citaId : ObjectId) (b : CancelarBody).

Definition atender (dir : Directorios) (p : Peticion) (citas : list Cita)
    : list Cita :=
  match p with
  | PideCrear msj ahora b => snd (crearCita dir msj ahora b citas)
  | PideActualizar msj ahora citaId b =>
      snd (actualizarCita dir msj ahora citaId b citas)
  | PideCambiarEstado user citaId b =>
      snd (cambiarEstadoCita user citaId b citas)
  | PideReprogramar plan msj ahora user citaId b =>
      snd (ejecutarReprogramar plan dir msj ahora user citaId b citas)
  | PideCancelar user citaId b => snd (cancelarCita dir user citaId b citas)
  end.

Definition atenderTodas (dir : Directorios) (ps : list Peticion)
    (citas : list Cita) : list Cita :=
  fold_left (fun acc p => atender dir p acc) ps citas.

(** The fields an update must leave alone. *)
Definition mismoMarco (a b : Cita) : Prop :=
  _id a = _id b
  /\ paciente a = paciente b
  /\ medico a = medico b
  /\ tratamiento a = tratamiento b
  /\ estado a = estado b
  /\ citaOriginal a = citaOriginal b
  /\ canceladoPor a = canceladoPor b
  /\ motivoCancelacion a = motivoCancelacion b.

(** The document crearCita builds from the body. *)
Definition citaNueva (b : CrearBody) (citas : list Cita) : Cita :=
  {| _id := nuevoId citas;
     paciente := b_paciente b;
     medico := b_medico b;
     tratamiento := b_tratamiento b;
     fechaInicio := b_fechaInicio b;
     fechaFin := b_fechaFin b;
     estado := programada;
     notas := option_map trim (b_notas b);
     citaOriginal := None;
     recordatoriosEnviados := [];
     canceladoPor := no_aplica;
     motivoCancelacion := None |}.

(** What the specification asks of a successful reschedule of [citaId]
    that answered [resp] and turned [citas] into [citas']: the original
    retired, with canceled-by from the role of the caller (patient for a
    patient, practitioner for every other role) and the reason of the
    request, trimmed (or "Cita reprogramada"), and otherwise as it was;
    a successor under a new identifier; both in the answer. *)
Definition reprogramacionHecha (user : ReqUser) (citaId : ObjectId)
    (b : ReprogramarBody) (citas citas' : list Cita) (resp : Respuesta)
    : Prop :=
  exists cita original nueva,
    findById citaId citas = Some cita
    /\ resp = Reprogramada (citaId, reprogramada)
                (Some (nueva, Some original))
    /\ findById citaId citas' = Some original
    /\ _id original = citaId
    /\ estado original = reprogramada
    /\ (rol user = rol_paciente -> canceladoPor original = por_paciente)
    /\ (rol user <> rol_paciente -> canceladoPor original = por_medico)
    /\ (forall m, r_motivo b = Some m -> m <> "" ->
          motivoCancelacion original = Some (trim m))
    /\ (r_motivo b = None \/ r_motivo b = Some "" ->
        motivoCancelacion original = Some "Cita reprogramada")
    /\ paciente original = paciente cita
    /\ medico original = medico cita
    /\ tratamiento original = tratamiento cita
    /\ fechaInicio original = fechaInicio cita
    /\ fechaFin original = fechaFin cita
    /\ notas original = notas cita
    /\ citaOriginal original = citaOriginal cita
    /\ recordatoriosEnviados original = recordatoriosEnviados cita
    /\ findById (_id nueva) citas = None
    /\ findById (_id nueva) citas' = Some nueva
    /\ estado nueva = programada
    /\ paciente nueva = paciente cita
    /\ medico nueva = medico cita
    /\ tratamiento nueva = tratamiento cita
    /\ notas nueva = option_map trim (notas cita)
    /\ (forall n, notas cita = option_map trim n -> notas nueva = notas cita)
    /\ fechaInicio nueva = r_fechaInicio b
    /\ fechaFin nueva = r_fechaFin b
    /\ citaOriginal nueva = Some citaId
    /\ canceladoPor nueva = no_aplica
    /\ motivoCancelacion nueva = None.



(** ** A small clinic, for the concrete runs

    One patient (document 1, user 10, both reminders on), one active
    practitioner (user 20) and one unrestricted active treatment (30).
    The instants of these runs are small numbers, of which the scheduler
    only compares the order: read 600 as 10:00. *)

Definition clinica : Directorios :=
  {| pacientes :=
       [ {| p_id := 1%nat; usuario := 10%nat;
            recordatoriosEmail := true; recordatoriosSMS := true |} ];
     usuarios :=
       [ {| u_id := 10%nat; u_rol := rol_paciente; activo := true;
            email := Some "ana@example.org"; telefono := Some "5551234567" |};
         {| u_id := 20%nat; u_rol := rol_medico; activo := true;
            email := None; telefono := None |} ];
     tratamientos :=
       [ {| t_id := 30%nat; t_activo := true;
            profesionalesHabilitados := [] |} ] |}.

Definition entrega : Mensajeria := {| emailOk := true; smsOk := true |}.
Definition noEntrega : Mensajeria := {| emailOk := false; smsOk := false |}.

Definition secretaria : ReqUser :=
  {| userId := 40%nat; rol := rol_secretaria |}.

(** An appointment of practitioner 20 in state [e], from [ini] to [fin]. *)
Definition citaDe (id : ObjectId) (e : Estado) (ini fin : Fecha) : Cita :=
  {| _id := id; paciente := 1%nat; medico := 20%nat; tratamiento := 30%nat;
     fechaInicio := ini; fechaFin := fin; estado := e; notas := None;
     citaOriginal := None; recordatoriosEnviados := [];
     canceladoPor := no_aplica; motivoCancelacion := None |}.

(** The booking of scenario 1 of the specification: 10:00 to 10:30. *)
Definition agenda : list Cita := [citaDe 1%nat programada 600 630].

Definition reserva : CrearBody :=
  {| b_paciente := 1%nat; b_medico := 20%nat; b_tratamiento := 30%nat;
     b_fechaInicio := 600; b_fechaFin := 630; b_notas := None |}.

(** Scenario 2: 10:15 to 10:45, across the booking of scenario 1. *)
Definition reservaSolapada : CrearBody :=
  {| b_paciente := 1%nat; b_medico := 20%nat; b_tratamiento := 30%nat;
     b_fechaInicio := 615; b_fechaFin := 645; b_notas := None |}.

(** The patient of the clinic, logged in. *)
Definition ana : ReqUser := {| userId := 10%nat; rol := rol_paciente |}.

(** Scenario 4: the move to 14:00. *)
Definition mudanza : ReprogramarBody :=
  {| r_fechaInicio := 840; r_fechaFin := 870; r_motivo := None |}.


(** The read after the commit throws. *)
Definition fallaAlPoblar : Plan :=
  fun p => match p with PPoblar => Lanza | _ => Normal end.

(** The process dies between the two writes. *)
Definition muereEntreEscrituras : Plan :=
  fun p => match p with PGuardarNueva => Cae | _ => Normal end.

(** ** The read handlers (obtenerCitas, obtenerCitaPorId,
    obtenerCitasMedico, obtenerCitasPorFecha)

    The documents of an answer stand for their populated form, as in the
    write handlers; an answer that carries another appointment inside
    (the populated [citaOriginal] of obtenerCitaPorId) has it as a
    component. [page] and [limit] are the parsed integers of the query;
    the model covers the positive ones. *)

(** The string a state is stored as. *)
Definition nombreEstado (e : Estado) : string :=
  match e with
  | programada => "programada"
  | confirmada => "confirmada"
  | en_curso => "en_curso"
  | completada => "completada"
  | cancelada => "cancelada"
  | reprogramada => "reprogramada"
  | no_asistio => "no_asistio"
  end.

(** The [filtro] object the handlers build. *)
Record Filtro := {
  f_paciente : option ObjectId;
  f_medico : option ObjectId;
  f_estado : option string;
  f_tratamiento : option ObjectId;
  f_desde : option Fecha;     (* fechaInicio.$gte *)
  f_hasta : option Fecha      (* fechaInicio.$lte *)
}.

Definition coincide (f : option ObjectId) (v : ObjectId) : bool :=
  match f with
  | Some i => Nat.eqb v i
  | None => true
  end.

(** Whether a document matches the filter. *)
Definition cumple (f : Filtro) (c : Cita) : bool :=
  coincide (f_paciente f) (paciente c)
  && coincide (f_medico f) (medico c)
  && match f_estado f with
     | Some s => String.eqb (nombreEstado (estado c)) s
     | None => true
     end
  && coincide (f_tratamiento f) (tratamiento c)
  && match f_desde f with
     | Some d => d <=? fechaInicio c
     | None => true
     end
  && match f_hasta f with
     | Some h => fechaInicio c <=? h
     | None => true
     end.

(** [.sort({ campo: 1 })]: the documents by ascending key. Documents with
    the same key keep the order of the collection (Mongo leaves their
    order open). *)
Fixpoint insertar (clave : Cita -> Z) (c : Cita) (l : list Cita)
    : list Cita :=
  match l with
  | [] => [c]
  | d :: resto =>
      if clave c <=? clave d then c :: l else d :: insertar clave c resto
  end.

Definition ordenar (clave : Cita -> Z) (l : list Cita) : list Cita :=
  fold_right (insertar clave) [] l.

(** [sort[ordenarPor] = orden === 'asc' ? 1 : -1]. *)
Definition ordenarSegun (clave : Cita -> Z) (asc : bool) (l : list Cita)
    : list Cita :=
  if asc then ordenar clave l else ordenar (fun c => - clave c) l.

(** [.skip((page - 1) * limit).limit(limit)]. *)
Definition paginar (page limit : positive) (l : list Cita) : list Cita :=
  firstn (Pos.to_nat limit)
    (skipn ((Pos.to_nat page - 1) * Pos.to_nat limit) l).

(** [Math.ceil(totalCitas / limit)]. *)
Definition totalPaginas (totalCitas : nat) (limit : positive) : nat :=
  (totalCitas + Pos.to_nat limit - 1) / Pos.to_nat limit.

Inductive MensajeLectura :=
| LecturaCitaNoEncontrada     (* 'Cita no encontrada' *)
| SinPermisoVer               (* 'No tienes permiso para acceder a esta cita' *)
| SoloPropias                 (* 'Solo puedes ver tus propias citas' *)
| LecturaMedicoNoEncontrado   (* 'Médico no encontrado' *)
| FormatoFechaInvalido        (* 'Formato de fecha inválido. Use YYYY-MM-DD' *)
| ErrorLectura.               (* the message of a catch block *)

(** A group of [citasPorMedico]. *)
Record Grupo := {
  g_medico : Usuario;
  g_citas : list Cita
}.

Inductive Lectura :=
| Listado (totalCitas totalPaginas_ : nat) (pagina : positive)
    (citas : list Cita)
| ListadoMedico (medico_ : Usuario) (totalCitas totalPaginas_ : nat)
    (pagina : positive) (citas : list Cita)
| UnaCita (cita : Cita) (citaOriginal_ : option Cita)
| PorFecha (totalCitas : nat) (citasPorMedico : list Grupo)
    (citas : list Cita)
| Negada (status : nat) (m : MensajeLectura).

(** The appointments an answer hands over. *)
Definition citasDe (r : Lectura) : list Cita :=
  match r with
  | Listado _ _ _ l => l
  | ListadoMedico _ _ _ _ l => l
  | UnaCita c original =>
      c :: match original with
           | Some o => [o]
           | None => []
           end
  | PorFecha _ gs l => l ++ flat_map g_citas gs
  | Negada _ _ => []
  end.

(** [req.query] of GET /api/citas. *)
Record CitasQuery := {
  q_paciente : option ObjectId;
  q_medico : option ObjectId;
  q_estado : option string;
  q_tratamiento : option ObjectId;
  q_fechaDesde : option Fecha;
  q_fechaHasta : option Fecha;
  q_page : option positive;          (* default 1 *)
  q_limit : option positive;         (* default 10 *)
  q_ordenarPor : option (Cita -> Z); (* the field to sort by, as the number
                                        its values compare by (a date, an
                                        identifier); default fechaInicio *)
  q_orden : option string            (* default 'desc' *)
}.

Definition o_defecto {A} (v : option A) (d : A) : A :=
  match v with
  | Some a => a
  | None => d
  end.

Definition filtroCitas (user : ReqUser) (q : CitasQuery) : Filtro :=
  {| f_paciente := q_paciente q;
     f_medico := match rol user with
                 | rol_medico => Some (userId user)
                 | _ => q_medico q
                 end;
     f_estado := if truthy (q_estado q) then q_estado q else None;
     f_tratamiento := q_tratamiento q;
     f_desde := q_fechaDesde q;
     f_hasta := q_fechaHasta q |}.

Definition obtenerCitas (user : ReqUser) (q : CitasQuery)
    (citas : list Cita) : Lectura :=
  let filtro := filtroCitas user q in
  let page := o_defecto (q_page q) 1%positive in
  let limit := o_defecto (q_limit q) 10%positive in
  let clave := o_defecto (q_ordenarPor q) fechaInicio in
  let asc := String.eqb (o_defecto (q_orden q) "desc") "asc" in
  let encontradas := filter (cumple filtro) citas in
  Listado (List.length encontradas)
    (totalPaginas (List.length encontradas) limit) page
    (paginar page limit (ordenarSegun clave asc encontradas)).

Definition obtenerCitaPorId (dir : Directorios) (user : ReqUser)
    (citaId : ObjectId) (citas : list Cita) : Lectura :=
  match findById citaId citas with
  | None => Negada 404 LecturaCitaNoEncontrada
  | Some cita =>
      (* .populate('citaOriginal') *)
      let original := match citaOriginal cita with
                      | Some i => findById i citas
                      | None => None
                      end in
      match rol user with
      | rol_paciente =>
          match buscarPacienteDeUsuario dir (userId user) with
          | None => Negada 403 SinPermisoVer
          | Some p =>
              (* cita.paciente._id of the populated document *)
              match buscarPaciente dir (paciente cita) with
              | None => Negada 500 ErrorLectura
              | Some pc =>
                  if negb (Nat.eqb (p_id p) (p_id pc))
                  then Negada 403 SinPermisoVer
                  else UnaCita cita original
              end
          end
      | rol_medico =>
          (* cita.medico._id of the populated document *)
          match buscarUsuario dir (medico cita) with
          | None => Negada 500 ErrorLectura
          | Some m =>
              if negb (Nat.eqb (userId user) (u_id m))
              then Negada 403 SinPermisoVer
              else UnaCita cita original
          end
      | _ => UnaCita cita original
      end
  end.

(** [req.query] of GET /api/citas/medico/:medicoId. *)
Record MedicoQuery := {
  m_fechaDesde : option Fecha;
  m_fechaHasta : option Fecha;
  m_estado : option string;
  m_page : option positive;
  m_limit : option positive
}.

(** [User.findOne({ _id: medicoId, rol: 'medico' })]. *)
Definition buscarMedico (dir : Directorios) (id : ObjectId)
    : option Usuario :=
  find (fun u => Nat.eqb (u_id u) id
                 && match u_rol u with rol_medico => true | _ => false end)
       (usuarios dir).

Definition filtroMedico (medicoId : ObjectId) (q : MedicoQuery) : Filtro :=
  {| f_paciente := None;
     f_medico := Some medicoId;
     f_estado := if truthy (m_estado q) then m_estado q else None;
     f_tratamiento := None;
     f_desde := m_fechaDesde q;
     f_hasta := m_fechaHasta q |}.

Definition obtenerCitasMedico (dir : Directorios) (user : ReqUser)
    (medicoId : ObjectId) (q : MedicoQuery) (citas : list Cita) : Lectura :=
  if match rol user with
     | rol_medico => negb (Nat.eqb (userId user) medicoId)
     | _ => false
     end
  then Negada 403 SoloPropias
  else
    match buscarMedico dir medicoId with
    | None => Negada 404 LecturaMedicoNoEncontrado
    | Some medico_ =>
        let page := o_defecto (m_page q) 1%positive in
        let limit := o_defecto (m_limit q) 10%positive in
        let encontradas := filter (cumple (filtroMedico medicoId q)) citas in
        ListadoMedico medico_ (List.length encontradas)
          (totalPaginas (List.length encontradas) limit) page
          (paginar page limit (ordenar fechaInicio encontradas))
    end.

(** [citasPorMedico[medicoId].citas.push(cita)], creating the group of a
    practitioner at its first appointment. The groups are the values of an
    object keyed by the practitioner's id, in the order the keys were
    added. *)
Fixpoint agregarAGrupo (m : Usuario) (c : Cita) (gs : list Grupo)
    : list Grupo :=
  match gs with
  | [] => [ {| g_medico := m; g_citas := [c] |} ]
  | g :: resto =>
      if Nat.eqb (u_id (g_medico g)) (u_id m)
      then {| g_medico := g_medico g; g_citas := g_citas g ++ [c] |} :: resto
      else g :: agregarAGrupo m c resto
  end.

(** The loop over the appointments of the day; [None] is the TypeError on
    [cita.medico._id] when the practitioner of an appointment is gone. *)
Fixpoint agrupar (dir : Directorios) (citas : list Cita) (gs : list Grupo)
    : option (list Grupo) :=
  match citas with
  | [] => Some gs
  | c :: resto =>
      match buscarUsuario dir (medico c) with
      | None => None
      | Some m => agrupar dir resto (agregarAGrupo m c gs)
      end
  end.

(** The milliseconds of a day. *)
Definition msPorDia : Z := 86400000.

(** [d.setHours(0, 0, 0, 0)] and [d.setHours(23, 59, 59, 999)] on the
    instant [t], in milliseconds since the epoch: the first and the last
    millisecond of the local date [t] falls on. [desfase] is what the local
    clock of the server is ahead of UTC, in milliseconds (negative west of
    Greenwich); the zone is taken to keep that offset over the days
    involved. *)
Definition inicioDelDia (desfase : Z) (t : Fecha) : Fecha :=
  (t + desfase) / msPorDia * msPorDia - desfase.

Definition finDelDia (desfase : Z) (t : Fecha) : Fecha :=
  inicioDelDia desfase t + msPorDia - 1.

(** [fecha] is the parameter of the route as the handler reads it: [None]
    when it is not a YYYY-MM-DD date, and otherwise the number of that day,
    counted from 1970-01-01. [new Date(fecha)] is midnight UTC of that
    day; the handler then moves it to the ends of the local date that
    instant falls on. *)
Definition obtenerCitasPorFecha (dir : Directorios) (user : ReqUser)
    (desfase : Z) (fecha_ : option Z) (citas : list Cita) : Lectura :=
  match fecha_ with
  | None => Negada 400 FormatoFechaInvalido
  | Some dia =>
      let fechaInicio_ := inicioDelDia desfase (dia * msPorDia) in
      let fechaFin_ := finDelDia desfase (dia * msPorDia) in
      let filtro :=
        {| f_paciente := None;
           f_medico := match rol user with
                       | rol_medico => Some (userId user)
                       | _ => None
                       end;
           f_estado := None;
           f_tratamiento := None;
           f_desde := Some fechaInicio_;
           f_hasta := Some fechaFin_ |} in
      let delDia := ordenar fechaInicio (filter (cumple filtro) citas) in
      match agrupar dir delDia [] with
      | None => Negada 500 ErrorLectura
      | Some grupos => PorFecha (List.length delDia) grupos delDia
      end
  end.

(** ** The validators of middleware/validacion.js *)

(** [validadores.fechaFinPosterior]: [true] when the validator passes. *)
Definition fechaFinPosterior (fechaInicio_ fechaFin_ : Fecha) : bool :=
  negb (fechaFin_ <=? fechaInicio_).

(** [validadores.sinSuperposicionCitas]: it counts the documents of the
    filter of the controller, and passes when there is none. [paramId] is
    [req.params.id]. *)
Definition sinSuperposicionCitas (paramId : option ObjectId)
    (medicoId : ObjectId) (fechaInicio_ fechaFin_ : Fecha)
    (citas : list Cita) : bool :=
  negb (Nat.ltb 0
          (List.length
             (filter (filtroSolapada paramId medicoId fechaInicio_ fechaFin_)
                     citas))).

(** [validadores.medicoHabilitado]: it reads the treatment by its
    identifier alone, and passes when the treatment lists no enabled
    practitioner or lists this one. *)
Definition medicoHabilitado (dir : Directorios)
    (medicoId tratamientoId : ObjectId) : bool :=
  match buscarTratamiento dir tratamientoId with
  | None => false
  | Some tratamiento_ =>
      if Nat.ltb 0 (List.length (profesionalesHabilitados tratamiento_))
      then existsb (Nat.eqb medicoId) (profesionalesHabilitados tratamiento_)
      else true
  end.

(** ** The phone numbers of the SMS service (src/services/sms.js)

    A JavaScript string is the list of its UTF-16 code units. *)

Definition Texto := list N.

(** The class [\s] of a regular expression. *)
Definition esEspacio (u : N) : bool :=
  existsb (N.eqb u)
    [9; 10; 11; 12; 13; 32; 160; 5760; 8232; 8233; 8239; 8287; 12288;
     65279]%N
  || ((8192 <=? u) && (u <=? 8202))%N.

(** A match of [/\s+|\(|\)|\-/g]. *)
Definition esSeparador (u : N) : bool :=
  esEspacio u || N.eqb u 40 || N.eqb u 41 || N.eqb u 45.

(** [telefono.replace(/\s+|\(|\)|\-/g, '')]. *)
Definition limpiar (telefono_ : Texto) : Texto :=
  filter (fun u => negb (esSeparador u)) telefono_.

Definition esDigito (u : N) : bool := ((48 <=? u) && (u <=? 57))%N.

(** [numeroLimpio.startsWith('+')]. *)
Definition empiezaConMas (numeroLimpio : Texto) : bool :=
  match numeroLimpio with
  | u :: _ => N.eqb u 43
  | [] => false
  end.

(** [/^\+?[0-9]{10,15}$/.test(numeroLimpio)]. *)
Definition numeroValido (numeroLimpio : Texto) : bool :=
  let digitos := if empiezaConMas numeroLimpio then tl numeroLimpio
                 else numeroLimpio in
  forallb esDigito digitos
  && Nat.leb 10 (List.length digitos)
  && Nat.leb (List.length digitos) 15.

Definition _validarTelefono (telefono_ : Texto) : bool :=
  numeroValido (limpiar telefono_).

(** The string '+54'. *)
Definition prefijoArgentina : Texto := [43; 53; 52]%N.

Definition _formatearTelefono (telefono_ : Texto) : Texto :=
  let numeroLimpio := limpiar telefono_ in
  if negb (empiezaConMas numeroLimpio) then
    let conPrefijo := prefijoArgentina ++ numeroLimpio in
    (* charAt(3) === '0' *)
    match nth_error conPrefijo 3 with
    | Some u =>
        if N.eqb u 48 then prefijoArgentina ++ skipn 4 conPrefijo
        else conPrefijo
    | None => conPrefijo
    end
  else numeroLimpio.

(** [enviarSMS]: what reaches [twilio.messages.create], if anything.
    [entrega] is whether that call resolves. *)
Inductive Envio :=
| NoEnviado                     (* the function threw before calling Twilio *)
| Entregado (destino : Texto)
| Rechazado (destino : Texto).  (* Twilio threw *)

Definition enviarSMS (enabled entrega_ : bool) (to : Texto) : Envio :=
  if negb enabled then NoEnviado
  else if negb (_validarTelefono to) then NoEnviado
  else
    let numeroFormateado := _formatearTelefono to in
    if entrega_ then Entregado numeroFormateado
    else Rechazado numeroFormateado.

(** ** Vocabulary of the further statements *)

(** An appointment that blocks its window: the states the availability
    query does not skip. *)
Definition ocupaEstado (e : Estado) : bool :=
  negb (includes [cancelada; reprogramada] e).

Definition ocupa (c : Cita) : bool := ocupaEstado (estado c).

(** Two different appointments of one practitioner that both block
    windows which intersect. *)
Definition chocan (a b : Cita) : Prop :=
  _id a <> _id b
  /\ medico a = medico b
  /\ ocupa a = true /\ ocupa b = true
  /\ intersecan (fechaInicio a) (fechaFin a) (fechaInicio b) (fechaFin b).

(** A collection with distinct identifiers, windows that end after they
    start, and no collision. *)
Definition agendaSana (citas : list Cita) : Prop :=
  NoDup (map _id citas)
  /\ Forall ventana_valida citas
  /\ forall a b, In a citas -> In b citas -> ~ chocan a b.

(** The requests that keep such a collection: a window in the right
    order (for a booking and a reschedule, a body that passes the
    validator [fechaFinPosterior]), and no rescheduled appointment put
    back into a blocking state. *)
Definition pedidoSano (p : Peticion) (citas : list Cita) : Prop :=
  match p with
  | PideCrear _ _ b =>
      fechaFinPosterior (b_fechaInicio b) (b_fechaFin b) = true
  | PideActualizar _ _ citaId b =>
      forall cita, findById citaId citas = Some cita ->
        o_actual (a_fechaInicio b) (fechaInicio cita)
        < o_actual (a_fechaFin b) (fechaFin cita)
  | PideCambiarEstado _ citaId b =>
      forall cita hacia,
        findById citaId citas = Some cita ->
        estadoPedido b = Some hacia ->
        estado cita = reprogramada -> ocupaEstado hacia = false
  | PideReprogramar _ _ _ _ _ b =>
      fechaFinPosterior (r_fechaInicio b) (r_fechaFin b) = true
  | PideCancelar _ _ _ => True
  end.

(** [l] is the beginning of [l']. *)
Definition prefijo {A} (l l' : list A) : Prop := exists r, l' = l ++ r.

(** [c'] is [c] later on: the same appointment of the same patient,
    practitioner and treatment, with the same back-reference and a
    notification log that has only grown. *)
Definition perdura (c c' : Cita) : Prop :=
  _id c' = _id c
  /\ paciente c' = paciente c
  /\ medico c' = medico c
  /\ tratamiento c' = tratamiento c
  /\ citaOriginal c' = citaOriginal c
  /\ prefijo (recordatoriosEnviados c) (recordatoriosEnviados c').

Definition conserva (antes despues : list Cita) : Prop :=
  forall c, In c antes -> exists c', In c' despues /\ perdura c c'.

(** [despues] is [antes] after saves of [c] with one more reminder each
    time; [d] is the last version saved. *)
Inductive soloAgrega (c : Cita) (antes : list Cita)
    : Cita -> list Cita -> Prop :=
| sa_nada : soloAgrega c antes c antes
| sa_guardar (d : Cita) (l : list Cita) (r : Recordatorio) :
    soloAgrega c antes d l ->
    soloAgrega c antes (push_recordatorio r d)
      (save (push_recordatorio r d) l).

(** The query for another page. *)
Definition conPagina (q : CitasQuery) (p : positive) : CitasQuery :=
  {| q_paciente := q_paciente q; q_medico := q_medico q;
     q_estado := q_estado q; q_tratamiento := q_tratamiento q;
     q_fechaDesde := q_fechaDesde q; q_fechaHasta := q_fechaHasta q;
     q_page := Some p; q_limit := q_limit q;
     q_ordenarPor := q_ordenarPor q; q_orden := q_orden q |}.

(** Everything a query of GET /api/citas matches, in the order asked. *)
Definition todasLasCitas (user : ReqUser) (q : CitasQuery)
    (citas : list Cita) : list Cita :=
  ordenarSegun (o_defecto (q_ordenarPor q) fechaInicio)
    (String.eqb (o_defecto (q_orden q) "desc") "asc")
    (filter (cumple (filtroCitas user q)) citas).

(** The read requests of the router. *)
Inductive Consulta :=
| PideListado (q : CitasQuery)
| PideCita (citaId : ObjectId)
| PideListadoMedico (medicoId : ObjectId) (q : MedicoQuery)
| PidePorFecha (desfase : Z) (fecha_ : option Z).

Definition consultar (dir : Directorios) (user : ReqUser) (k : Consulta)
    (citas : list Cita) : Lectura :=
  match k with
  | PideListado q => obtenerCitas user q citas
  | PideCita citaId => obtenerCitaPorId dir user citaId citas
  | PideListadoMedico medicoId q =>
      obtenerCitasMedico dir user medicoId q citas
  | PidePorFecha desfase fecha_ =>
      obtenerCitasPorFecha dir user desfase fecha_ citas
  end.



(** The answer to a request that writes. *)
Definition responder (dir : Directorios) (p : Peticion) (citas : list Cita)
    : Salida Respuesta :=
  match p with
  | PideCrear msj ahora b => Valor (fst (crearCita dir msj ahora b citas))
  | PideActualizar msj ahora citaId b =>
      Valor (fst (actualizarCita dir msj ahora citaId b citas))
  | PideCambiarEstado user citaId b =>
      Valor (fst (cambiarEstadoCita user citaId b citas))
  | PideReprogramar plan msj ahora user citaId b =>
      fst (ejecutarReprogramar plan dir msj ahora user citaId b citas)
  | PideCancelar user citaId b =>
      Valor (fst (cancelarCita dir user citaId b citas))
  end.

(** The appointment a request names. *)
Definition objetivo (p : Peticion) : option ObjectId :=
  match p with
  | PideCrear _ _ _ => None
  | PideActualizar _ _ citaId _ => Some citaId
  | PideCambiarEstado _ citaId _ => Some citaId
  | PideReprogramar _ _ _ _ citaId _ => Some citaId
  | PideCancelar _ citaId _ => Some citaId
  end.

(** No request of [ps] is a change of state that names [citaId]. *)
Definition sinCambioDeEstado (citaId : ObjectId) (ps : list Peticion)
    : Prop :=
  forall user b, ~ In (PideCambiarEstado user citaId b) ps.

(** [d] is [c] with the same window. *)
Definition mismaVentana (c d : Cita) : Prop :=
  fechaInicio d = fechaInicio c /\ fechaFin d = fechaFin c.




(** Back-references stay with the practitioner: an appointment and the
    appointment it names as its original, when that one is stored, have
    the same practitioner. *)
Definition referenciasPropias (citas : list Cita) : Prop :=
  forall c i o,
    In c citas -> citaOriginal c = Some i -> findById i citas = Some o ->
    medico o = medico c.

(** The same, and every back-reference names a stored appointment. *)
Definition referenciasSanas (citas : list Cita) : Prop :=
  forall c i,
    In c citas -> citaOriginal c = Some i ->
    exists o, findById i citas = Some o /\ medico o = medico c.

(** ** Further example data *)




(** The booking of scenario 1 moved once: the original retired, and its
    successor. *)
Definition movida : list Cita :=
  [ citaDe 1%nat reprogramada 600 630;
    {| _id := 2%nat; paciente := 1%nat; medico := 20%nat;
       tratamiento := 30%nat; fechaInicio := 840; fechaFin := 870;
       estado := programada; notas := None; citaOriginal := Some 1%nat;
       recordatoriosEnviados := []; canceladoPor := no_aplica;
       motivoCancelacion := None |} ].

(** The user documents of two practitioners. *)
Definition medico20 : Usuario :=
  {| u_id := 20%nat; u_rol := rol_medico; activo := true;
     email := None; telefono := None |}.

Definition medico21 : Usuario :=
  {| u_id := 21%nat; u_rol := rol_medico; activo := true;
     email := None; telefono := None |}.

(** The clinic with a second practitioner. *)
Definition clinicaDos : Directorios :=
  {| pacientes := pacientes clinica;
     usuarios := usuarios clinica ++ [medico21];
     tratamientos := tratamientos clinica |}.

(** Practitioner 20, logged in. *)
Definition doctora : ReqUser := {| userId := 20%nat; rol := rol_medico |}.

(** An appointment of practitioner 21. *)
Definition citaDeOtro (id : ObjectId) (e : Estado) (ini fin : Fecha) : Cita :=
  {| _id := id; paciente := 1%nat; medico := 21%nat; tratamiento := 30%nat;
     fechaInicio := ini; fechaFin := fin; estado := e; notas := None;
     citaOriginal := None; recordatoriosEnviados := [];
     canceladoPor := no_aplica; motivoCancelacion := None |}.

(** A day of the two practitioners, in the order the appointments were
    booked. *)
Definition jornada : list Cita :=
  [ citaDe 1%nat programada 600 630;
    citaDeOtro 2%nat confirmada 540 570;
    citaDe 3%nat cancelada 660 690;
    citaDe 4%nat programada 480 510 ].

(** The same day in ascending order of start. *)
Definition jornadaOrdenada : list Cita :=
  [ citaDe 4%nat programada 480 510;
    citaDeOtro 2%nat confirmada 540 570;
    citaDe 1%nat programada 600 630;
    citaDe 3%nat cancelada 660 690 ].

Definition sinFiltros : MedicoQuery :=
  {| m_fechaDesde := None; m_fechaHasta := None; m_estado := None;
     m_page := None; m_limit := None |}.

(** The slot after the booking of scenario 1: 10:30 to 11:00. *)
Definition reservaSiguiente : CrearBody :=
  {| b_paciente := 1%nat; b_medico := 20%nat; b_tratamiento := 30%nat;
     b_fechaInicio := 630; b_fechaFin := 660; b_notas := None |}.

(** A second move, to 15:00. *)
Definition otraMudanza : ReprogramarBody :=
  {| r_fechaInicio := 900; r_fechaFin := 930; r_motivo := None |}.

(** An update of the notes alone. *)
Definition soloNotas : ActualizarBody :=
  {| a_fechaInicio := None; a_fechaFin := None;
     a_notas := Some "trae estudios" |}.

(** The state set back to programada. *)
Definition aProgramada : EstadoBody :=
  {| e_estado := Some "programada"; e_notas := None |}.

Definition porViaje : CancelarBody :=
  {| k_motivo := Some "viaje"; k_canceladoPor := None |}.

(** * Properties *)

(** ** The scenarios of the specification (section 8) *)

(** 1. The first booking succeeds, in state scheduled. *)
Example escenario_1 :
  crearCita clinica noEntrega 0 reserva []
  = (Creada (Some (citaDe 1%nat programada 600 630)), agenda).
Proof. reflexivity. Qed.

(** 2. 10:15 to 10:45 collides with it. *)
Example escenario_2 :
  crearCita clinica entrega 0
    {| b_paciente := 1%nat; b_medico := 20%nat; b_tratamiento := 30%nat;
       b_fechaInicio := 615; b_fechaFin := 645; b_notas := None |} agenda
  = (Rechazo 400 MedicoOcupado, agenda).
Proof. reflexivity. Qed.

(** 3. 10:30 to 11:00 only touches it. *)
Example escenario_3 :
  exito (fst (crearCita clinica entrega 0
                {| b_paciente := 1%nat; b_medico := 20%nat;
                   b_tratamiento := 30%nat; b_fechaInicio := 630;
                   b_fechaFin := 660; b_notas := None |} agenda)) = true.
Proof. reflexivity. Qed.

(** 4. The move to 14:00 retires the original and creates its successor. *)
Example escenario_4 :
  map (fun c => (_id c, estado c, fechaInicio c, citaOriginal c))
      (snd (ejecutarReprogramar sinFallos clinica entrega 0 secretaria 1%nat
              mudanza agenda))
  = [(1%nat, reprogramada, 600, None); (2%nat, programada, 840, Some 1%nat)].
Proof. reflexivity. Qed.

(** 5. A completed appointment cannot be canceled. *)
Example escenario_5 :
  post_cancelar clinica secretaria 1%nat
    {| k_motivo := Some "viaje"; k_canceladoPor := Some "sistema" |}
    (snd (put_estado secretaria 1%nat
            {| e_estado := Some "completada"; e_notas := None |} agenda))
  = (Rechazo 400 (NoSePuedeCancelar completada),
     [citaDe 1%nat completada 600 630]).
Proof. reflexivity. Qed.

(** 6. A cancellation without a reason is refused by the route. *)
Example escenario_6 :
  post_cancelar clinica secretaria 1%nat
    {| k_motivo := None; k_canceladoPor := Some "sistema" |} agenda
  = (Rechazo 400 (DatosNoValidos ["motivo"]), agenda).
Proof. reflexivity. Qed.

(** ** The schema's trim *)

Ltac por_casos_de_espacio :=
  repeat match goal with
         | |- context [if ?b then _ else _] => destruct b eqn:?
         end.

Lemma espacioAlInicio_sufijo (l r : list ascii) :
  espacioAlInicio l = Some r -> exists q, q <> [] /\ l = q ++ r.
Proof.
  destruct l as [|c1 [|c2 [|c3 r3]]]; simpl; por_casos_de_espacio;
    intros H; inversion H; subst;
    first [ now exists [c1] | now exists [c1; c2] | now exists [c1; c2; c3] ].
Qed.

Lemma espacioAlFinal_sufijo (l r : list ascii) :
  espacioAlFinal l = Some r -> exists q, q <> [] /\ l = q ++ r.
Proof.
  destruct l as [|c1 [|c2 [|c3 r3]]]; simpl; por_casos_de_espacio;
    intros H; inversion H; subst;
    first [ now exists [c1] | now exists [c1; c2] | now exists [c1; c2; c3] ].
Qed.

Section Quitar.
Variable cabeza : list ascii -> option (list ascii).
Hypothesis sufijo :
  forall l r, cabeza l = Some r -> exists q, q <> [] /\ l = q ++ r.

Lemma quitar_limpio (n : nat) (l : list ascii) :
  cabeza l = None -> quitar cabeza n l = l.
Proof. intros H. destruct n; simpl; [reflexivity | now rewrite H]. Qed.

Lemma quitar_resto (n : nat) (l : list ascii) :
  (List.length l <= n)%nat ->
  cabeza (quitar cabeza n l) = None
  /\ exists p, l = p ++ quitar cabeza n l.
Proof.
  revert l. induction n as [|n IH]; intros l Hn; simpl.
  - destruct l; [|simpl in Hn; lia]. split; [|now exists []].
    destruct (cabeza []) as [r|] eqn:E; [|reflexivity].
    apply sufijo in E. destruct E as ([|a q] & Hq & E);
      [now contradiction Hq | discriminate].
  - destruct (cabeza l) as [r|] eqn:E.
    + destruct (sufijo _ _ E) as (q & Hq & ->).
      rewrite length_app in Hn.
      assert (Hl : (List.length q > 0)%nat)
        by (destruct q; [now contradiction Hq | simpl; lia]).
      destruct (IH r ltac:(lia)) as [H1 [p Hp]]. split; [exact H1|].
      exists (q ++ p). now rewrite <- app_assoc, <- Hp.
    + split; [exact E | now exists []].
Qed.
End Quitar.

Lemma espacioAlInicio_prefijo (x y : list ascii) :
  espacioAlInicio (x ++ y) = None -> espacioAlInicio x = None.
Proof.
  destruct x as [|c1 [|c2 [|c3 r3]]]; simpl; try reflexivity;
    por_casos_de_espacio; try reflexivity; discriminate.
Qed.

Lemma trimStart_limpio (l : list ascii) :
  espacioAlInicio (trimStart l) = None.
Proof.
  apply (quitar_resto _ espacioAlInicio_sufijo). apply Nat.le_refl.
Qed.

Lemma trimEnd_limpio (l : list ascii) :
  espacioAlFinal (rev (trimEnd l)) = None.
Proof.
  unfold trimEnd. rewrite rev_involutive.
  apply (quitar_resto _ espacioAlFinal_sufijo). now rewrite length_rev.
Qed.

Lemma trimEnd_prefijo (l : list ascii) : exists q, l = trimEnd l ++ q.
Proof.
  unfold trimEnd.
  destruct (quitar_resto _ espacioAlFinal_sufijo (List.length l) (rev l))
    as [_ [p Hp]]; [now rewrite length_rev|].
  exists (rev p). rewrite <- rev_app_distr, <- Hp. now rewrite rev_involutive.
Qed.

(** What [trim] returns has no white space at either end, and [trim]
    leaves such a string as it is. *)
Lemma trim_limpio (s : string) :
  espacioAlInicio (list_ascii_of_string (trim s)) = None
  /\ espacioAlFinal (rev (list_ascii_of_string (trim s))) = None.
Proof.
  unfold trim. rewrite list_ascii_of_string_of_list_ascii.
  split; [|apply trimEnd_limpio].
  destruct (trimEnd_prefijo (trimStart (list_ascii_of_string s))) as [q Hq].
  apply (espacioAlInicio_prefijo _ q). rewrite <- Hq.
  apply trimStart_limpio.
Qed.

Lemma trim_fijo (s : string) :
  espacioAlInicio (list_ascii_of_string s) = None ->
  espacioAlFinal (rev (list_ascii_of_string s)) = None ->
  trim s = s.
Proof.
  intros H1 H2. unfold trim, trimEnd, trimStart.
  rewrite (quitar_limpio _ _ _ H1), (quitar_limpio _ _ _ H2).
  now rewrite rev_involutive, string_of_list_ascii_of_string.
Qed.

Lemma trim_idempotente (s : string) : trim (trim s) = trim s.
Proof. apply trim_fijo; apply trim_limpio. Qed.

Lemma trim_ejemplos :
  trim " ya no " = "ya no"
  /\ trim "   " = ""
  /\ trim "Cita reprogramada" = "Cita reprogramada"
  /\ trim (String (ascii_of_nat 9)
             (String (ascii_of_nat 194)
                (String (ascii_of_nat 160)
                   (String (ascii_of_nat 226)
                      (String (ascii_of_nat 128)
                         (String (ascii_of_nat 168) "a b")))))) = "a b"
  /\ trim (String (ascii_of_nat 226) (String (ascii_of_nat 128) "x"))
     = String (ascii_of_nat 226) (String (ascii_of_nat 128) "x")
  /\ trim (String "x" (String (ascii_of_nat 239)
             (String (ascii_of_nat 187)
                (String (ascii_of_nat 191) (String (ascii_of_nat 13) "")))))
     = "x".
Proof. repeat split; reflexivity. Qed.

(** ** Basic facts about states, lookups and saves *)

Lemma Estado_eqb_spec (a b : Estado) : reflect (a = b) (Estado_eqb a b).
Proof. destruct a, b; simpl; constructor; congruence. Qed.

Lemma Estado_eqb_refl (a : Estado) : Estado_eqb a a = true.
Proof. now destruct a. Qed.

Lemma Estado_eqb_neq (a b : Estado) : a <> b -> Estado_eqb a b = false.
Proof. intros H. destruct (Estado_eqb_spec a b); congruence. Qed.

Lemma includes_In (l : list Estado) (e : Estado) :
  includes l e = true <-> In e l.
Proof.
  unfold includes. rewrite existsb_exists. split.
  - intros [x [Hx Heq]]. destruct (Estado_eqb_spec e x); congruence.
  - intros H. exists e. split; [assumption | apply Estado_eqb_refl].
Qed.

Lemma buscarMedicoActivo_Some (dir : Directorios) (id : ObjectId)
    (m : Usuario) :
  buscarMedicoActivo dir id = Some m -> u_id m = id.
Proof.
  unfold buscarMedicoActivo. intros H. apply find_some in H.
  destruct H as [_ H]. rewrite !andb_true_iff in H.
  destruct H as [[H _] _]. now apply Nat.eqb_eq in H.
Qed.

Lemma findById_id (id : ObjectId) (citas : list Cita) (c : Cita) :
  findById id citas = Some c -> _id c = id.
Proof.
  unfold findById. intros H. apply find_some in H.
  destruct H as [_ H]. now apply Nat.eqb_eq in H.
Qed.

Lemma findById_In (id : ObjectId) (citas : list Cita) (c : Cita) :
  findById id citas = Some c -> In c citas.
Proof. unfold findById. intros H. now apply find_some in H. Qed.

Lemma findById_save_mismo (d : Cita) (citas : list Cita) :
  findById (_id d) (save d citas) = Some d.
Proof.
  unfold findById. induction citas as [|c resto IH]; simpl.
  - now rewrite Nat.eqb_refl.
  - destruct (Nat.eqb (_id c) (_id d)) eqn:E; simpl.
    + now rewrite Nat.eqb_refl.
    + now rewrite E.
Qed.

Lemma findById_save_otro (id : ObjectId) (d : Cita) (citas : list Cita) :
  id <> _id d -> findById id (save d citas) = findById id citas.
Proof.
  unfold findById. intros Hne. induction citas as [|c resto IH]; simpl.
  - destruct (Nat.eqb (_id d) id) eqn:E; [|reflexivity].
    apply Nat.eqb_eq in E. congruence.
  - destruct (Nat.eqb (_id c) (_id d)) eqn:E; simpl.
    + apply Nat.eqb_eq in E.
      destruct (Nat.eqb (_id d) id) eqn:E1;
        [apply Nat.eqb_eq in E1; congruence|].
      destruct (Nat.eqb (_id c) id) eqn:E2;
        [apply Nat.eqb_eq in E2; congruence|].
      reflexivity.
    + now rewrite IH.
Qed.

Lemma list_max_cota (l : list nat) (x : nat) :
  In x l -> (x <= list_max l)%nat.
Proof.
  induction l as [|y l IH]; simpl; [tauto|].
  intros [->|H]; [lia|]. specialize (IH H). lia.
Qed.

Lemma nuevoId_fresco (citas : list Cita) (c : Cita) :
  In c citas -> _id c <> nuevoId citas.
Proof.
  intros H. unfold nuevoId.
  assert (_id c <= list_max (map _id citas))%nat
    by (apply list_max_cota, in_map, H).
  lia.
Qed.

Lemma findById_nuevoId (citas : list Cita) :
  findById (nuevoId citas) citas = None.
Proof.
  destruct (findById (nuevoId citas) citas) as [c|] eqn:E; [|reflexivity].
  exfalso. apply (nuevoId_fresco citas c).
  - eapply findById_In, E.
  - eapply findById_id, E.
Qed.

(** ** Overlap detection *)

(** On two windows that end after they start, the three clauses of the
    query say what the half-open intersection says. *)
Lemma solapa_intersecan (ini fin : Fecha) (c : Cita) :
  ini < fin -> ventana_valida c ->
  (solapa ini fin c = true
   <-> intersecan (fechaInicio c) (fechaFin c) ini fin).
Proof.
  unfold solapa, intersecan, ventana_valida. intros Hc Hv.
  rewrite !orb_true_iff, !andb_true_iff.
  rewrite !Z.leb_le, !Z.ltb_lt. lia.
Qed.

Lemma filtroSolapada_candidata (excl : option ObjectId) (med : ObjectId)
    (ini fin : Fecha) (c : Cita) :
  filtroSolapada excl med ini fin c = true
  <-> candidata excl med c /\ solapa ini fin c = true.
Proof.
  unfold filtroSolapada, candidata.
  rewrite !andb_true_iff, negb_true_iff, Nat.eqb_eq.
  assert (Hex : match excl with
                | Some i => negb (Nat.eqb (_id c) i)
                | None => true
                end = true <-> excl <> Some (_id c)).
  { destruct excl as [i|]; [|split; [discriminate|reflexivity]].
    rewrite negb_true_iff, Nat.eqb_neq. split; congruence. }
  assert (Hes : includes [cancelada; reprogramada] (estado c) = false
                <-> estado c <> cancelada /\ estado c <> reprogramada).
  { destruct (estado c); simpl; split; intros H; try discriminate;
      try (split; discriminate); try reflexivity;
      destruct H; congruence. }
  rewrite Hex, Hes. tauto.
Qed.

Lemma citaSolapada_Some (excl : option ObjectId) (med : ObjectId)
    (ini fin : Fecha) (citas : list Cita) :
  (exists c, citaSolapada excl med ini fin citas = Some c)
  <-> (exists c, In c citas /\ candidata excl med c
                 /\ solapa ini fin c = true).
Proof.
  unfold citaSolapada. split.
  - intros [c H]. apply find_some in H. destruct H as [Hin Hf].
    apply filtroSolapada_candidata in Hf. exists c. tauto.
  - intros [c [Hin Hc]].
    destruct (find (filtroSolapada excl med ini fin) citas) as [d|] eqn:E.
    + now exists d.
    + exfalso. apply (find_none _ _ E) in Hin.
      apply filtroSolapada_candidata in Hc. congruence.
Qed.

Lemma sin_solape_al_tocarse (ini fin : Fecha) (c : Cita) :
  ini < fin -> ventana_valida c ->
  fechaFin c = ini \/ fin = fechaInicio c ->
  solapa ini fin c = false.
Proof.
  unfold solapa, ventana_valida. intros Hc Hv Ht.
  rewrite !orb_false_iff, !andb_false_iff.
  rewrite !Z.leb_gt, !Z.ltb_ge. lia.
Qed.

(** The handlers answer "El médico ya tiene otra cita programada en ese
    horario" exactly on what the query finds. *)
Lemma crearCita_ocupado (dir : Directorios) (msj : Mensajeria)
    (ahora : Fecha) (b : CrearBody) (citas : list Cita) :
  fst (crearCita dir msj ahora b citas) = Rechazo 400 MedicoOcupado ->
  citaSolapada None (b_medico b) (b_fechaInicio b) (b_fechaFin b) citas
  <> None.
Proof.
  unfold crearCita.
  destruct (buscarPaciente _ _); [|discriminate].
  destruct (buscarMedicoActivo _ _); [|discriminate].
  destruct (buscarTratamientoActivo _ _); [|discriminate].
  destruct (_ && _); [discriminate|].
  destruct (citaSolapada _ _ _ _ _); [discriminate|].
  simpl. discriminate.
Qed.

Lemma crearCita_solapada (dir : Directorios) (msj : Mensajeria)
    (ahora : Fecha) (b : CrearBody) (citas : list Cita) :
  citaSolapada None (b_medico b) (b_fechaInicio b) (b_fechaFin b) citas
  <> None ->
  exito (fst (crearCita dir msj ahora b citas)) = false
  /\ snd (crearCita dir msj ahora b citas) = citas.
Proof.
  unfold crearCita. intros H.
  destruct (buscarPaciente _ _); [|now split].
  destruct (buscarMedicoActivo _ _); [|now split].
  destruct (buscarTratamientoActivo _ _); [|now split].
  destruct (_ && _); [now split|].
  destruct (citaSolapada _ _ _ _ _); [now split|congruence].
Qed.

Lemma actualizarCita_ocupado (dir : Directorios) (msj : Mensajeria)
    (ahora : Fecha) (citaId : ObjectId) (b : ActualizarBody)
    (citas : list Cita) :
  fst (actualizarCita dir msj ahora citaId b citas)
  = Rechazo 400 MedicoOcupado ->
  exists cita,
    findById citaId citas = Some cita
    /\ citaSolapada (Some citaId) (medico cita)
         (o_actual (a_fechaInicio b) (fechaInicio cita))
         (o_actual (a_fechaFin b) (fechaFin cita)) citas <> None.
Proof.
  unfold actualizarCita.
  destruct (findById citaId citas) as [cita|]; [|discriminate].
  destruct (includes _ _); [discriminate|].
  destruct (_ || _).
  - destruct (citaSolapada _ _ _ _ _) eqn:E.
    + intros _. exists cita. split; [reflexivity|]. rewrite E. discriminate.
    + simpl. discriminate.
  - simpl. discriminate.
Qed.


(** ** The runs of reprogramarCita *)

(** Case analysis on the innermost scrutinee of the goal. *)
Ltac caso :=
  match goal with
  | |- context [match ?x with _ => _ end] =>
      lazymatch x with
      | context [match _ with _ => _ end] => fail
      | _ => destruct x eqn:?; simpl
      end
  end.

(** The notification block never throws and never commits: it leaves at
    most one more pending write, the successor with its reminder. *)
Lemma avisarReprogramacion_casos (plan : Plan) (dir : Directorios)
    (msj : Mensajeria) (ahora : Fecha) (cita nueva : Cita) (w : Mundo) :
  exists r w' extra,
    avisarReprogramacion plan dir msj ahora cita nueva w = (r, w')
    /\ confirmadas w' = confirmadas w
    /\ transaccion w' = transaccion w
    /\ pendientes w' = pendientes w ++ extra
    /\ (r = Valor tt \/ (r = Caida /\ exists p, plan p <> Normal))
    /\ (extra = []
        \/ extra = [push_recordatorio (recordatorio canal_email ahora) nueva]).
Proof.
  unfold avisarReprogramacion, enviarConfirmacionCita, atrapar, paso, deref,
    guardarEnSesion, modificar, lanzar, bind, ret.
  repeat caso.
  all: do 2 eexists;
    first [ exists []; split; [reflexivity|]; simpl;
            rewrite ?app_nil_r; repeat split; auto;
            right; split; [reflexivity|];
            eexists; match goal with H : _ = Cae |- _ => rewrite H end;
            discriminate
          | exists []; split; [reflexivity|]; simpl;
            rewrite ?app_nil_r; now auto 10
          | eexists; split; [reflexivity|]; simpl; now auto 10 ].
Qed.

Lemma retirarYCrear_casos (plan : Plan) (dir : Directorios)
    (msj : Mensajeria) (ahora : Fecha) (user : ReqUser)
    (b : ReprogramarBody) (cita : Cita) (w : Mundo) :
  pendientes w = [] ->
  let cita' := retirada user (r_motivo b) cita in
  let nueva := sucesora (nuevoId (confirmadas w)) b cita' in
  exists r w',
    retirarYCrear plan dir msj ahora user b cita w = (r, w')
    /\ ((confirmadas w' = confirmadas w
         /\ ((transaccion w' = transaccion w
              /\ (r = Excepcion \/ r = Caida))
             \/ (transaccion w' = Confirmada /\ r = Excepcion))
         /\ exists p, plan p <> Normal)
        \/ (exists extra,
              confirmadas w' = aplicar ([cita'; nueva] ++ extra) (confirmadas w)
              /\ transaccion w' = Confirmada
              /\ (extra = []
                  \/ extra = [push_recordatorio
                                (recordatorio canal_email ahora) nueva])
              /\ r = match plan PPoblar with
                     | Normal =>
                         Valor (Reprogramada (_id cita', estado cita')
                                  (poblarCitaOriginal (confirmadas w')
                                     (findById (_id nueva)
                                        (confirmadas w'))))
                     | Lanza => Excepcion
                     | Cae => Caida
                     end)).
Proof.
  intros Hp cita' nueva.
  assert (Hno : forall p e, plan p = e -> e <> Normal ->
                            exists q, plan q <> Normal)
    by (intros p e <- H; now exists p).
  unfold retirarYCrear, paso, guardarEnSesion, commitTransaction, modificar,
    leer, bind, ret.
  fold cita'.
  destruct (plan PGuardarOriginal) eqn:E1;
    [|do 2 eexists; split; [reflexivity|]; left;
      (split; [reflexivity|]); (split; [left; auto|]);
      eapply Hno; [exact E1|discriminate]..].
  cbn [confirmadas]. fold nueva.
  destruct (plan PGuardarNueva) eqn:E2;
    [|do 2 eexists; split; [reflexivity|]; left;
      (split; [reflexivity|]); (split; [left; auto|]);
      eapply Hno; [exact E2|discriminate]..].
  match goal with
  | |- context [avisarReprogramacion ?p ?d ?m ?a ?c ?n ?w0] =>
      destruct (avisarReprogramacion_casos p d m a c n w0)
        as (r & w1 & extra & Heq & Hc & Ht & Hpe & Hr & Hex);
      rewrite Heq
  end.
  cbn [confirmadas pendientes transaccion] in Hc, Ht, Hpe.
  rewrite Hp in Hpe. cbn [app] in Hpe.
  destruct Hr as [-> | [-> Hq]];
    [|do 2 eexists; split; [reflexivity|]; left;
      split; [exact Hc|]; split; [left; auto | exact Hq]].
  destruct (plan PCommit) eqn:E3.
  2: { do 2 eexists. split; [reflexivity|]. left. cbn.
       split; [exact Hc|]. split; [right; auto|].
       eapply Hno; [exact E3|discriminate]. }
  2: { do 2 eexists. split; [reflexivity|]. left.
       split; [exact Hc|]. split; [left; auto|].
       eapply Hno; [exact E3|discriminate]. }
  rewrite Hpe, Hc.
  destruct (plan PPoblar); cbn [confirmadas];
    do 2 eexists; (split; [reflexivity|]); right; exists extra;
    cbn [confirmadas transaccion]; auto.
Qed.

(** Every run of the handler, whatever fails: either nothing changed for
    the readers and the run did not succeed, or the transaction committed
    both writes. *)
Lemma ejecutarReprogramar_casos (plan : Plan) (dir : Directorios)
    (msj : Mensajeria) (ahora : Fecha) (user : ReqUser) (citaId : ObjectId)
    (b : ReprogramarBody) (citas : list Cita) :
  exists r citas',
    ejecutarReprogramar plan dir msj ahora user citaId b citas = (r, citas')
    /\ ((citas' = citas /\ fallida r = true
         /\ (r = Valor (Rechazo 400 MedicoOcupado) ->
             exists cita,
               findById citaId citas = Some cita
               /\ citaSolapada (Some citaId) (medico cita)
                    (r_fechaInicio b) (r_fechaFin b) citas <> None)
         /\ ((forall p, plan p = Normal) ->
             forall cita, findById citaId citas = Some cita ->
               includes [cancelada; completada; no_asistio; reprogramada]
                        (estado cita) = true
               \/ citaSolapada (Some citaId) (medico cita)
                    (r_fechaInicio b) (r_fechaFin b) citas <> None))
        \/ (exists cita extra,
              let cita' := retirada user (r_motivo b) cita in
              let nueva := sucesora (nuevoId citas) b cita' in
              findById citaId citas = Some cita
              /\ includes [cancelada; completada; no_asistio; reprogramada]
                          (estado cita) = false
              /\ citaSolapada (Some citaId) (medico cita)
                   (r_fechaInicio b) (r_fechaFin b) citas = None
              /\ citas' = aplicar ([cita'; nueva] ++ extra) citas
              /\ (extra = []
                  \/ extra = [push_recordatorio
                                (recordatorio canal_email ahora) nueva])
              /\ r = match plan PPoblar with
                     | Normal =>
                         Valor (Reprogramada (_id cita', estado cita')
                                  (poblarCitaOriginal citas'
                                     (findById (_id nueva) citas')))
                     | Lanza => Excepcion
                     | Cae => Caida
                     end)).
Proof.
  unfold ejecutarReprogramar, reprogramarCita, finalmente, atrapar,
    intentoReprogramar.
  unfold bind at 1. unfold paso at 1. unfold leer at 1.
  cbn [startTransaction mundoInicial confirmadas].
  destruct (plan PBuscar) eqn:EB.
  2,3: do 2 eexists; split; [reflexivity|]; left; cbn;
       repeat split; try discriminate;
       intros H; specialize (H PBuscar); congruence.
  destruct (findById citaId citas) as [cita|] eqn:Ef.
  2: { do 2 eexists; split; [reflexivity|]; left; cbn.
       repeat split; discriminate. }
  destruct (includes _ (estado cita)) eqn:Ei.
  { do 2 eexists; split; [reflexivity|]; left; cbn.
    repeat split; try discriminate.
    intros _ c Hc. inversion Hc; subst. now left. }
  unfold bind at 1. unfold paso at 1. unfold leer at 1.
  cbn [confirmadas].
  destruct (plan PSolapada) eqn:ES.
  2,3: do 2 eexists; split; [reflexivity|]; left; cbn;
       repeat split; try discriminate;
       intros H; specialize (H PSolapada); congruence.
  change (confirmadas (startTransaction (mundoInicial citas))) with citas.
  destruct (citaSolapada _ _ _ _ citas) as [otra|] eqn:Eo.
  { do 2 eexists; split; [reflexivity|]; left; cbn.
    repeat split.
    - intros _. exists cita. split; [reflexivity|]. rewrite Eo. discriminate.
    - intros _ c Hc. inversion Hc; subst. right. rewrite Eo. discriminate. }
  match goal with
  | |- context [retirarYCrear ?p ?d ?m ?a ?u ?bb ?c ?w0] =>
      destruct (retirarYCrear_casos p d m a u bb c w0 eq_refl)
        as (r & w1 & Heq & Hcasos);
      rewrite Heq
  end.
  cbn [confirmadas transaccion startTransaction mundoInicial] in Hcasos.
  destruct Hcasos
    as [(Hc & [(Ht & Hr) | (Ht & ->)] & Hp) | (extra & Hc & Ht & Hex & Hr)].
  - destruct Hr as [-> | ->].
    + unfold abortTransaction, bind, ret. rewrite Ht. cbn.
      do 2 eexists; split; [reflexivity|]. left.
      repeat split; try assumption; try discriminate.
      intros H. destruct Hp as [p Hp]. now specialize (H p).
    + do 2 eexists; split; [reflexivity|]. left. cbn.
      repeat split; try assumption; try discriminate.
      intros H. destruct Hp as [p Hp]. now specialize (H p).
  - unfold abortTransaction, bind, ret. rewrite Ht. cbn.
    do 2 eexists; split; [reflexivity|]. left.
    repeat split; try assumption; try discriminate.
    intros H. destruct Hp as [p Hp]. now specialize (H p).
  - subst r.
    destruct (plan PPoblar) eqn:EP.
    + do 2 eexists; split; [reflexivity|]. right.
      exists cita, extra. cbn zeta. cbn [confirmadas endSession]. rewrite Hc. auto 10.
    + unfold abortTransaction, bind. rewrite Ht.
      do 2 eexists; split; [reflexivity|]. right.
      exists cita, extra. cbn zeta. cbn [confirmadas endSession]. rewrite Hc. auto 10.
    + do 2 eexists; split; [reflexivity|]. right.
      exists cita, extra. cbn zeta. cbn [confirmadas endSession]. rewrite Hc. auto 10.
Qed.

Lemma reprogramarCita_ocupado (plan : Plan) (dir : Directorios)
    (msj : Mensajeria) (ahora : Fecha) (user : ReqUser) (citaId : ObjectId)
    (b : ReprogramarBody) (citas : list Cita) :
  fst (ejecutarReprogramar plan dir msj ahora user citaId b citas)
  = Valor (Rechazo 400 MedicoOcupado) ->
  exists cita,
    findById citaId citas = Some cita
    /\ citaSolapada (Some citaId) (medico cita)
         (r_fechaInicio b) (r_fechaFin b) citas <> None.
Proof.
  destruct (ejecutarReprogramar_casos plan dir msj ahora user citaId b citas)
    as (r & citas' & -> & [(_ & _ & H & _) | (cita & extra & H)]).
  - exact H.
  - cbn zeta in H. destruct H as (_ & _ & _ & _ & _ & ->). cbn [fst].
    destruct (plan PPoblar); discriminate.
Qed.

(** The query against the specification's conflict. *)
Lemma citaSolapada_conflicto (excl : option ObjectId) (med : ObjectId)
    (ini fin : Fecha) (citas : list Cita) :
  ini < fin -> Forall ventana_valida citas ->
  (citaSolapada excl med ini fin citas <> None
   <-> hayConflicto excl med ini fin citas).
Proof.
  intros Hc Hv. rewrite Forall_forall in Hv. unfold hayConflicto.
  transitivity (exists c, citaSolapada excl med ini fin citas = Some c).
  { destruct (citaSolapada _ _ _ _ _) as [c|]; split.
    - intros _. now exists c.
    - discriminate.
    - congruence.
    - intros [c H]; discriminate. }
  rewrite citaSolapada_Some.
  split; intros [c (Hin & Hca & Hs)]; exists c;
    (split; [assumption|]); (split; [assumption|]);
    now apply (solapa_intersecan ini fin c Hc (Hv c Hin)).
Qed.

(** The test of the eligibility list in crearCita. *)
Lemma habilitado_false (m : ObjectId) (l : list ObjectId) :
  negb (Nat.eqb (List.length l) 0) && negb (existsb (Nat.eqb m) l) = false
  <-> l = [] \/ In m l.
Proof.
  destruct l as [|x l]; simpl.
  - split; auto.
  - rewrite negb_false_iff, orb_true_iff, existsb_exists. split.
    + intros [H | [y [Hy H]]]; right.
      * apply Nat.eqb_eq in H. left. congruence.
      * apply Nat.eqb_eq in H. subst. now right.
    + intros [H | [H | H]].
      * discriminate.
      * left. subst. apply Nat.eqb_refl.
      * right. exists m. split; [assumption | apply Nat.eqb_refl].
Qed.

(** crearCita answers that the practitioner is busy exactly when the
    booking reaches the availability check and the query finds a
    document, and books when it reaches the check and the query finds
    none. *)
Lemma crearCita_control (dir : Directorios) (msj : Mensajeria)
    (ahora : Fecha) (b : CrearBody) (citas : list Cita) :
  (fst (crearCita dir msj ahora b citas) = Rechazo 400 MedicoOcupado
   <-> llegaAlControl dir b
       /\ citaSolapada None (b_medico b) (b_fechaInicio b) (b_fechaFin b)
            citas <> None)
  /\ (llegaAlControl dir b ->
      citaSolapada None (b_medico b) (b_fechaInicio b) (b_fechaFin b) citas
      = None ->
      exito (fst (crearCita dir msj ahora b citas)) = true).
Proof.
  unfold crearCita, llegaAlControl.
  destruct (buscarPaciente _ _) as [pac|] eqn:EP.
  2: { split; [split; [discriminate | intros [(H & _) _]]
              | intros (H & _) _]; now contradiction H. }
  destruct (buscarMedicoActivo _ _) as [med|] eqn:EM.
  2: { split; [split; [discriminate | intros [(_ & H & _) _]]
              | intros (_ & H & _) _]; now contradiction H. }
  destruct (buscarTratamientoActivo _ _) as [trat|] eqn:ET.
  2: { split; [split; [discriminate | intros [(_ & _ & t & Ht & _) _]]
              | intros (_ & _ & t & Ht & _) _]; discriminate. }
  rewrite (buscarMedicoActivo_Some _ _ _ EM).
  destruct (negb _ && negb _) eqn:EH.
  { split; [split; [discriminate | intros [(_ & _ & t & [= <-] & Hh) _]]
           | intros (_ & _ & t & [= <-] & Hh) _];
      apply habilitado_false in Hh; congruence. }
  apply habilitado_false in EH.
  destruct (citaSolapada _ _ _ _ _) eqn:ES.
  - split; [split|].
    + intros _. split; [|discriminate].
      split; [discriminate|]. split; [discriminate|]. now exists trat.
    + reflexivity.
    + intros _ [=].
  - split; [split|].
    + simpl. discriminate.
    + intros [_ H]. now contradiction H.
    + reflexivity.
Qed.

Lemma difiere_true (f : option Fecha) (actual : Fecha) :
  difiere f actual = true <-> exists t, f = Some t /\ t <> actual.
Proof.
  unfold difiere. destruct f as [t|].
  - rewrite negb_true_iff, Z.eqb_neq. split.
    + intros H. now exists t.
    + intros [t' [[= <-] H]]. exact H.
  - split; [discriminate | intros [t [[=] _]]].
Qed.

Lemma cambiaVentana_difiere (b : ActualizarBody) (cita : Cita) :
  difiere (a_fechaInicio b) (fechaInicio cita)
  || difiere (a_fechaFin b) (fechaFin cita) = true
  <-> cambiaVentana b cita.
Proof.
  unfold cambiaVentana. now rewrite orb_true_iff, !difiere_true.
Qed.

(** actualizarCita, on an appointment it finds in a state it may update,
    answers that the practitioner is busy exactly when the update changes
    the window and the query finds a document for the new one; every other
    such update is applied. *)
Lemma actualizarCita_control (dir : Directorios) (msj : Mensajeria)
    (ahora : Fecha) (citaId : ObjectId) (b : ActualizarBody)
    (citas : list Cita) (cita : Cita) :
  findById citaId citas = Some cita ->
  includes [cancelada; completada; no_asistio] (estado cita) = false ->
  (fst (actualizarCita dir msj ahora citaId b citas)
   = Rechazo 400 MedicoOcupado
   <-> cambiaVentana b cita
       /\ citaSolapada (Some citaId) (medico cita)
            (o_actual (a_fechaInicio b) (fechaInicio cita))
            (o_actual (a_fechaFin b) (fechaFin cita)) citas <> None)
  /\ (fst (actualizarCita dir msj ahora citaId b citas)
      <> Rechazo 400 MedicoOcupado ->
      exito (fst (actualizarCita dir msj ahora citaId b citas)) = true).
Proof.
  intros Hf Hi. unfold actualizarCita. rewrite Hf, Hi.
  destruct (difiere _ _ || difiere _ _) eqn:ED.
  - apply cambiaVentana_difiere in ED.
    destruct (citaSolapada _ _ _ _ _) eqn:ES.
    + split; [split|].
      * intros _. split; [exact ED | discriminate].
      * reflexivity.
      * intros H. now contradiction H.
    + split; [split|].
      * simpl. discriminate.
      * intros [_ H]. now contradiction H.
      * reflexivity.
  - assert (Hno : ~ cambiaVentana b cita)
      by (rewrite <- cambiaVentana_difiere, ED; discriminate).
    split; [split|].
    + simpl. discriminate.
    + intros [H _]. contradiction.
    + reflexivity.
Qed.

(** reprogramarCita, when the two reads before the writes go through,
    answers that the practitioner is busy as soon as the query finds a
    document. *)
Lemma reprogramarCita_solapada (plan : Plan) (dir : Directorios)
    (msj : Mensajeria) (ahora : Fecha) (user : ReqUser) (citaId : ObjectId)
    (b : ReprogramarBody) (citas : list Cita) (cita : Cita) :
  plan PBuscar = Normal -> plan PSolapada = Normal ->
  findById citaId citas = Some cita ->
  includes [cancelada; completada; no_asistio; reprogramada] (estado cita)
  = false ->
  citaSolapada (Some citaId) (medico cita) (r_fechaInicio b) (r_fechaFin b)
    citas <> None ->
  ejecutarReprogramar plan dir msj ahora user citaId b citas
  = (Valor (Rechazo 400 MedicoOcupado), citas).
Proof.
  intros EB ES Hf Hi Ho.
  unfold ejecutarReprogramar, reprogramarCita, finalmente, atrapar,
    intentoReprogramar.
  unfold bind at 1. unfold paso at 1. unfold leer at 1.
  cbn [startTransaction mundoInicial confirmadas].
  rewrite EB, Hf, Hi.
  unfold bind at 1. unfold paso at 1. unfold leer at 1.
  cbn [confirmadas].
  rewrite ES.
  change (confirmadas (startTransaction (mundoInicial citas))) with citas.
  destruct (citaSolapada _ _ _ _ citas) as [otra|] eqn:Eo;
    [reflexivity | now contradiction Ho].
Qed.

(** C1. Booking, update and reschedule answer "El médico ya tiene otra
    cita programada en ese horario" (the scheduling conflict, status 400)
    exactly on the specification's conflict. On a collection of windows
    that end after they start and for a candidate window that ends after
    it starts:
    - a booking is answered with the conflict exactly when it reaches the
      availability check (patient found, practitioner active, treatment
      active and open to the practitioner) and some appointment of the
      practitioner, in a state other than canceled and rescheduled, has
      a window that intersects the candidate window as half-open
      intervals; a booking that reaches the check without such an
      appointment is accepted;
    - an update of a stored appointment in a state that may be updated is
      answered with the conflict exactly when it changes the start or the
      end and some other appointment of the same practitioner, in such a
      state, intersects the new window; an update that keeps the window
      is never checked, and every update that is not answered with the
      conflict is applied;
    - a reschedule of a stored appointment in a state that may be
      rescheduled is answered with the conflict only when some other
      appointment of the same practitioner, in such a state, intersects
      the new window, whatever else fails; it is answered so whenever there
      is one and the two reads before the writes go through; and without
      one and without failures it succeeds;
    - the message belongs to the class SchedulingConflict;
    - the query behind the three checks finds a document exactly on that
      conflict, its three-clause disjunction is the intersection
      predicate, and a stored window that only touches the candidate
      window at an endpoint is never selected. *)
Theorem conflicto_sii_interseccion (dir : Directorios) (msj : Mensajeria)
    (ahora : Fecha) (citas : list Cita) :
  Forall ventana_valida citas ->
  (forall b : CrearBody,
     b_fechaInicio b < b_fechaFin b ->
     let r := fst (crearCita dir msj ahora b citas) in
     let conflicto :=
       hayConflicto None (b_medico b) (b_fechaInicio b) (b_fechaFin b)
         citas in
     (r = Rechazo 400 MedicoOcupado <-> llegaAlControl dir b /\ conflicto)
     /\ (llegaAlControl dir b -> ~ conflicto -> exito r = true))
  /\ (forall (citaId : ObjectId) (b : ActualizarBody) (cita : Cita),
        findById citaId citas = Some cita ->
        ~ In (estado cita) [cancelada; completada; no_asistio] ->
        let ini := match a_fechaInicio b with
                   | Some t => t
                   | None => fechaInicio cita
                   end in
        let fin := match a_fechaFin b with
                   | Some t => t
                   | None => fechaFin cita
                   end in
        ini < fin ->
        let r := fst (actualizarCita dir msj ahora citaId b citas) in
        let conflicto :=
          hayConflicto (Some citaId) (medico cita) ini fin citas in
        (r = Rechazo 400 MedicoOcupado
         <-> cambiaVentana b cita /\ conflicto)
        /\ (~ cambiaVentana b cita -> r <> Rechazo 400 MedicoOcupado)
        /\ (~ (cambiaVentana b cita /\ conflicto) -> exito r = true))
  /\ (forall (plan : Plan) (user : ReqUser) (citaId : ObjectId)
             (b : ReprogramarBody) (cita : Cita),
        findById citaId citas = Some cita ->
        ~ In (estado cita) [cancelada; completada; no_asistio; reprogramada] ->
        r_fechaInicio b < r_fechaFin b ->
        let r :=
          fst (ejecutarReprogramar plan dir msj ahora user citaId b citas) in
        let conflicto :=
          hayConflicto (Some citaId) (medico cita)
            (r_fechaInicio b) (r_fechaFin b) citas in
        (r = Valor (Rechazo 400 MedicoOcupado) -> conflicto)
        /\ (plan PBuscar = Normal -> plan PSolapada = Normal ->
            conflicto -> r = Valor (Rechazo 400 MedicoOcupado))
        /\ ((forall p, plan p = Normal) -> ~ conflicto ->
            exists resp, r = Valor resp /\ exito resp = true))
  /\ clase (Rechazo 400 MedicoOcupado) = Some SchedulingConflict
  /\ (forall (excl : option ObjectId) (med : ObjectId) (ini fin : Fecha),
        ini < fin ->
        ((exists c, citaSolapada excl med ini fin citas = Some c)
         <-> hayConflicto excl med ini fin citas)
        /\ (forall c, In c citas ->
              (solapa ini fin c = true
               <-> intersecan (fechaInicio c) (fechaFin c) ini fin))
        /\ (forall c, In c citas ->
              fechaFin c = ini \/ fin = fechaInicio c ->
              filtroSolapada excl med ini fin c = false)).
Proof.
  intros Hv.
  split; [|split; [|split; [|split; [reflexivity|]]]].
  - intros b Hb r conflicto. subst r conflicto.
    destruct (crearCita_control dir msj ahora b citas) as [Hiff Hok].
    pose proof (citaSolapada_conflicto None (b_medico b) _ _ citas Hb Hv)
      as Hq.
    split.
    + rewrite Hiff, Hq. reflexivity.
    + intros Hl Hno. apply Hok; [exact Hl|].
      destruct (citaSolapada _ _ _ _ _) eqn:E; [|reflexivity].
      exfalso. apply Hno, Hq. discriminate.
  - intros citaId b cita Hf He ini fin Hb r conflicto.
    subst r conflicto.
    assert (Hi : includes [cancelada; completada; no_asistio] (estado cita)
                 = false).
    { destruct (includes _ _) eqn:E; [|reflexivity].
      apply includes_In in E. contradiction. }
    destruct (actualizarCita_control dir msj ahora citaId b citas cita Hf Hi)
      as [Hiff Hok].
    change (o_actual (a_fechaInicio b) (fechaInicio cita)) with ini in Hiff.
    change (o_actual (a_fechaFin b) (fechaFin cita)) with fin in Hiff.
    pose proof (citaSolapada_conflicto (Some citaId) (medico cita) ini fin
                  citas Hb Hv) as Hq.
    rewrite Hq in Hiff.
    split; [exact Hiff|]. split.
    + intros Hno Hr. apply Hiff in Hr. tauto.
    + intros Hno. apply Hok. intros Hr. apply Hiff in Hr. tauto.
  - intros plan user citaId b cita Hf He Hb r conflicto.
    subst r conflicto.
    assert (Hi : includes [cancelada; completada; no_asistio; reprogramada]
                   (estado cita) = false).
    { destruct (includes _ _) eqn:E; [|reflexivity].
      apply includes_In in E. contradiction. }
    pose proof (citaSolapada_conflicto (Some citaId) (medico cita) _ _
                  citas Hb Hv) as Hq.
    split; [|split].
    + intros Hr. apply reprogramarCita_ocupado in Hr.
      destruct Hr as (cita' & Hf' & Ho).
      rewrite Hf in Hf'. inversion Hf'; subst cita'. now apply Hq.
    + intros EB ES Hc. apply Hq in Hc.
      now rewrite (reprogramarCita_solapada plan dir msj ahora user citaId b
                     citas cita EB ES Hf Hi Hc).
    + intros Hp Hno.
      destruct (ejecutarReprogramar_casos plan dir msj ahora user citaId b
                  citas)
        as (r & citas' & -> & [(_ & _ & _ & H) | (c & extra & H)]).
      * exfalso. destruct (H Hp cita Hf) as [H1 | H1]; [congruence|].
        now apply Hno, Hq.
      * cbn zeta in H. destruct H as (_ & _ & _ & _ & _ & ->).
        rewrite (Hp PPoblar). cbn [fst]. eexists. split; reflexivity.
  - intros excl med ini fin Hc.
    pose proof Hv as Hv'. rewrite Forall_forall in Hv'.
    split; [|split].
    + rewrite <- (citaSolapada_conflicto excl med ini fin citas Hc Hv).
      destruct (citaSolapada _ _ _ _ _) as [c|]; split.
      * discriminate.
      * intros _. now exists c.
      * intros [c H]; discriminate.
      * intros H. now contradiction H.
    + intros c Hin. apply solapa_intersecan; auto.
    + intros c Hin Ht. unfold filtroSolapada.
      rewrite (sin_solape_al_tocarse ini fin c Hc (Hv' c Hin) Ht).
      apply andb_false_r.
Qed.

(** Scenarios 2 and 3 of the specification on the booking of scenario 1:
    10:15 to 10:45 is answered with the conflict, 10:30 to 11:00 is
    booked. *)
Lemma conflicto_sii_interseccion_witness :
  Forall ventana_valida agenda
  /\ fst (crearCita clinica entrega 0 reservaSolapada agenda)
     = Rechazo 400 MedicoOcupado
  /\ exito (fst (crearCita clinica entrega 0 reservaSiguiente agenda)) = true.
Proof.
  assert (Hv : Forall ventana_valida agenda)
    by (repeat constructor; unfold ventana_valida; simpl; lia).
  assert (Hl : forall b, b_paciente b = 1%nat -> b_medico b = 20%nat ->
                         b_tratamiento b = 30%nat ->
                         llegaAlControl clinica b).
  { intros b H1 H2 H3. unfold llegaAlControl. rewrite H1, H2, H3.
    split; [discriminate|]. split; [discriminate|].
    eexists. split; [reflexivity|]. now left. }
  destruct (conflicto_sii_interseccion clinica entrega 0 agenda Hv)
    as (Hcrear & _).
  split; [exact Hv|]. split.
  - assert (Hb : b_fechaInicio reservaSolapada < b_fechaFin reservaSolapada)
      by (simpl; lia).
    destruct (Hcrear reservaSolapada Hb) as [Hiff _]. apply Hiff.
    split; [now apply Hl|].
    exists (citaDe 1%nat programada 600 630).
    unfold candidata, intersecan; simpl.
    repeat split; try discriminate; auto; lia.
  - assert (Hb : b_fechaInicio reservaSiguiente
                 < b_fechaFin reservaSiguiente) by (simpl; lia).
    destruct (Hcrear reservaSiguiente Hb) as [_ Hok]. apply Hok.
    + now apply Hl.
    + intros [c (Hin & _ & Hi)]. destruct Hin as [<- | []].
      unfold intersecan in Hi; simpl in Hi; lia.
Defined.

(** ** Saves, logs and what they preserve *)

Lemma save_save (d' d : Cita) (citas : list Cita) :
  _id d' = _id d -> save d' (save d citas) = save d' citas.
Proof.
  intros Hid. induction citas as [|c resto IH]; simpl.
  - now rewrite Hid, Nat.eqb_refl.
  - rewrite Hid. destruct (Nat.eqb (_id c) (_id d)) eqn:E; simpl.
    + now rewrite Hid, Nat.eqb_refl.
    + rewrite Hid, E. f_equal. exact IH.
Qed.




Lemma sinRecordatorios_id (c d : Cita) :
  sinRecordatorios d = sinRecordatorios c -> _id d = _id c.
Proof. intros H. now apply (f_equal _id) in H. Qed.

Lemma sinRecordatorios_push (r : Recordatorio) (c : Cita) :
  sinRecordatorios (push_recordatorio r c) = sinRecordatorios c.
Proof. reflexivity. Qed.

Section SoloRecordatorios.
Variables (c : Cita) (antes : list Cita).
Hypothesis Hesta :
  option_map sinRecordatorios (findById (_id c) antes)
  = Some (sinRecordatorios c).


Lemma soloRecordatorios_otros (despues : list Cita) (i : ObjectId) :
  soloRecordatorios c antes despues ->
  i <> _id c -> findById i despues = findById i antes.
Proof.
  intros Hsolo Hi. induction Hsolo as [|d l Hl IH Hd]; [reflexivity|].
  rewrite findById_save_otro; [exact IH|].
  now rewrite (sinRecordatorios_id c d Hd).
Qed.

Lemma soloRecordatorios_mismo (despues : list Cita) :
  soloRecordatorios c antes despues ->
  exists d, findById (_id c) despues = Some d
            /\ sinRecordatorios d = sinRecordatorios c.
Proof.
  induction 1 as [|d l Hl IH Hd].
  - destruct (findById (_id c) antes) as [d|]; [|discriminate].
    exists d. split; [reflexivity|]. simpl in Hesta. congruence.
  - exists d. split; [|exact Hd].
    rewrite <- (sinRecordatorios_id c d Hd). apply findById_save_mismo.
Qed.
End SoloRecordatorios.

(** ** cambiarEstadoCita and cancelarCita *)

Lemma parseEstado_valido (s : string) (e : Estado) :
  parseEstado s = Some e -> isIn estadosValidos (Some s) = true.
Proof.
  unfold parseEstado, isIn, estadosValidos. simpl.
  repeat (destruct (String.eqb s _); [reflexivity|simpl]).
  discriminate.
Qed.

Lemma put_estado_controlador (user : ReqUser) (citaId : ObjectId)
    (b : EstadoBody) (citas : list Cita) (hacia : Estado) :
  estadoPedido b = Some hacia ->
  put_estado user citaId b citas = cambiarEstadoCita user citaId b citas.
Proof.
  unfold put_estado, estadoPedido. intros H.
  destruct (e_estado b) as [s|]; [|discriminate].
  now rewrite (parseEstado_valido s hacia H).
Qed.

(** What a state change that is let through saves. *)
Lemma cambiarEstadoCita_exito (user : ReqUser) (citaId : ObjectId)
    (b : EstadoBody) (citas : list Cita) (cita : Cita) (hacia : Estado) :
  findById citaId citas = Some cita ->
  estadoPedido b = Some hacia ->
  includes estadosFinales (estado cita)
  && negb (Estado_eqb (estado cita) hacia) = false ->
  exists c',
    cambiarEstadoCita user citaId b citas
    = (EstadoActualizado c' (Estado_eqb hacia completada), save c' citas)
    /\ findById citaId (save c' citas) = Some c'
    /\ estado c' = hacia
    /\ canceladoPor c'
       = match hacia with
         | cancelada => canceladoPorSegunRol (rol user)
         | no_asistio => no_aplica
         | _ => canceladoPor cita
         end
    /\ motivoCancelacion c'
       = match hacia with
         | cancelada =>
             Some (trim (o_bien (e_notas b) "No se especificó motivo"))
         | no_asistio => Some "Paciente no asistió"
         | _ => motivoCancelacion cita
         end.
Proof.
  intros Hf Hp Hno. unfold cambiarEstadoCita. rewrite Hp, Hf, Hno.
  eexists. split; [reflexivity|].
  split.
  - rewrite <- (findById_id _ _ _ Hf) at 1.
    match goal with
    | |- findById _ (save ?d _) = _ =>
        replace (_id cita) with (_id d)
          by (destruct hacia, (e_notas b); reflexivity)
    end.
    apply findById_save_mismo.
  - destruct hacia, (e_notas b); repeat split; reflexivity.
Qed.

Lemma cambiarEstadoCita_frenado (user : ReqUser) (citaId : ObjectId)
    (b : EstadoBody) (citas : list Cita) (cita : Cita) (hacia : Estado) :
  findById citaId citas = Some cita ->
  estadoPedido b = Some hacia ->
  In (estado cita) estadosFinales ->
  estado cita <> hacia ->
  cambiarEstadoCita user citaId b citas
  = (Rechazo 400 (NoSePuedeCambiarEstado (estado cita)), citas).
Proof.
  intros Hf Hp Hfin Hne. unfold cambiarEstadoCita. rewrite Hp, Hf.
  apply includes_In in Hfin. rewrite Hfin.
  now rewrite (Estado_eqb_neq _ _ Hne).
Qed.

(** The claim as the specification words it fails: from confirmed back to
    scheduled is not in the table, and the controller lets it through. *)
Lemma cambiarEstado_confirmada_a_programada :
  tablaPermitida confirmada programada = false
  /\ put_estado secretaria 1%nat
       {| e_estado := Some "programada"; e_notas := None |}
       [citaDe 1%nat confirmada 600 630]
     = (EstadoActualizado (citaDe 1%nat programada 600 630) false,
        [citaDe 1%nat programada 600 630])
  /\ clase (fst (put_estado secretaria 1%nat
                   {| e_estado := Some "programada"; e_notas := None |}
                   [citaDe 1%nat confirmada 600 630]))
     <> Some InvalidTransition.
Proof. split; [reflexivity | split; [reflexivity | discriminate]]. Qed.

(** The controller does not count [reprogramada] among its final states:
    a rescheduled appointment can be put back on the agenda. *)
Lemma cambiarEstado_desde_reprogramada :
  put_estado secretaria 1%nat
    {| e_estado := Some "programada"; e_notas := None |}
    [citaDe 1%nat reprogramada 600 630]
  = (EstadoActualizado (citaDe 1%nat programada 600 630) false,
     [citaDe 1%nat programada 600 630]).
Proof. reflexivity. Qed.

(** C2, amended. A request for a state other than the current one is
    refused with "No se puede cambiar el estado" (InvalidTransition), the
    collection untouched, when the current state is completed, canceled or
    no_show; from scheduled, confirmed and in_progress it is accepted for
    every target, the stored state becoming the target. Every pair of the
    table of the specification is among the accepted ones. *)
Theorem cambiarEstado_transiciones (user : ReqUser) (citaId : ObjectId)
    (b : EstadoBody) (citas : list Cita) (cita : Cita) (hacia : Estado) :
  findById citaId citas = Some cita ->
  estadoPedido b = Some hacia ->
  estado cita <> hacia ->
  (In (estado cita) [completada; cancelada; no_asistio] ->
     put_estado user citaId b citas
     = (Rechazo 400 (NoSePuedeCambiarEstado (estado cita)), citas)
     /\ clase (fst (put_estado user citaId b citas))
        = Some InvalidTransition)
  /\ (In (estado cita) [programada; confirmada; en_curso] ->
        exists c',
          put_estado user citaId b citas
          = (EstadoActualizado c' (Estado_eqb hacia completada),
             save c' citas)
          /\ findById citaId (save c' citas) = Some c'
          /\ estado c' = hacia)
  /\ (tablaPermitida (estado cita) hacia = true ->
        In (estado cita) [programada; confirmada; en_curso]).
Proof.
  intros Hf Hp Hne.
  rewrite (put_estado_controlador user citaId b citas hacia Hp).
  split; [|split].
  - intros Hfin.
    rewrite (cambiarEstadoCita_frenado user citaId b citas cita hacia);
      auto.
  - intros Hno.
    destruct (cambiarEstadoCita_exito user citaId b citas cita hacia Hf Hp)
      as (c' & Hr & Hs & He & _).
    + replace (includes estadosFinales (estado cita)) with false;
        [reflexivity|].
      simpl in Hno. destruct Hno as [<-|[<-|[<-|[]]]]; reflexivity.
    + exists c'. auto.
  - destruct (estado cita); simpl; intros H; try discriminate; auto.
Qed.

Lemma cambiarEstado_transiciones_witness :
  findById 1%nat agenda = Some (citaDe 1%nat programada 600 630)
  /\ exists c',
       put_estado secretaria 1%nat
         {| e_estado := Some "completada"; e_notas := None |} agenda
       = (EstadoActualizado c' true, save c' agenda)
       /\ findById 1%nat (save c' agenda) = Some c'
       /\ estado c' = completada.
Proof.
  split; [reflexivity|].
  apply (cambiarEstado_transiciones secretaria 1%nat
           {| e_estado := Some "completada"; e_notas := None |}
           agenda (citaDe 1%nat programada 600 630) completada);
    [reflexivity | reflexivity | discriminate | simpl; auto].
Defined.

(** C6. On an appointment that is completed, canceled or no_show, every
    update is refused with "No se puede actualizar" (InvalidState) and
    every request for another state with "No se puede cambiar el estado"
    (InvalidTransition); the collection is the same after the refusal. *)
Theorem estados_finales_inmutables (dir : Directorios) (msj : Mensajeria)
    (ahora : Fecha) (user : ReqUser) (citaId : ObjectId)
    (citas : list Cita) (cita : Cita) :
  findById citaId citas = Some cita ->
  In (estado cita) [completada; cancelada; no_asistio] ->
  (forall b,
     put_cita dir msj ahora citaId b citas
     = (Rechazo 400 (NoSePuedeActualizar (estado cita)), citas)
     /\ clase (fst (put_cita dir msj ahora citaId b citas))
        = Some InvalidState)
  /\ (forall b hacia,
        estadoPedido b = Some hacia -> hacia <> estado cita ->
        put_estado user citaId b citas
        = (Rechazo 400 (NoSePuedeCambiarEstado (estado cita)), citas)
        /\ clase (fst (put_estado user citaId b citas))
           = Some InvalidTransition).
Proof.
  intros Hf Hfin. split.
  - intros b.
    assert (H : put_cita dir msj ahora citaId b citas
                = (Rechazo 400 (NoSePuedeActualizar (estado cita)), citas)).
    { unfold put_cita, validate, actualizarCita. rewrite Hf.
      replace (includes [cancelada; completada; no_asistio] (estado cita))
        with true; [reflexivity|].
      simpl in Hfin. destruct Hfin as [<-|[<-|[<-|[]]]]; reflexivity. }
    rewrite H. split; reflexivity.
  - intros b hacia Hp Hne.
    rewrite (put_estado_controlador user citaId b citas hacia Hp).
    rewrite (cambiarEstadoCita_frenado user citaId b citas cita hacia);
      auto.
Qed.

Lemma estados_finales_inmutables_witness :
  findById 1%nat [citaDe 1%nat completada 600 630]
  = Some (citaDe 1%nat completada 600 630)
  /\ put_cita clinica entrega 0 1%nat
       {| a_fechaInicio := Some 700; a_fechaFin := Some 730;
          a_notas := Some "otra hora" |} [citaDe 1%nat completada 600 630]
     = (Rechazo 400 (NoSePuedeActualizar completada),
        [citaDe 1%nat completada 600 630])
  /\ put_estado secretaria 1%nat
       {| e_estado := Some "cancelada"; e_notas := Some "ya no" |}
       [citaDe 1%nat completada 600 630]
     = (Rechazo 400 (NoSePuedeCambiarEstado completada),
        [citaDe 1%nat completada 600 630]).
Proof.
  pose proof (estados_finales_inmutables clinica entrega 0 secretaria 1%nat
                [citaDe 1%nat completada 600 630]
                (citaDe 1%nat completada 600 630) eq_refl
                (or_introl eq_refl)) as [Hact Hest].
  split; [reflexivity|]. split.
  - apply Hact.
  - apply (Hest {| e_estado := Some "cancelada"; e_notas := Some "ya no" |}
             cancelada); [reflexivity | discriminate].
Defined.

Lemma cancelarCita_exito (dir : Directorios) (user : ReqUser)
    (citaId : ObjectId) (b : CancelarBody) (citas : list Cita) (cita : Cita)
    (por : CanceladoPor) :
  findById citaId citas = Some cita ->
  includes [completada; cancelada; no_asistio] (estado cita) = false ->
  sinPermiso dir user cita = false ->
  parseCanceladoPor (origen user (k_canceladoPor b)) = Some por ->
  exists c',
    cancelarCita dir user citaId b citas = (CitaCancelada c', save c' citas)
    /\ findById citaId (save c' citas) = Some c'
    /\ estado c' = cancelada
    /\ canceladoPor c' = por
    /\ motivoCancelacion c'
       = Some (trim (o_bien (k_motivo b) "No se especificó motivo")).
Proof.
  intros Hf Hno Hperm Hpor. unfold cancelarCita.
  rewrite Hf, Hno, Hperm, Hpor. eexists. split; [reflexivity|].
  split; [|repeat split; reflexivity].
  rewrite <- (findById_id _ _ _ Hf) at 1.
  match goal with
  | |- findById _ (save ?d _) = _ => change (_id cita) with (_id d)
  end.
  apply findById_save_mismo.
Qed.


Lemma truthy_false (s : option string) :
  truthy s = false <-> s = None \/ s = Some "".
Proof.
  destruct s as [t|]; simpl.
  - rewrite negb_false_iff, String.eqb_eq. split.
    + intros ->. now right.
    + intros [H | H]; [discriminate | now inversion H].
  - split; auto.
Qed.

Lemma o_bien_truthy (s : option string) (d : string) :
  truthy s = true -> Some (o_bien s d) = s.
Proof.
  destruct s as [t|]; simpl; [|discriminate].
  now destruct (String.eqb t "").
Qed.

Lemma o_bien_falsy (s : option string) (d : string) :
  truthy s = false -> o_bien s d = d.
Proof.
  destruct s as [t|]; simpl; [|reflexivity].
  now destruct (String.eqb t "").
Qed.



(** A reason of white space only passes the validator of the cancel
    route, and the schema stores it as the empty string. *)
Lemma cancelar_motivo_en_blanco :
  exists c',
    post_cancelar clinica secretaria 1%nat
      {| k_motivo := Some "   "; k_canceladoPor := Some "sistema" |} agenda
    = (CitaCancelada c', [c'])
    /\ estado c' = cancelada
    /\ motivoCancelacion c' = Some "".
Proof. eexists. repeat split; reflexivity. Qed.

Lemma o_bien_no_vacio (n d : string) : n <> "" -> o_bien (Some n) d = n.
Proof.
  intros H. simpl. destruct (String.eqb n "") eqn:E; [|reflexivity].
  apply String.eqb_eq in E. contradiction.
Qed.




(** C10. A cancellation that goes through stores the caller's role as
    canceled-by when the caller is a patient or a practitioner, whatever
    the request carries; for the other roles it stores the value the
    request carries, and system when the request carries none. *)
Theorem cancelar_origen (dir : Directorios) (user : ReqUser)
    (citaId : ObjectId) (b : CancelarBody) (citas : list Cita)
    (cita : Cita) :
  findById citaId citas = Some cita ->
  includes [completada; cancelada; no_asistio] (estado cita) = false ->
  sinPermiso dir user cita = false ->
  let guardada (por : CanceladoPor) :=
    exists c',
      cancelarCita dir user citaId b citas = (CitaCancelada c', save c' citas)
      /\ findById citaId (save c' citas) = Some c'
      /\ estado c' = cancelada
      /\ canceladoPor c' = por in
  (rol user = rol_paciente -> guardada por_paciente)
  /\ (rol user = rol_medico -> guardada por_medico)
  /\ (rol user <> rol_paciente -> rol user <> rol_medico ->
        (truthy (k_canceladoPor b) = false -> guardada por_sistema)
        /\ (forall s por,
              k_canceladoPor b = Some s -> s <> "" ->
              parseCanceladoPor s = Some por -> guardada por)).
Proof.
  intros Hf Hno Hperm guardada.
  assert (Hg : forall por,
             parseCanceladoPor (origen user (k_canceladoPor b)) = Some por ->
             guardada por).
  { intros por Hpor.
    destruct (cancelarCita_exito dir user citaId b citas cita por
                Hf Hno Hperm Hpor) as (c' & Hr & Hs & He & Hc & _).
    exists c'. auto. }
  split; [|split].
  - intros Hr. apply Hg. unfold origen. now rewrite Hr.
  - intros Hr. apply Hg. unfold origen. now rewrite Hr.
  - intros Hp Hm. split.
    + intros Hv. apply Hg. unfold origen.
      rewrite (o_bien_falsy _ _ Hv).
      destruct (rol user); try reflexivity; congruence.
    + intros s por Hs Hne Hpor. apply Hg. unfold origen. rewrite Hs.
      assert (Ho : o_bien (Some s) "sistema" = s).
      { simpl. destruct (String.eqb s "") eqn:E; [|reflexivity].
        apply String.eqb_eq in E. congruence. }
      rewrite Ho. destruct (rol user); try exact Hpor; congruence.
Qed.

(** A patient who cancels their own appointment and names the system, and
    a secretary who names nobody. *)
Lemma cancelar_origen_witness :
  (exists c',
     cancelarCita clinica ana 1%nat
       {| k_motivo := Some "viaje"; k_canceladoPor := Some "sistema" |}
       agenda = (CitaCancelada c', save c' agenda)
     /\ findById 1%nat (save c' agenda) = Some c'
     /\ estado c' = cancelada
     /\ canceladoPor c' = por_paciente)
  /\ (exists c',
        cancelarCita clinica secretaria 1%nat
          {| k_motivo := Some "viaje"; k_canceladoPor := None |}
          agenda = (CitaCancelada c', save c' agenda)
        /\ findById 1%nat (save c' agenda) = Some c'
        /\ estado c' = cancelada
        /\ canceladoPor c' = por_sistema).
Proof.
  split.
  - apply (cancelar_origen clinica ana 1%nat
             {| k_motivo := Some "viaje"; k_canceladoPor := Some "sistema" |}
             agenda (citaDe 1%nat programada 600 630));
      reflexivity.
  - apply (cancelar_origen clinica secretaria 1%nat
             {| k_motivo := Some "viaje"; k_canceladoPor := None |}
             agenda (citaDe 1%nat programada 600 630)
             eq_refl eq_refl eq_refl);
      [discriminate | discriminate | reflexivity].
Defined.

(** ** crearCita and the order of the window *)

(** No answer of crearCita is a validation error: the controller never
    compares [fechaFin] with [fechaInicio]. *)
Lemma crearCita_sin_validacion (dir : Directorios) (msj : Mensajeria)
    (ahora : Fecha) (b : CrearBody) (citas : list Cita) :
  clase (fst (crearCita dir msj ahora b citas)) <> Some ValidationError.
Proof.
  unfold crearCita.
  destruct (buscarPaciente _ _); [|discriminate].
  destruct (buscarMedicoActivo _ _); [|discriminate].
  destruct (buscarTratamientoActivo _ _); [|discriminate].
  destruct (_ && _); [discriminate|].
  destruct (citaSolapada _ _ _ _ _); discriminate.
Qed.

(** The three clauses are not the half-open intersection on a window that
    ends before it starts: the query reports a collision with a stored
    window the candidate does not intersect. *)
Lemma solapa_ventana_invertida :
  solapa 640 610 (citaDe 1%nat programada 600 630) = true
  /\ ~ intersecan 600 630 640 610.
Proof. split; [reflexivity | unfold intersecan; lia]. Qed.

(** C3. POST /api/citas with a window that ends before it starts, and with
    a window that ends when it starts: the validators of the route pass,
    the controller creates the appointment and answers 201. *)
Theorem crear_acepta_ventana_invertida :
  post_citas clinica noEntrega 0
    {| cr_paciente := Some 1%nat; cr_medico := Some 20%nat;
       cr_tratamiento := Some 30%nat;
       cr_fechaInicio := Some 660; cr_fechaFin := Some 600;
       cr_notas := None |} []
  = (Creada (Some (citaDe 1%nat programada 660 600)),
     [citaDe 1%nat programada 660 600])
  /\ post_citas clinica noEntrega 0
       {| cr_paciente := Some 1%nat; cr_medico := Some 20%nat;
          cr_tratamiento := Some 30%nat;
          cr_fechaInicio := Some 600; cr_fechaFin := Some 600;
          cr_notas := None |} []
     = (Creada (Some (citaDe 1%nat programada 600 600)),
        [citaDe 1%nat programada 600 600]).
Proof. split; reflexivity. Qed.

(** ** Notifications *)

Lemma mismoMarco_sinRecordatorios (a b : Cita) :
  sinRecordatorios a = sinRecordatorios b -> mismoMarco a b.
Proof.
  intros H. unfold mismoMarco.
  pose proof (f_equal _id H). pose proof (f_equal paciente H).
  pose proof (f_equal medico H). pose proof (f_equal tratamiento H).
  pose proof (f_equal estado H). pose proof (f_equal citaOriginal H).
  pose proof (f_equal canceladoPor H).
  pose proof (f_equal motivoCancelacion H).
  simpl in *. auto 10.
Qed.

Lemma mismoMarco_trans (a b c : Cita) :
  mismoMarco a b -> mismoMarco b c -> mismoMarco a c.
Proof. unfold mismoMarco. intuition congruence. Qed.

(** The notification blocks only save the document with a longer log. *)
Lemma avisarCreacion_solo (msj : Mensajeria) (ahora : Fecha)
    (pac : Paciente) (usr : option Usuario) (med : Usuario)
    (trat : Tratamiento) (nuevaCita : Cita) (citas : list Cita) :
  soloRecordatorios nuevaCita citas
    (snd (avisarCreacion msj ahora pac usr med trat nuevaCita citas)).
Proof.
  unfold avisarCreacion, enviarConfirmacionCita, enviarRecordatorioCita,
    atrapar, deref, modificar, lanzar, bind, ret.
  repeat caso; simpl;
    repeat match goal with
           | H : (_, _) = (_, _) |- _ => inversion H; clear H; subst
           end;
    repeat first [apply sr_nada | apply sr_guardar]; reflexivity.
Qed.

Lemma avisarActualizacion_solo (dir : Directorios) (msj : Mensajeria)
    (ahora : Fecha) (cita : Cita) (citas : list Cita) :
  soloRecordatorios cita citas
    (snd (avisarActualizacion dir msj ahora cita citas)).
Proof.
  unfold avisarActualizacion, enviarConfirmacionCita, atrapar, deref,
    modificar, lanzar, bind, ret.
  repeat caso; simpl;
    repeat first [apply sr_nada | apply sr_guardar]; reflexivity.
Qed.

(** A refusal that does not depend on the notification services. *)
Ltac rechazado :=
  left; eexists; split; [|intros; reflexivity]; reflexivity.

(** crearCita, the notification apart: either a refusal that leaves the
    collection alone, or the new document saved, then saved again with
    its reminders. *)
Lemma crearCita_forma (dir : Directorios) (ahora : Fecha) (b : CrearBody)
    (citas : list Cita) :
  (exists r, exito r = false
             /\ forall msj, crearCita dir msj ahora b citas = (r, citas))
  \/ (forall msj,
        let citas' := snd (crearCita dir msj ahora b citas) in
        soloRecordatorios (citaNueva b citas)
          (save (citaNueva b citas) citas) citas'
        /\ fst (crearCita dir msj ahora b citas)
           = Creada (findById (nuevoId citas) citas')).
Proof.
  unfold crearCita.
  destruct (buscarPaciente _ _); [|rechazado].
  destruct (buscarMedicoActivo _ _); [|rechazado].
  destruct (buscarTratamientoActivo _ _);
    [|rechazado].
  destruct (_ && _); [rechazado|].
  destruct (citaSolapada _ _ _ _ _); [rechazado|].
  right. intros msj. cbn zeta. split; [|reflexivity].
  apply avisarCreacion_solo.
Qed.

(** actualizarCita, the notification apart. *)
Lemma actualizarCita_forma (dir : Directorios) (ahora : Fecha)
    (citaId : ObjectId) (b : ActualizarBody) (citas : list Cita) :
  (exists r, exito r = false
             /\ forall msj,
                  actualizarCita dir msj ahora citaId b citas = (r, citas))
  \/ (exists cita c3,
        findById citaId citas = Some cita
        /\ mismoMarco c3 cita
        /\ forall msj,
             let citas' := snd (actualizarCita dir msj ahora citaId b citas)
             in
             soloRecordatorios c3 (save c3 citas) citas'
             /\ fst (actualizarCita dir msj ahora citaId b citas)
                = Actualizada (findById citaId citas')).
Proof.
  unfold actualizarCita.
  destruct (findById citaId citas) as [cita|];
    [|rechazado].
  destruct (includes _ _); [rechazado|].
  match goal with
  | |- context [match ?x with Some _ => _ | None => (Rechazo 400 MedicoOcupado, _) end] =>
      assert (Hm : forall c2, x = Some c2 -> mismoMarco c2 cita);
      [| destruct x as [c2|]; [|rechazado] ]
  end.
  { intros c2. destruct (_ || _).
    - destruct (citaSolapada _ _ _ _ _); [discriminate|].
      intros H. inversion H. unfold mismoMarco.
      destruct (a_fechaInicio b), (a_fechaFin b); simpl; auto 10.
    - intros H. inversion H. unfold mismoMarco. auto 10. }
  right. exists cita.
  exists (match a_notas b with
          | Some n => con_notas (Some n) c2
          | None => c2
          end).
  split; [reflexivity|]. split.
  - eapply mismoMarco_trans; [|apply (Hm c2 eq_refl)].
    unfold mismoMarco. destruct (a_notas b); simpl; auto 10.
  - intros msj. cbn zeta. split; [|reflexivity].
    destruct (_ || _); simpl; [apply avisarActualizacion_solo|apply sr_nada].
Qed.

(** C9. An update that succeeds leaves the patient, the practitioner, the
    treatment, the state, the back-reference to the original appointment,
    canceled-by and the cancellation reason of the appointment as they
    were, and does not touch any other appointment. *)
Theorem actualizar_marco (dir : Directorios) (msj : Mensajeria)
    (ahora : Fecha) (citaId : ObjectId) (b : ActualizarBody)
    (citas citas' : list Cita) (cita : Cita) (r : Respuesta) :
  findById citaId citas = Some cita ->
  put_cita dir msj ahora citaId b citas = (r, citas') ->
  exito r = true ->
  exists c',
    r = Actualizada (Some c')
    /\ findById citaId citas' = Some c'
    /\ paciente c' = paciente cita
    /\ medico c' = medico cita
    /\ tratamiento c' = tratamiento cita
    /\ estado c' = estado cita
    /\ citaOriginal c' = citaOriginal cita
    /\ canceladoPor c' = canceladoPor cita
    /\ motivoCancelacion c' = motivoCancelacion cita
    /\ (forall i, i <> citaId -> findById i citas' = findById i citas).
Proof.
  intros Hf Hr He. unfold put_cita, validate in Hr.
  destruct (actualizarCita_forma dir ahora citaId b citas)
    as [(r0 & Hr0 & H) | (cita0 & c3 & Hf0 & Hm & H)].
  - rewrite H in Hr. inversion Hr; subst. congruence.
  - specialize (H msj). rewrite Hr in H. cbn [fst snd] in H.
    destruct H as [Hsolo ->].
    rewrite Hf in Hf0. inversion Hf0; subst cita0.
    assert (Hid : _id c3 = citaId).
    { destruct Hm as [-> _]. eapply findById_id, Hf. }
    assert (Hesta : option_map sinRecordatorios
                      (findById (_id c3) (save c3 citas))
                    = Some (sinRecordatorios c3))
      by now rewrite findById_save_mismo.
    destruct (soloRecordatorios_mismo c3 _ Hesta _ Hsolo) as (d & Hd & Hs).
    rewrite Hid in Hd. exists d. rewrite Hd.
    pose proof (mismoMarco_trans _ _ _ (mismoMarco_sinRecordatorios _ _ Hs) Hm)
      as (_ & H1 & H2 & H3 & H4 & H5 & H6 & H7).
    repeat split; auto.
    intros i Hi.
    rewrite (soloRecordatorios_otros c3 _ _ i Hsolo) by congruence.
    apply findById_save_otro. congruence.
Qed.

Lemma actualizar_marco_witness :
  exists c',
    put_cita clinica entrega 0 1%nat
      {| a_fechaInicio := Some 700; a_fechaFin := Some 730;
         a_notas := Some "otra hora" |} agenda
    = (Actualizada (Some c'), [c'])
    /\ fechaInicio c' = 700
    /\ paciente c' = 1%nat /\ medico c' = 20%nat /\ tratamiento c' = 30%nat
    /\ estado c' = programada /\ citaOriginal c' = None
    /\ canceladoPor c' = no_aplica /\ motivoCancelacion c' = None.
Proof.
  destruct (actualizar_marco clinica entrega 0 1%nat
              {| a_fechaInicio := Some 700; a_fechaFin := Some 730;
                 a_notas := Some "otra hora" |}
              agenda _ (citaDe 1%nat programada 600 630) _
              eq_refl eq_refl eq_refl)
    as (c' & Hr & Hf & H1 & H2 & H3 & H4 & H5 & H6 & H7 & _).
  exists c'. inversion Hr; subst c'. repeat split; assumption.
Defined.

(** ** What a committed reschedule leaves *)


Lemma aplicar_ambasVisibles (user : ReqUser) (b : ReprogramarBody)
    (cita : Cita) (r : Recordatorio) (extra : list Cita)
    (citas : list Cita) :
  let cita' := retirada user (r_motivo b) cita in
  let nueva := sucesora (nuevoId citas) b cita' in
  In cita citas ->
  extra = [] \/ extra = [push_recordatorio r nueva] ->
  ambasVisibles user b cita citas (aplicar ([cita'; nueva] ++ extra) citas).
Proof.
  intros cita' nueva Hin Hex.
  assert (Hne : _id cita <> nuevoId citas) by now apply nuevoId_fresco.
  assert (H1 : forall i, i <> _id cita -> i <> nuevoId citas ->
               forall d, _id d = nuevoId citas ->
               findById i (save d (save cita' citas)) = findById i citas).
  { intros i Hi Hn d Hd.
    rewrite findById_save_otro by congruence.
    now apply findById_save_otro. }
  assert (H2 : forall d, _id d = nuevoId citas ->
               findById (_id cita) (save d (save cita' citas)) = Some cita').
  { intros d Hd. rewrite findById_save_otro by congruence.
    apply (findById_save_mismo cita'). }
  assert (H3 : forall d l, _id d = nuevoId citas ->
               findById (nuevoId citas) (save d l) = Some d).
  { intros d l Hd. rewrite <- Hd. apply findById_save_mismo. }
  unfold ambasVisibles. fold cita' nueva.
  split; [|split; [apply findById_nuevoId|split]].
  - destruct Hex as [-> | ->]; unfold aplicar; simpl.
    + now apply H2.
    + rewrite save_save by reflexivity. now apply H2.
  - destruct Hex as [-> | ->]; unfold aplicar; simpl;
      eexists; (split; [apply H3; reflexivity | reflexivity]).
  - intros i Hi Hn. destruct Hex as [-> | ->]; unfold aplicar; simpl.
    + now apply H1.
    + rewrite save_save by reflexivity. now apply H1.
Qed.

(** The handler when no storage call fails: it always answers, and it
    commits exactly when the appointment exists, is in a state that can be
    rescheduled, and the new window is free. *)
Lemma ejecutarReprogramar_sinFallos (dir : Directorios) (msj : Mensajeria)
    (ahora : Fecha) (user : ReqUser) (citaId : ObjectId)
    (b : ReprogramarBody) (citas : list Cita) :
  let corrida :=
    ejecutarReprogramar sinFallos dir msj ahora user citaId b citas in
  match findById citaId citas with
  | None => corrida = (Valor (Rechazo 404 CitaNoEncontrada), citas)
  | Some cita =>
      if includes [cancelada; completada; no_asistio; reprogramada]
                  (estado cita)
      then corrida
           = (Valor (Rechazo 400 (NoSePuedeReprogramar (estado cita))), citas)
      else
        match citaSolapada (Some citaId) (medico cita)
                (r_fechaInicio b) (r_fechaFin b) citas with
        | Some _ => corrida = (Valor (Rechazo 400 MedicoOcupado), citas)
        | None =>
            let cita' := retirada user (r_motivo b) cita in
            let nueva := sucesora (nuevoId citas) b cita' in
            exists extra,
              (extra = []
               \/ extra = [push_recordatorio
                             (recordatorio canal_email ahora) nueva])
              /\ corrida
                 = (Valor (Reprogramada (citaId, reprogramada)
                             (poblarCitaOriginal
                                (aplicar ([cita'; nueva] ++ extra) citas)
                                (findById (nuevoId citas)
                                   (aplicar ([cita'; nueva] ++ extra)
                                      citas)))),
                    aplicar ([cita'; nueva] ++ extra) citas)
        end
  end.
Proof.
  intros corrida. subst corrida.
  unfold ejecutarReprogramar, reprogramarCita, finalmente, atrapar,
    intentoReprogramar.
  unfold bind, paso, leer.
  cbn [sinFallos].
  change (confirmadas (startTransaction (mundoInicial citas))) with citas.
  destruct (findById citaId citas) as [cita|] eqn:Hf; [|reflexivity].
  destruct (includes _ (estado cita)) eqn:Hi; [reflexivity|].
  cbv beta.
  change (confirmadas (startTransaction (mundoInicial citas))) with citas.
  destruct (citaSolapada _ _ _ _ citas) eqn:Ho; [reflexivity|].
  match goal with
  | |- context [retirarYCrear ?p ?d ?m ?a ?u ?bb ?c ?w0] =>
      destruct (retirarYCrear_casos p d m a u bb c w0 eq_refl)
        as (r & w1 & Heq
            & [(_ & _ & q & Hq) | (extra & Hc & Ht & Hex & Hr)]);
      [now contradiction Hq | rewrite Heq]
  end.
  cbn [confirmadas startTransaction mundoInicial sinFallos] in Hc, Hr, Hex.
  subst r. exists extra. split; [exact Hex|].
  cbn [endSession confirmadas]. rewrite Hc.
  do 3 f_equal. simpl. f_equal. eapply findById_id, Hf.
Qed.

(** C5. A reschedule that answers with a success has retired the original
    (state rescheduled; canceled-by patient when the caller is a patient
    and practitioner for every other role; as reason the reason of the
    request, trimmed, or "Cita reprogramada" when it is missing or empty;
    every other field as it was) and has created, under a new identifier,
    an appointment in state scheduled with the patient, the practitioner,
    the treatment and the notes of the original (as the schema stores
    them: trimmed), the new window and the original as back-reference; the
    answer carries the identifier and the state of the original and the
    new document with the original inside. *)
Theorem reprogramar_exito (plan : Plan) (dir : Directorios)
    (msj : Mensajeria) (ahora : Fecha) (user : ReqUser) (citaId : ObjectId)
    (b : ReprogramarBody) (citas citas' : list Cita) (resp : Respuesta) :
  ejecutarReprogramar plan dir msj ahora user citaId b citas
  = (Valor resp, citas') ->
  exito resp = true ->
  reprogramacionHecha user citaId b citas citas' resp.
Proof.
  intros Hrun Hex. unfold reprogramacionHecha.
  destruct (ejecutarReprogramar_casos plan dir msj ahora user citaId b citas)
    as (r & l & Heq & [(_ & Hfa & _) | (cita & extra & H)]);
    rewrite Hrun in Heq; inversion Heq; subst r l; clear Heq.
  - simpl in Hfa. rewrite Hex in Hfa. discriminate.
  - cbn zeta in H. destruct H as (Hf & _ & _ & Hc & Hext & Hr).
    pose proof (findById_id _ _ _ Hf) as Hid.
    pose proof (aplicar_ambasVisibles user b cita
                  (recordatorio canal_email ahora) extra citas
                  (findById_In _ _ _ Hf) Hext) as Hamb.
    rewrite <- Hc in Hamb.
    destruct Hamb as (Ho & Hnew & (nueva & Hn & Hs) & _).
    destruct (plan PPoblar); try discriminate.
    assert (Hidn : _id nueva = nuevoId citas)
      by (apply (f_equal _id) in Hs; exact Hs).
    assert (Hori : citaOriginal nueva = Some (_id cita))
      by (apply (f_equal citaOriginal) in Hs; exact Hs).
    cbn [sucesora _id] in Hr. rewrite Hn in Hr.
    unfold poblarCitaOriginal in Hr. rewrite Hori, Ho in Hr.
    inversion Hr; subst resp.
    exists cita, (retirada user (r_motivo b) cita), nueva.
    rewrite Hidn.
    pose proof (f_equal estado Hs) as E1.
    pose proof (f_equal paciente Hs) as E2.
    pose proof (f_equal medico Hs) as E3.
    pose proof (f_equal tratamiento Hs) as E4.
    pose proof (f_equal notas Hs) as E5.
    pose proof (f_equal fechaInicio Hs) as E6.
    pose proof (f_equal fechaFin Hs) as E7.
    pose proof (f_equal canceladoPor Hs) as E8.
    pose proof (f_equal motivoCancelacion Hs) as E9.
    cbn in E1, E2, E3, E4, E5, E6, E7, E8, E9.
    subst citaId.
    split; [exact Hf|]. split; [reflexivity|]. split; [exact Ho|].
    split; [reflexivity|]. split; [reflexivity|].
    split; [intros Hrol; cbn; now rewrite Hrol|].
    split; [cbn; destruct (rol user); intros Hrol;
            first [reflexivity | now contradiction Hrol]|].
    split; [intros m Hm Hne; cbn; now rewrite Hm, (o_bien_no_vacio _ _ Hne)|].
    split; [intros Hm; apply truthy_false in Hm; cbn;
            now rewrite (o_bien_falsy _ _ Hm)|].
    do 8 (split; [reflexivity|]).
    split; [exact Hnew|]. split; [exact Hn|].
    split; [exact E1|]. split; [exact E2|]. split; [exact E3|].
    split; [exact E4|]. split; [exact E5|].
    split.
    { intros n Hnn. rewrite E5, Hnn. destruct n as [n|]; [|reflexivity].
      simpl. now rewrite trim_idempotente. }
    split; [exact E6|]. split; [exact E7|]. split; [exact Hori|].
    split; [exact E8 | exact E9].
Qed.

(** The patient of the clinic moves the booking of scenario 1, and says
    why. *)
Lemma reprogramar_exito_witness :
  exists original nueva,
    ejecutarReprogramar sinFallos clinica entrega 0 ana 1%nat
      {| r_fechaInicio := 840; r_fechaFin := 870;
         r_motivo := Some "  viaje " |} agenda
    = (Valor (Reprogramada (1%nat, reprogramada)
                (Some (nueva, Some original))),
       [original; nueva])
    /\ estado original = reprogramada
    /\ canceladoPor original = por_paciente
    /\ motivoCancelacion original = Some "viaje"
    /\ fechaInicio original = 600
    /\ estado nueva = programada
    /\ fechaInicio nueva = 840
    /\ citaOriginal nueva = Some 1%nat.
Proof.
  destruct (reprogramar_exito sinFallos clinica entrega 0 ana 1%nat
              {| r_fechaInicio := 840; r_fechaFin := 870;
                 r_motivo := Some "  viaje " |} agenda _ _
              eq_refl eq_refl)
    as (cita & original & nueva & Hf & Hr & _ & _ & He & Hpa & _ & Hm & _
        & _ & _ & _ & Hfi & _ & _ & _ & _ & _ & _ & Hen & _ & _ & _ & _ & _
        & Hni & _ & Hco & _).
  inversion Hf; subst cita. inversion Hr; subst original nueva.
  do 2 eexists. split; [reflexivity|].
  split; [exact He|]. split; [exact (Hpa eq_refl)|].
  split; [exact (Hm "  viaje " eq_refl ltac:(discriminate))|].
  split; [exact Hfi|]. split; [exact Hen|]. split; [exact Hni|exact Hco].
Defined.

(** ** Notification failures and the outcome *)

Lemma exito_olvidar (r : Respuesta) : exito (olvidarRespuesta r) = exito r.
Proof. now destruct r. Qed.









(** ** Documents and back-references are never lost *)

Lemma extiende_refl (citas : list Cita) : extiende citas citas.
Proof. intros c Hc. exists c. auto. Qed.

Lemma extiende_trans (l1 l2 l3 : list Cita) :
  extiende l1 l2 -> extiende l2 l3 -> extiende l1 l3.
Proof.
  intros H12 H23 c Hc.
  destruct (H12 c Hc) as (c2 & Hin2 & Hid2 & Ho2).
  destruct (H23 c2 Hin2) as (c3 & Hin3 & Hid3 & Ho3).
  exists c3. repeat split; congruence.
Qed.

Lemma extiende_save (d : Cita) (citas : list Cita) :
  (forall c, findById (_id d) citas = Some c ->
             citaOriginal d = citaOriginal c) ->
  extiende citas (save d citas).
Proof.
  unfold findById. induction citas as [|c resto IH]; simpl.
  - intros _ x [].
  - destruct (Nat.eqb (_id c) (_id d)) eqn:E; intros H x [<- | Hx].
    + exists d. apply Nat.eqb_eq in E.
      repeat split; [now left | congruence | now apply H].
    + exists x. repeat split. now right.
    + exists c. repeat split. now left.
    + destruct (IH H x Hx) as (x' & Hin & Hid & Ho).
      exists x'. repeat split; auto. now right.
Qed.

Lemma extiende_save_nueva (d : Cita) (citas : list Cita) :
  findById (_id d) citas = None -> extiende citas (save d citas).
Proof. intros H. apply extiende_save. intros c Hc. congruence. Qed.

Lemma extiende_save_misma (d cita : Cita) (citas : list Cita) :
  findById (_id d) citas = Some cita ->
  citaOriginal d = citaOriginal cita ->
  extiende citas (save d citas).
Proof. intros H Ho. apply extiende_save. intros c Hc. congruence. Qed.

Lemma soloRecordatorios_extiende (c : Cita) (antes despues : list Cita) :
  option_map sinRecordatorios (findById (_id c) antes)
  = Some (sinRecordatorios c) ->
  soloRecordatorios c antes despues -> extiende antes despues.
Proof.
  intros Hesta Hsolo.
  induction Hsolo as [|d l Hl IH Hd]; [apply extiende_refl|].
  eapply extiende_trans; [exact IH|].
  destruct (soloRecordatorios_mismo c antes Hesta l Hl) as (d0 & Hd0 & Hs0).
  apply (extiende_save_misma d d0).
  - now rewrite (sinRecordatorios_id c d Hd).
  - apply (f_equal citaOriginal) in Hd, Hs0. simpl in Hd, Hs0. congruence.
Qed.

Lemma crearCita_extiende (dir : Directorios) (msj : Mensajeria)
    (ahora : Fecha) (b : CrearBody) (citas : list Cita) :
  extiende citas (snd (crearCita dir msj ahora b citas)).
Proof.
  destruct (crearCita_forma dir ahora b citas) as [(r & _ & H) | H].
  - rewrite H. apply extiende_refl.
  - destruct (H msj) as [Hsolo _].
    eapply extiende_trans.
    + apply (extiende_save_nueva (citaNueva b citas)).
      apply findById_nuevoId.
    + eapply soloRecordatorios_extiende; [|exact Hsolo].
      now rewrite findById_save_mismo.
Qed.

Lemma actualizarCita_extiende (dir : Directorios) (msj : Mensajeria)
    (ahora : Fecha) (citaId : ObjectId) (b : ActualizarBody)
    (citas : list Cita) :
  extiende citas (snd (actualizarCita dir msj ahora citaId b citas)).
Proof.
  destruct (actualizarCita_forma dir ahora citaId b citas)
    as [(r & _ & H) | (cita & c3 & Hf & Hm & H)].
  - rewrite H. apply extiende_refl.
  - destruct (H msj) as [Hsolo _].
    destruct Hm as (Hid & _ & _ & _ & _ & Ho & _).
    eapply extiende_trans.
    + apply (extiende_save_misma c3 cita); [|exact Ho].
      now rewrite Hid, (findById_id _ _ _ Hf).
    + eapply soloRecordatorios_extiende; [|exact Hsolo].
      now rewrite findById_save_mismo.
Qed.

Lemma cambiarEstadoCita_extiende (user : ReqUser) (citaId : ObjectId)
    (b : EstadoBody) (citas : list Cita) :
  extiende citas (snd (cambiarEstadoCita user citaId b citas)).
Proof.
  unfold cambiarEstadoCita.
  destruct (estadoPedido b) as [est|]; [|apply extiende_refl].
  destruct (findById citaId citas) as [cita|] eqn:Hf;
    [|apply extiende_refl].
  destruct (_ && _); [apply extiende_refl|].
  cbn [snd]. apply (extiende_save_misma _ cita).
  - match goal with
    | |- findById (_id ?d) _ = _ =>
        replace (_id d) with (_id cita)
          by (destruct est, (e_notas b); reflexivity)
    end.
    now rewrite (findById_id _ _ _ Hf).
  - destruct est, (e_notas b); reflexivity.
Qed.

Lemma cancelarCita_extiende (dir : Directorios) (user : ReqUser)
    (citaId : ObjectId) (b : CancelarBody) (citas : list Cita) :
  extiende citas (snd (cancelarCita dir user citaId b citas)).
Proof.
  unfold cancelarCita.
  destruct (findById citaId citas) as [cita|] eqn:Hf;
    [|apply extiende_refl].
  destruct (includes _ _); [apply extiende_refl|].
  destruct (sinPermiso _ _ _); [apply extiende_refl|].
  destruct (parseCanceladoPor _); [|apply extiende_refl].
  cbn [snd]. apply (extiende_save_misma _ cita); [|reflexivity].
  rewrite <- Hf. f_equal. simpl. eapply findById_id, Hf.
Qed.

Lemma aplicar_extiende (user : ReqUser) (b : ReprogramarBody)
    (cita : Cita) (r : Recordatorio) (extra : list Cita)
    (citas : list Cita) :
  let cita' := retirada user (r_motivo b) cita in
  let nueva := sucesora (nuevoId citas) b cita' in
  findById (_id cita) citas = Some cita ->
  extra = [] \/ extra = [push_recordatorio r nueva] ->
  extiende citas (aplicar ([cita'; nueva] ++ extra) citas).
Proof.
  intros cita' nueva Hf Hex.
  assert (H1 : extiende citas (save cita' citas))
    by (apply (extiende_save_misma cita' cita); [exact Hf | reflexivity]).
  assert (H2 : extiende (save cita' citas) (save nueva (save cita' citas))).
  { apply extiende_save_nueva.
    rewrite findById_save_otro.
    - apply findById_nuevoId.
    - change (_id cita') with (_id cita).
      apply not_eq_sym, nuevoId_fresco. eapply findById_In, Hf. }
  destruct Hex as [-> | ->]; unfold aplicar; simpl.
  - eapply extiende_trans; eassumption.
  - eapply extiende_trans; [eassumption|].
    eapply extiende_trans; [eassumption|].
    apply (extiende_save_misma _ nueva); [|reflexivity].
    apply (findById_save_mismo nueva).
Qed.

Lemma ejecutarReprogramar_extiende (plan : Plan) (dir : Directorios)
    (msj : Mensajeria) (ahora : Fecha) (user : ReqUser) (citaId : ObjectId)
    (b : ReprogramarBody) (citas : list Cita) :
  extiende citas
    (snd (ejecutarReprogramar plan dir msj ahora user citaId b citas)).
Proof.
  destruct (ejecutarReprogramar_casos plan dir msj ahora user citaId b citas)
    as (r & l & -> & [(-> & _) | (cita & extra & H)]).
  - apply extiende_refl.
  - cbn zeta in H. destruct H as (Hf & _ & _ & -> & Hex & _).
    cbn [snd]. eapply aplicar_extiende; [|exact Hex].
    now rewrite (findById_id _ _ _ Hf).
Qed.

Lemma atender_extiende (dir : Directorios) (p : Peticion)
    (citas : list Cita) :
  extiende citas (atender dir p citas).
Proof.
  destruct p; simpl.
  - apply crearCita_extiende.
  - apply actualizarCita_extiende.
  - apply cambiarEstadoCita_extiende.
  - apply ejecutarReprogramar_extiende.
  - apply cancelarCita_extiende.
Qed.

Lemma atenderTodas_extiende (dir : Directorios) (ps : list Peticion)
    (citas : list Cita) :
  extiende citas (atenderTodas dir ps citas).
Proof.
  unfold atenderTodas. revert citas.
  induction ps as [|p ps IH]; intros citas; simpl.
  - apply extiende_refl.
  - eapply extiende_trans; [apply atender_extiende | apply IH].
Qed.

Lemma tieneSucesora_extiende (i : ObjectId) (antes despues : list Cita) :
  extiende antes despues ->
  tieneSucesora i antes -> tieneSucesora i despues.
Proof.
  intros He (n & Hin & Ho).
  destruct (He n Hin) as (n' & Hin' & _ & Ho').
  exists n'. split; [assumption | congruence].
Qed.

Lemma ambasVisibles_tieneSucesora (user : ReqUser) (b : ReprogramarBody)
    (cita : Cita) (antes despues : list Cita) :
  ambasVisibles user b cita antes despues ->
  tieneSucesora (_id cita) despues.
Proof.
  intros (_ & _ & (nueva & Hn & Hs) & _).
  exists nueva. split; [eapply findById_In, Hn|].
  apply (f_equal citaOriginal) in Hs. exact Hs.
Qed.

(** ** Atomicity of reprogramarCita *)

(** The claim as the specification words it fails: when the read that
    builds the answer throws, after the commit, the run fails and the
    collection has changed. *)
Lemma reprogramar_falla_tras_commit :
  fallida (fst (ejecutarReprogramar fallaAlPoblar clinica entrega 0
                  secretaria 1%nat mudanza agenda)) = true
  /\ findById 1%nat
       (snd (ejecutarReprogramar fallaAlPoblar clinica entrega 0
               secretaria 1%nat mudanza agenda))
     = Some (retirada secretaria None (citaDe 1%nat programada 600 630))
  /\ snd (ejecutarReprogramar fallaAlPoblar clinica entrega 0
            secretaria 1%nat mudanza agenda) <> agenda.
Proof. split; [reflexivity|]. split; [reflexivity|]. discriminate. Qed.

(** C4, amended. Whatever storage call throws and wherever the process
    dies, after a run of the reschedule the readers see either the
    collection as it was, or the original retired together with its
    successor. A run that fails leaves the collection as it was unless the
    failure is the one of the read that follows the commit; a run that
    succeeds shows both writes. Once a run has changed the collection, the
    appointment has a successor after any further requests. *)
Theorem reprogramar_atomico (plan : Plan) (dir : Directorios)
    (msj : Mensajeria) (ahora : Fecha) (user : ReqUser) (citaId : ObjectId)
    (b : ReprogramarBody) (citas : list Cita) :
  let corrida :=
    ejecutarReprogramar plan dir msj ahora user citaId b citas in
  let ambas :=
    exists cita, findById citaId citas = Some cita
                 /\ ambasVisibles user b cita citas (snd corrida) in
  (snd corrida = citas \/ ambas)
  /\ (fallida (fst corrida) = true -> plan PPoblar = Normal ->
      snd corrida = citas)
  /\ (fallida (fst corrida) = false -> ambas)
  /\ (snd corrida <> citas ->
      ambas
      /\ forall ps, tieneSucesora citaId (atenderTodas dir ps (snd corrida))).
Proof.
  intros corrida ambas. subst corrida ambas.
  destruct (ejecutarReprogramar_casos plan dir msj ahora user citaId b citas)
    as (r & l & -> & [(-> & Hfa & _) | (cita & extra & H)]);
    cbn [fst snd].
  - split; [now left|]. split; [reflexivity|].
    split; [congruence|]. intros Hne. now contradiction Hne.
  - cbn zeta in H. destruct H as (Hf & _ & _ & -> & Hex & ->).
    assert (Hamb : exists c, findById citaId citas = Some c
                     /\ ambasVisibles user b c citas
                          (aplicar
                             ([retirada user (r_motivo b) cita;
                               sucesora (nuevoId citas) b
                                 (retirada user (r_motivo b) cita)]
                              ++ extra) citas)).
    { exists cita. split; [exact Hf|].
      eapply aplicar_ambasVisibles; [eapply findById_In, Hf | exact Hex]. }
    split; [now right|]. split; [|split; [auto|]].
    + intros Hfa Hp. rewrite Hp in Hfa. discriminate.
    + intros _. split; [exact Hamb|]. intros ps.
      destruct Hamb as (c & Hc & Hamb).
      eapply tieneSucesora_extiende; [apply atenderTodas_extiende|].
      rewrite <- (findById_id _ _ _ Hc).
      eapply ambasVisibles_tieneSucesora, Hamb.
Qed.

(** A run that dies between the two writes, and a run that completes
    followed by a cancellation of the successor. *)
Lemma reprogramar_atomico_witness :
  snd (ejecutarReprogramar muereEntreEscrituras clinica entrega 0
         secretaria 1%nat mudanza agenda) = agenda
  /\ snd (ejecutarReprogramar sinFallos clinica entrega 0 secretaria 1%nat
            mudanza agenda) <> agenda
  /\ tieneSucesora 1%nat
       (atenderTodas clinica
          [PideCancelar secretaria 2%nat
             {| k_motivo := Some "viaje"; k_canceladoPor := None |}]
          (snd (ejecutarReprogramar sinFallos clinica entrega 0 secretaria
                  1%nat mudanza agenda))).
Proof.
  split; [|split].
  - apply (reprogramar_atomico muereEntreEscrituras clinica entrega 0
             secretaria 1%nat mudanza agenda); reflexivity.
  - discriminate.
  - apply (reprogramar_atomico sinFallos clinica entrega 0 secretaria 1%nat
             mudanza agenda). discriminate.
Defined.

(** * Further properties of the code *)

(** ** The phone numbers of the SMS service *)

Lemma limpiar_sin_separadores (t : Texto) :
  Forall (fun u => esSeparador u = false) (limpiar t).
Proof.
  unfold limpiar. apply Forall_forall. intros u Hu.
  apply filter_In in Hu. destruct Hu as [_ Hu].
  now apply negb_true_iff in Hu.
Qed.

Lemma limpiar_fijo (t : Texto) :
  Forall (fun u => esSeparador u = false) t -> limpiar t = t.
Proof.
  unfold limpiar. induction 1 as [|u r Hu Hr IH]; simpl; [reflexivity|].
  now rewrite Hu, IH.
Qed.

Lemma empiezaConMas_forma (n : Texto) :
  empiezaConMas n = true -> exists r, n = 43%N :: r.
Proof.
  destruct n as [|u r]; simpl; [discriminate|].
  intros H. apply N.eqb_eq in H. subst. now exists r.
Qed.

(** What [_formatearTelefono] returns, by the shape of the cleaned
    number. *)
Lemma _formatearTelefono_casos (t : Texto) :
  let n := limpiar t in
  (empiezaConMas n = true /\ _formatearTelefono t = n)
  \/ (empiezaConMas n = false
      /\ ((exists r, n = 48%N :: r
                     /\ _formatearTelefono t = prefijoArgentina ++ r)
          \/ ((forall r, n <> 48%N :: r)
              /\ _formatearTelefono t = prefijoArgentina ++ n))).
Proof.
  intros n. unfold _formatearTelefono. fold n.
  destruct (empiezaConMas n) eqn:E; [left; auto|right].
  split; [reflexivity|]. simpl.
  destruct n as [|u r]; simpl.
  - right. split; [discriminate|reflexivity].
  - destruct (N.eqb u 48) eqn:E48.
    + apply N.eqb_eq in E48. subst. left. now exists r.
    + apply N.eqb_neq in E48. right. split; [congruence|reflexivity].
Qed.

(** X1. Whatever [enviarSMS] hands to Twilio is a plus sign followed by
    10 to 17 decimal digits, and it hands something over only when the
    service is enabled and the number passes [_validarTelefono]. *)
Theorem enviarSMS_destino (enabled entrega_ : bool) (to destino : Texto) :
  enviarSMS enabled entrega_ to = Entregado destino
  \/ enviarSMS enabled entrega_ to = Rechazado destino ->
  enabled = true
  /\ _validarTelefono to = true
  /\ destino = _formatearTelefono to
  /\ exists digitos,
       destino = 43%N :: digitos
       /\ forallb esDigito digitos = true
       /\ (10 <= List.length digitos <= 17)%nat.
Proof.
  unfold enviarSMS.
  destruct enabled; simpl; [|intros [H|H]; discriminate].
  destruct (_validarTelefono to) eqn:Hv; simpl;
    [|intros [H|H]; discriminate].
  intros Hd.
  assert (Heq : destino = _formatearTelefono to)
    by (destruct entrega_, Hd as [H|H]; congruence).
  clear Hd. repeat split; try assumption.
  unfold _validarTelefono, numeroValido in Hv.
  rewrite !andb_true_iff, !Nat.leb_le in Hv.
  destruct Hv as [[Hdig Hmin] Hmax].
  destruct (_formatearTelefono_casos to)
    as [[E Hf] | [E [(r & Hn & Hf) | (Hno & Hf)]]];
    rewrite E in *; subst destino; rewrite Hf.
  - destruct (empiezaConMas_forma _ E) as (r & Hr). rewrite Hr in *.
    exists r. simpl in *. repeat split; auto; lia.
  - rewrite Hn in *. simpl in *.
    exists (53 :: 52 :: r)%N. simpl. rewrite Hdig.
    repeat split; auto; lia.
  - exists (53 :: 52 :: limpiar to)%N. simpl. rewrite Hdig.
    repeat split; auto; lia.
Qed.

Lemma enviarSMS_destino_witness :
  enviarSMS true true [40; 48; 49; 49; 41; 32; 52; 53; 53; 53; 45; 49; 50;
                       51; 52]%N
  = Entregado [43; 53; 52; 49; 49; 52; 53; 53; 53; 49; 50; 51; 52]%N
  /\ exists digitos,
       [43; 53; 52; 49; 49; 52; 53; 53; 53; 49; 50; 51; 52]%N
       = 43%N :: digitos
       /\ forallb esDigito digitos = true
       /\ (10 <= List.length digitos <= 17)%nat.
Proof.
  split; [reflexivity|].
  apply (enviarSMS_destino true true
           [40; 48; 49; 49; 41; 32; 52; 53; 53; 53; 45; 49; 50; 51; 52]%N).
  left. reflexivity.
Defined.

(** X2. Formatting a phone number is idempotent, and its result has no
    space, parenthesis or hyphen left. *)
Theorem _formatearTelefono_idempotente (t : Texto) :
  limpiar (_formatearTelefono t) = _formatearTelefono t
  /\ _formatearTelefono (_formatearTelefono t) = _formatearTelefono t.
Proof.
  assert (Hl : limpiar (_formatearTelefono t) = _formatearTelefono t).
  { apply limpiar_fijo.
    pose proof (limpiar_sin_separadores t) as Hn.
    destruct (_formatearTelefono_casos t)
      as [[_ ->] | [_ [(r & Hr & ->) | (_ & ->)]]].
    - exact Hn.
    - rewrite Hr in Hn. inversion Hn; subst.
      repeat constructor; assumption.
    - repeat constructor; assumption. }
  split; [exact Hl|].
  unfold _formatearTelefono at 1. rewrite Hl.
  destruct (_formatearTelefono_casos t)
    as [[E ->] | [_ [(r & _ & ->) | (_ & ->)]]].
  - now rewrite E.
  - reflexivity.
  - reflexivity.
Qed.

(** ** Sorting and paging of the listings *)

Lemma insertar_permutacion (clave : Cita -> Z) (c : Cita) (l : list Cita) :
  Permutation (c :: l) (insertar clave c l).
Proof.
  induction l as [|d r IH]; simpl; [reflexivity|].
  destruct (clave c <=? clave d); [reflexivity|].
  rewrite perm_swap. now apply perm_skip.
Qed.

Lemma ordenar_permutacion (clave : Cita -> Z) (l : list Cita) :
  Permutation l (ordenar clave l).
Proof.
  unfold ordenar. induction l as [|c r IH]; simpl; [reflexivity|].
  rewrite <- insertar_permutacion. now apply perm_skip.
Qed.

Lemma insertar_ordenada (clave : Cita -> Z) (c : Cita) (l : list Cita) :
  StronglySorted (fun a b => clave a <= clave b) l ->
  StronglySorted (fun a b => clave a <= clave b) (insertar clave c l).
Proof.
  induction 1 as [|d r Hr IH Hd]; simpl.
  - repeat constructor.
  - destruct (clave c <=? clave d) eqn:E.
    + apply Z.leb_le in E. constructor; [now constructor|].
      constructor; [exact E|].
      rewrite Forall_forall in Hd |- *. intros x Hx.
      specialize (Hd x Hx). lia.
    + apply Z.leb_gt in E. constructor; [exact IH|].
      rewrite Forall_forall in Hd |- *. intros x Hx.
      apply (Permutation_in _ (Permutation_sym
                                 (insertar_permutacion clave c r))) in Hx.
      destruct Hx as [<- | Hx]; [lia | now apply Hd].
Qed.

Lemma ordenar_ordenada (clave : Cita -> Z) (l : list Cita) :
  StronglySorted (fun a b => clave a <= clave b) (ordenar clave l).
Proof.
  unfold ordenar. induction l as [|c r IH]; simpl.
  - constructor.
  - now apply insertar_ordenada.
Qed.

Lemma In_firstn {A} (k : nat) (l : list A) (x : A) :
  In x (firstn k l) -> In x l.
Proof.
  intros H. rewrite <- (firstn_skipn k l). apply in_or_app. now left.
Qed.

Lemma In_skipn {A} (k : nat) (l : list A) (x : A) :
  In x (skipn k l) -> In x l.
Proof.
  intros H. rewrite <- (firstn_skipn k l). apply in_or_app. now right.
Qed.

Lemma StronglySorted_skipn {A} (R : A -> A -> Prop) (k : nat) (l : list A) :
  StronglySorted R l -> StronglySorted R (skipn k l).
Proof.
  revert l. induction k as [|k IH]; intros l H; simpl; [exact H|].
  destruct l as [|a r]; [constructor|].
  apply IH. now inversion H.
Qed.

Lemma StronglySorted_firstn {A} (R : A -> A -> Prop) (k : nat) (l : list A) :
  StronglySorted R l -> StronglySorted R (firstn k l).
Proof.
  revert l. induction k as [|k IH]; intros l H; simpl; [constructor|].
  destruct l as [|a r]; [constructor|].
  inversion H; subst. constructor; [now apply IH|].
  rewrite Forall_forall in *. intros x Hx.
  match goal with Hall : forall _, In _ r -> _ |- _ => apply Hall end.
  eapply In_firstn, Hx.
Qed.

Lemma paginar_incluida (page limit : positive) (l : list Cita) (c : Cita) :
  In c (paginar page limit l) -> In c l.
Proof.
  unfold paginar. intros H.
  apply In_firstn in H. eapply In_skipn, H.
Qed.

Lemma totalPaginas_cota (n : nat) (limit : positive) :
  (n <= totalPaginas n limit * Pos.to_nat limit)%nat
  /\ (0 < n -> (totalPaginas n limit - 1) * Pos.to_nat limit < n)%nat.
Proof.
  unfold totalPaginas.
  pose proof (Pos2Nat.is_pos limit) as HL.
  pose proof (Nat.div_mod_eq (n + Pos.to_nat limit - 1) (Pos.to_nat limit))
    as Hd.
  pose proof (Nat.mod_upper_bound (n + Pos.to_nat limit - 1)
                (Pos.to_nat limit)) as Hm.
  split; [|intros Hn]; nia.
Qed.

Lemma paginas_concatenadas (limit : nat) (t : nat) (l : list Cita) :
  (0 < limit)%nat ->
  (List.length l <= t * limit)%nat ->
  flat_map (fun k => firstn limit (skipn ((k - 1) * limit) l)) (seq 1 t)
  = l.
Proof.
  intros HL. revert l. induction t as [|t IH]; intros l Hl.
  - destruct l; [reflexivity|simpl in Hl; lia].
  - cbn [seq flat_map].
    replace ((1 - 1) * limit)%nat with 0%nat by lia. cbn [skipn].
    transitivity (firstn limit l ++ skipn limit l); [|apply firstn_skipn].
    f_equal.
    etransitivity; [|apply (IH (skipn limit l)); rewrite length_skipn; lia].
    rewrite <- seq_shift, !flat_map_concat_map, map_map. f_equal.
    apply map_ext_in. intros k Hk. apply in_seq in Hk.
    rewrite skipn_skipn. do 2 f_equal. nia.
Qed.

(** ** The listings *)

Lemma coincide_Some (i v : ObjectId) : coincide (Some i) v = true -> v = i.
Proof. simpl. apply Nat.eqb_eq. Qed.

(** What a document that matches a filter satisfies. *)
Lemma cumple_campos (f : Filtro) (c : Cita) :
  cumple f c = true ->
  (forall i, f_paciente f = Some i -> paciente c = i)
  /\ (forall i, f_medico f = Some i -> medico c = i)
  /\ (forall s, f_estado f = Some s -> nombreEstado (estado c) = s)
  /\ (forall i, f_tratamiento f = Some i -> tratamiento c = i)
  /\ (forall d, f_desde f = Some d -> d <= fechaInicio c)
  /\ (forall h, f_hasta f = Some h -> fechaInicio c <= h).
Proof.
  unfold cumple. rewrite !andb_true_iff.
  intros [[[[[H1 H2] H3] H4] H5] H6].
  repeat split; intros x Hx; rewrite Hx in *.
  - now apply coincide_Some.
  - now apply coincide_Some.
  - now apply String.eqb_eq.
  - now apply coincide_Some.
  - now apply Z.leb_le.
  - now apply Z.leb_le.
Qed.

Lemma ordenarSegun_permutacion (clave : Cita -> Z) (asc : bool)
    (l : list Cita) :
  Permutation l (ordenarSegun clave asc l).
Proof. unfold ordenarSegun. destruct asc; apply ordenar_permutacion. Qed.

Lemma paginar_largo (page limit : positive) (l : list Cita) :
  (List.length (paginar page limit l) <= Pos.to_nat limit)%nat.
Proof. unfold paginar. rewrite length_firstn. lia. Qed.

(** X3. GET /api/citas, page by page: every answer carries the same totals;
    the pages from 1 to [totalPaginas], one after the other, are the
    matching appointments in the order asked, each exactly once; those
    pages are not empty, the later ones are, and no page is longer than
    [limit]. *)
Theorem obtenerCitas_paginas (user : ReqUser) (q : CitasQuery)
    (citas : list Cita) :
  let todas := todasLasCitas user q citas in
  let limit := o_defecto (q_limit q) 10%positive in
  let total := totalPaginas (List.length todas) limit in
  let pagina p := citasDe (obtenerCitas user (conPagina q p) citas) in
  (forall p, obtenerCitas user (conPagina q p) citas
             = Listado (List.length (filter (cumple (filtroCitas user q))
                                            citas))
                 total p (pagina p))
  /\ Permutation (filter (cumple (filtroCitas user q)) citas) todas
  /\ flat_map (fun k => pagina (Pos.of_nat k)) (seq 1 total) = todas
  /\ (forall p, (Pos.to_nat p <= total)%nat -> pagina p <> [])
  /\ (forall p, (total < Pos.to_nat p)%nat -> pagina p = [])
  /\ (forall p, (List.length (pagina p) <= Pos.to_nat limit)%nat).
Proof.
  intros todas limit total pagina.
  assert (Hperm : Permutation (filter (cumple (filtroCitas user q)) citas)
                    todas) by apply ordenarSegun_permutacion.
  assert (Hlen : List.length (filter (cumple (filtroCitas user q)) citas)
                 = List.length todas) by now apply Permutation_length.
  assert (Hpag : forall p, pagina p = paginar p limit todas)
    by reflexivity.
  pose proof (Pos2Nat.is_pos limit) as HL.
  destruct (totalPaginas_cota (List.length todas) limit) as [Hsup Hinf].
  fold total in Hsup, Hinf.
  split; [|split; [exact Hperm|split; [|split; [|split]]]].
  - intros p. unfold obtenerCitas. cbn [conPagina q_limit q_page o_defecto].
    fold limit. unfold total. rewrite <- Hlen. reflexivity.
  - etransitivity;
      [|apply (paginas_concatenadas (Pos.to_nat limit) total todas HL Hsup)].
    rewrite !flat_map_concat_map. f_equal.
    apply map_ext_in. intros k Hk. apply in_seq in Hk.
    rewrite Hpag. unfold paginar. rewrite Nat2Pos.id by lia. reflexivity.
  - intros p Hp. rewrite Hpag. unfold paginar. intros Hnil.
    apply (f_equal (@List.length Cita)) in Hnil.
    rewrite length_firstn, length_skipn in Hnil. simpl in Hnil.
    pose proof (Pos2Nat.is_pos p).
    assert (0 < List.length todas)%nat.
    { destruct (List.length todas); [|lia].
      unfold total, totalPaginas in Hp. simpl in Hp.
      rewrite Nat.div_small in Hp by lia. lia. }
    specialize (Hinf ltac:(assumption)). nia.
  - intros p Hp. rewrite Hpag. unfold paginar.
    rewrite skipn_all2; [now rewrite firstn_nil|]. nia.
  - intros p. rewrite Hpag. apply paginar_largo.
Qed.

Lemma buscarMedico_Some (dir : Directorios) (id : ObjectId) (m : Usuario) :
  buscarMedico dir id = Some m -> u_id m = id /\ u_rol m = rol_medico.
Proof.
  unfold buscarMedico. intros H. apply find_some in H.
  destruct H as [_ H]. apply andb_true_iff in H. destruct H as [H1 H2].
  apply Nat.eqb_eq in H1. split; [exact H1|].
  now destruct (u_rol m).
Qed.

Lemma buscarUsuario_Some (dir : Directorios) (id : ObjectId) (m : Usuario) :
  buscarUsuario dir id = Some m -> u_id m = id.
Proof.
  unfold buscarUsuario. intros H. apply find_some in H.
  destruct H as [_ H]. now apply Nat.eqb_eq in H.
Qed.

Lemma buscarPaciente_Some (dir : Directorios) (id : ObjectId)
    (p : Paciente) :
  buscarPaciente dir id = Some p -> p_id p = id.
Proof.
  unfold buscarPaciente. intros H. apply find_some in H.
  destruct H as [_ H]. now apply Nat.eqb_eq in H.
Qed.

(** X4. GET /api/citas/medico/:medicoId. An answer with a listing is given
    only for an existing practitioner, and to a practitioner only for
    themselves; the page is in ascending order of start, no longer than
    [limit], and made of stored appointments of that practitioner that
    pass the state and date filters of the query. *)
Theorem obtenerCitasMedico_listado (dir : Directorios) (user : ReqUser)
    (medicoId : ObjectId) (q : MedicoQuery) (citas l : list Cita)
    (medico_ : Usuario) (n t : nat) (p : positive) :
  obtenerCitasMedico dir user medicoId q citas
  = ListadoMedico medico_ n t p l ->
  (rol user = rol_medico -> userId user = medicoId)
  /\ u_id medico_ = medicoId /\ u_rol medico_ = rol_medico
  /\ n = List.length (filter (cumple (filtroMedico medicoId q)) citas)
  /\ t = totalPaginas n (o_defecto (m_limit q) 10%positive)
  /\ StronglySorted (fun a b => fechaInicio a <= fechaInicio b) l
  /\ (List.length l <= Pos.to_nat (o_defecto (m_limit q) 10%positive))%nat
  /\ (forall c, In c l ->
        In c citas
        /\ medico c = medicoId
        /\ (truthy (m_estado q) = true ->
            Some (nombreEstado (estado c)) = m_estado q)
        /\ (forall d, m_fechaDesde q = Some d -> d <= fechaInicio c)
        /\ (forall h, m_fechaHasta q = Some h -> fechaInicio c <= h)).
Proof.
  unfold obtenerCitasMedico.
  destruct (match rol user with
            | rol_medico => negb (Nat.eqb (userId user) medicoId)
            | _ => false
            end) eqn:Hperm; [discriminate|].
  destruct (buscarMedico dir medicoId) as [m|] eqn:Hm; [|discriminate].
  intros H. inversion H; subst; clear H.
  destruct (buscarMedico_Some _ _ _ Hm) as [Hid Hrol].
  split; [|repeat split; auto].
  - intros Hr. rewrite Hr in Hperm.
    apply negb_false_iff, Nat.eqb_eq in Hperm. exact Hperm.
  - unfold paginar. apply StronglySorted_firstn, StronglySorted_skipn.
    apply ordenar_ordenada.
  - apply paginar_largo.
  - apply paginar_incluida in H.
    apply (Permutation_in _ (Permutation_sym (ordenar_permutacion _ _))) in H.
    now apply filter_In in H.
  - apply paginar_incluida in H.
    apply (Permutation_in _ (Permutation_sym (ordenar_permutacion _ _))) in H.
    apply filter_In in H. destruct H as [_ H].
    apply cumple_campos in H. now apply H.
  - intros Ht. apply paginar_incluida in H.
    apply (Permutation_in _ (Permutation_sym (ordenar_permutacion _ _))) in H.
    apply filter_In in H. destruct H as [_ H].
    apply cumple_campos in H. destruct H as (_ & _ & H & _).
    cbn [filtroMedico f_estado] in H. rewrite Ht in H.
    destruct (m_estado q) as [s|]; [|discriminate].
    f_equal. now apply H.
  - intros d Hd. apply paginar_incluida in H.
    apply (Permutation_in _ (Permutation_sym (ordenar_permutacion _ _))) in H.
    apply filter_In in H. destruct H as [_ H].
    apply cumple_campos in H. now apply H.
  - intros h Hh. apply paginar_incluida in H.
    apply (Permutation_in _ (Permutation_sym (ordenar_permutacion _ _))) in H.
    apply filter_In in H. destruct H as [_ H].
    apply cumple_campos in H. now apply H.
Qed.

Lemma obtenerCitasMedico_listado_witness :
  obtenerCitasMedico clinicaDos doctora 20%nat sinFiltros jornada
  = ListadoMedico medico20 3 1 1
      [citaDe 4%nat programada 480 510; citaDe 1%nat programada 600 630;
       citaDe 3%nat cancelada 660 690]
  /\ StronglySorted (fun a b => fechaInicio a <= fechaInicio b)
       [citaDe 4%nat programada 480 510; citaDe 1%nat programada 600 630;
        citaDe 3%nat cancelada 660 690]
  /\ forall c,
       In c [citaDe 4%nat programada 480 510; citaDe 1%nat programada 600 630;
             citaDe 3%nat cancelada 660 690] ->
       In c jornada /\ medico c = 20%nat.
Proof.
  split; [reflexivity|].
  destruct (obtenerCitasMedico_listado clinicaDos doctora 20%nat sinFiltros
              jornada _ _ _ _ _ eq_refl)
    as (_ & _ & _ & _ & _ & Hs & _ & Hc).
  split; [exact Hs|]. intros c Hin. destruct (Hc c Hin) as (H1 & H2 & _).
  split; assumption.
Defined.

(** ** The views by practitioner *)

Lemma cumple_sii (f : Filtro) (c : Cita) :
  cumple f c = true
  <-> coincide (f_paciente f) (paciente c) = true
      /\ coincide (f_medico f) (medico c) = true
      /\ (forall s, f_estado f = Some s -> nombreEstado (estado c) = s)
      /\ coincide (f_tratamiento f) (tratamiento c) = true
      /\ (forall d, f_desde f = Some d -> d <= fechaInicio c)
      /\ (forall h, f_hasta f = Some h -> fechaInicio c <= h).
Proof.
  unfold cumple. rewrite !andb_true_iff.
  destruct (f_estado f) as [s|], (f_desde f) as [d|], (f_hasta f) as [h|];
    rewrite ?String.eqb_eq, ?Z.leb_le;
    (split; [intros [[[[[H1 H2] H3] H4] H5] H6]
            | intros (H1 & H2 & H3 & H4 & H5 & H6)]);
    repeat split; auto; try discriminate;
    try (intros ? [= <-]; assumption).
Qed.






Lemma agregarAGrupo_citas (m : Usuario) (c : Cita) (gs : list Grupo) :
  Permutation (flat_map g_citas (agregarAGrupo m c gs))
              (flat_map g_citas gs ++ [c]).
Proof.
  induction gs as [|g gs IH]; simpl.
  - reflexivity.
  - destruct (Nat.eqb (u_id (g_medico g)) (u_id m)); simpl.
    + rewrite <- !app_assoc. apply Permutation_app_head.
      apply Permutation_app_comm.
    + rewrite <- app_assoc. now apply Permutation_app_head.
Qed.

Lemma agrupar_citas (dir : Directorios) (citas : list Cita) :
  forall gs gs' : list Grupo,
    agrupar dir citas gs = Some gs' ->
    Permutation (flat_map g_citas gs') (flat_map g_citas gs ++ citas).
Proof.
  induction citas as [|c citas IH]; simpl; intros gs gs' H.
  - inversion H; subst. now rewrite app_nil_r.
  - destruct (buscarUsuario dir (medico c)) as [m|]; [|discriminate].
    rewrite (IH _ _ H), (agregarAGrupo_citas m c gs), <- app_assoc.
    reflexivity.
Qed.


Lemma delDia_sii (user : ReqUser) (inicioDia finDia : Fecha) (c : Cita) :
  cumple {| f_paciente := None;
            f_medico := match rol user with
                        | rol_medico => Some (userId user)
                        | _ => None
                        end;
            f_estado := None;
            f_tratamiento := None;
            f_desde := Some inicioDia;
            f_hasta := Some finDia |} c = true
  <-> inicioDia <= fechaInicio c <= finDia
      /\ (rol user = rol_medico -> medico c = userId user).
Proof.
  rewrite cumple_sii. cbn [f_paciente f_medico f_estado f_tratamiento
                           f_desde f_hasta coincide].
  split.
  - intros (_ & Hm & _ & _ & Hd & Hh).
    split; [split; auto|]. intros Hr. rewrite Hr in Hm.
    now apply Nat.eqb_eq in Hm.
  - intros ([Hd Hh] & Hm). repeat split; try discriminate.
    + destruct (rol user); try reflexivity. simpl.
      apply Nat.eqb_eq. now apply Hm.
    + now intros d [= <-].
    + now intros h [= <-].
Qed.






(** ** Who sees what *)

Lemma referenciasSanas_propias (citas : list Cita) :
  referenciasSanas citas -> referenciasPropias citas.
Proof.
  intros H c i o Hc Hi Ho. destruct (H c i Hc Hi) as (o' & Ho' & Hm).
  congruence.
Qed.

(** X7. Whichever read route a practitioner calls, every appointment of the
    answer is a stored appointment of that practitioner, the original
    that GET /api/citas/:id hands over inside the appointment included, as
    long as back-references stay with the practitioner: an appointment
    and the stored appointment it names as its original have the same
    practitioner. Every write route keeps the collection so
    ([atender_referenciasSanas], [atenderTodas_referenciasSanas]). *)
Theorem medico_solo_ve_sus_citas (dir : Directorios) (user : ReqUser)
    (k : Consulta) (citas : list Cita) (c : Cita) :
  rol user = rol_medico ->
  referenciasPropias citas ->
  In c (citasDe (consultar dir user k citas)) ->
  In c citas /\ medico c = userId user.
Proof.
  intros Hr Href.
  destruct k as [q | citaId | medicoId q | desfase [dia|]]; simpl.
  - unfold obtenerCitas. simpl. intros H.
    apply paginar_incluida in H.
    apply (Permutation_in _
             (Permutation_sym (ordenarSegun_permutacion _ _ _))) in H.
    apply filter_In in H. destruct H as [Hin Hc]. split; [exact Hin|].
    apply cumple_campos in Hc. destruct Hc as (_ & Hm & _).
    apply Hm. simpl. now rewrite Hr.
  - unfold obtenerCitaPorId.
    destruct (findById citaId citas) as [cita|] eqn:Hf; [|intros []].
    rewrite Hr.
    destruct (buscarUsuario dir (medico cita)) as [m|] eqn:Hb; [|intros []].
    destruct (Nat.eqb (userId user) (u_id m)) eqn:E; simpl; [|intros []].
    apply Nat.eqb_eq in E. apply buscarUsuario_Some in Hb.
    pose proof (findById_In _ _ _ Hf) as Hin.
    assert (Hm : medico cita = userId user) by congruence.
    intros [<- | H]; [split; assumption|].
    destruct (citaOriginal cita) as [i|] eqn:Ho; [|destruct H].
    destruct (findById i citas) as [o|] eqn:Hfo; [|destruct H].
    destruct H as [<- | []]. split; [eapply findById_In, Hfo|].
    rewrite <- Hm. exact (Href cita i o Hin Ho Hfo).
  - unfold obtenerCitasMedico. rewrite Hr.
    destruct (Nat.eqb (userId user) medicoId) eqn:E; simpl; [|intros []].
    apply Nat.eqb_eq in E.
    destruct (buscarMedico dir medicoId); simpl; [|intros []].
    intros H. apply paginar_incluida in H.
    apply (Permutation_in _ (Permutation_sym (ordenar_permutacion _ _))) in H.
    apply filter_In in H. destruct H as [Hin Hc]. split; [exact Hin|].
    apply cumple_campos in Hc. destruct Hc as (_ & Hm & _).
    rewrite E. now apply Hm.
  - unfold obtenerCitasPorFecha.
    destruct (agrupar dir _ []) as [gs|] eqn:Hg; simpl; [|intros []].
    intros H.
    assert (Hl : In c (ordenar fechaInicio
                         (filter (cumple
                            {| f_paciente := None;
                               f_medico := match rol user with
                                           | rol_medico => Some (userId user)
                                           | _ => None
                                           end;
                               f_estado := None;
                               f_tratamiento := None;
                               f_desde :=
                                 Some (inicioDelDia desfase (dia * msPorDia));
                               f_hasta :=
                                 Some (finDelDia desfase (dia * msPorDia))
                            |}) citas))).
    { apply in_app_or in H. destruct H as [H | H]; [exact H|].
      apply (Permutation_in _ (agrupar_citas dir _ [] gs Hg)) in H.
      exact H. }
    apply (Permutation_in _ (Permutation_sym (ordenar_permutacion _ _))) in Hl.
    apply filter_In in Hl. destruct Hl as [Hin Hc]. split; [exact Hin|].
    apply delDia_sii in Hc. now apply Hc.
  - intros [].
Qed.

(** The practitioner reads the successor of a moved booking, and gets the
    original with it. *)
Lemma medico_solo_ve_sus_citas_witness :
  rol doctora = rol_medico
  /\ referenciasPropias movida
  /\ In (citaDe 1%nat reprogramada 600 630)
       (citasDe (consultar clinica doctora (PideCita 2%nat) movida))
  /\ In (citaDe 1%nat reprogramada 600 630) movida
  /\ medico (citaDe 1%nat reprogramada 600 630) = userId doctora.
Proof.
  split; [reflexivity|].
  assert (Href : referenciasPropias movida).
  { intros c i o [<- | [<- | []]] Hi Ho; [discriminate|].
    inversion Hi; subst i. inversion Ho; subst o. reflexivity. }
  split; [exact Href|].
  assert (H : In (citaDe 1%nat reprogramada 600 630)
                (citasDe (consultar clinica doctora (PideCita 2%nat)
                            movida)))
    by (vm_compute; auto).
  split; [exact H|].
  exact (medico_solo_ve_sus_citas clinica doctora (PideCita 2%nat) movida _
           eq_refl Href H).
Defined.

(** X8. GET /api/citas/:id applies the ownership rule of the cancellation:
    it hands the appointment over, with the appointment it names as its
    original inside, only to a caller who could cancel it, it answers 403
    only to a caller who could not, and 404 exactly when the appointment
    is not stored. *)
Theorem obtenerCitaPorId_permiso (dir : Directorios) (user : ReqUser)
    (citaId : ObjectId) (citas : list Cita) :
  let r := obtenerCitaPorId dir user citaId citas in
  (forall c o, r = UnaCita c o ->
     findById citaId citas = Some c /\ sinPermiso dir user c = false
     /\ o = match citaOriginal c with
            | Some i => findById i citas
            | None => None
            end)
  /\ (forall m, r = Negada 403 m ->
        exists cita, findById citaId citas = Some cita
                     /\ sinPermiso dir user cita = true)
  /\ (r = Negada 404 LecturaCitaNoEncontrada
      <-> findById citaId citas = None).
Proof.
  unfold obtenerCitaPorId, sinPermiso. cbn zeta.
  destruct (findById citaId citas) as [cita|] eqn:Hf.
  2: { split; [discriminate|]. split; [discriminate|]. tauto. }
  destruct (rol user).
  - split; [intros c o [= <- <-]; auto|]. split; [discriminate|].
    split; discriminate.
  - destruct (buscarUsuario dir (medico cita)) as [m|] eqn:Hb.
    + apply buscarUsuario_Some in Hb. rewrite Hb.
      destruct (Nat.eqb (userId user) (medico cita)) eqn:E; simpl.
      * split; [intros c o [= <- <-]; rewrite ?E; auto|].
        split; [discriminate|]. split; discriminate.
      * split; [discriminate|].
        split; [intros _ _; exists cita; rewrite ?E; auto|].
        split; discriminate.
    + split; [discriminate|]. split; [discriminate|]. split; discriminate.
  - split; [intros c o [= <- <-]; auto|]. split; [discriminate|].
    split; discriminate.
  - destruct (buscarPacienteDeUsuario dir (userId user)) as [p|].
    + destruct (buscarPaciente dir (paciente cita)) as [pc|] eqn:Hb.
      * apply buscarPaciente_Some in Hb. rewrite Hb.
        destruct (Nat.eqb (p_id p) (paciente cita)) eqn:E; simpl.
        -- split; [intros c o [= <- <-]; rewrite ?E; auto|].
           split; [discriminate|]. split; discriminate.
        -- split; [discriminate|].
           split; [intros _ _; exists cita; rewrite ?E; auto|].
           split; discriminate.
      * split; [discriminate|]. split; [discriminate|]. split; discriminate.
    + split; [discriminate|].
      split; [intros _ _; exists cita; rewrite ?E; auto|].
      split; discriminate.
Qed.

(** ** What a write leaves in the collection *)

Lemma save_In (d : Cita) (citas : list Cita) (a : Cita) :
  In a (save d citas) -> a = d \/ In a citas.
Proof.
  induction citas as [|c citas IH]; simpl.
  - intros [<- | []]. now left.
  - destruct (Nat.eqb (_id c) (_id d)); simpl; intuition.
Qed.

Lemma save_In_otro (d : Cita) (citas : list Cita) (a : Cita) :
  NoDup (map _id citas) ->
  In a (save d citas) -> a = d \/ (In a citas /\ _id a <> _id d).
Proof.
  induction citas as [|c citas IH]; simpl; intros Hnd.
  - intros [<- | []]. now left.
  - inversion Hnd as [|? ? Hn Hd]; subst.
    destruct (Nat.eqb (_id c) (_id d)) eqn:E; simpl.
    + apply Nat.eqb_eq in E. intros [<- | Ha]; [now left|].
      right. split; [now right|]. intros Heq. apply Hn.
      rewrite E, <- Heq. now apply in_map.
    + apply Nat.eqb_neq in E. intros [<- | Ha].
      * right. split; [now left | exact E].
      * destruct (IH Hd Ha) as [-> | [H1 H2]]; [now left|].
        right. split; [now right | exact H2].
Qed.

Lemma save_queda (d : Cita) (citas : list Cita) (c : Cita) :
  In c citas -> In c (save d citas) \/ findById (_id d) citas = Some c.
Proof.
  unfold findById.
  induction citas as [|c0 citas IH]; simpl; [intros []|].
  destruct (Nat.eqb (_id c0) (_id d)); simpl.
  - intros [<- | H]; [now right | now left; right].
  - intros [<- | H]; [now left; left|].
    destruct (IH H) as [H1 | H1]; [left; now right | now right].
Qed.

Lemma save_esta (d : Cita) (citas : list Cita) : In d (save d citas).
Proof.
  induction citas as [|c citas IH]; simpl; [now left|].
  destruct (Nat.eqb (_id c) (_id d)); simpl; [now left | now right].
Qed.

Lemma save_ids (d : Cita) (citas : list Cita) (i : ObjectId) :
  In i (map _id (save d citas)) <-> In i (map _id citas) \/ i = _id d.
Proof.
  induction citas as [|c citas IH]; simpl.
  - intuition.
  - destruct (Nat.eqb (_id c) (_id d)) eqn:E; simpl.
    + apply Nat.eqb_eq in E. rewrite E. intuition.
    + rewrite IH. tauto.
Qed.

Lemma NoDup_save (d : Cita) (citas : list Cita) :
  NoDup (map _id citas) -> NoDup (map _id (save d citas)).
Proof.
  induction citas as [|c citas IH]; simpl; intros H.
  - constructor; [intros []|constructor].
  - inversion H as [|? ? Hn Hd]; subst.
    destruct (Nat.eqb (_id c) (_id d)) eqn:E; simpl.
    + apply Nat.eqb_eq in E. rewrite <- E. now constructor.
    + apply Nat.eqb_neq in E. constructor; [|auto].
      rewrite save_ids. intros [Hi | Hi]; auto.
Qed.

Lemma prefijo_refl {A} (l : list A) : prefijo l l.
Proof. exists []. now rewrite app_nil_r. Qed.

Lemma prefijo_trans {A} (l1 l2 l3 : list A) :
  prefijo l1 l2 -> prefijo l2 l3 -> prefijo l1 l3.
Proof.
  intros [r1 ->] [r2 ->]. exists (r1 ++ r2). now rewrite app_assoc.
Qed.

Lemma perdura_refl (c : Cita) : perdura c c.
Proof. unfold perdura. repeat split; auto. apply prefijo_refl. Qed.

Lemma perdura_trans (a b c : Cita) :
  perdura a b -> perdura b c -> perdura a c.
Proof.
  unfold perdura.
  intros (A1 & A2 & A3 & A4 & A5 & A6) (B1 & B2 & B3 & B4 & B5 & B6).
  repeat split; try congruence. eapply prefijo_trans; eassumption.
Qed.

Lemma conserva_refl (citas : list Cita) : conserva citas citas.
Proof. intros c Hc. exists c. split; [exact Hc | apply perdura_refl]. Qed.

Lemma conserva_trans (l1 l2 l3 : list Cita) :
  conserva l1 l2 -> conserva l2 l3 -> conserva l1 l3.
Proof.
  intros H12 H23 c Hc. destruct (H12 c Hc) as (c' & Hc' & P1).
  destruct (H23 c' Hc') as (c'' & Hc'' & P2).
  exists c''. split; [exact Hc'' | eapply perdura_trans; eassumption].
Qed.

Lemma conserva_save (d : Cita) (citas : list Cita) :
  (forall c, findById (_id d) citas = Some c -> perdura c d) ->
  conserva citas (save d citas).
Proof.
  intros H c Hc. destruct (save_queda d citas c Hc) as [Hin | Hf].
  - exists c. split; [exact Hin | apply perdura_refl].
  - exists d. split; [apply save_esta | now apply H].
Qed.

(** The notification blocks save the document again with a longer log,
    and nothing else. *)
Lemma avisarCreacion_agrega (msj : Mensajeria) (ahora : Fecha)
    (pac : Paciente) (usr : option Usuario) (med : Usuario)
    (trat : Tratamiento) (nuevaCita : Cita) (citas : list Cita) :
  exists d,
    soloAgrega nuevaCita citas d
      (snd (avisarCreacion msj ahora pac usr med trat nuevaCita citas)).
Proof.
  unfold avisarCreacion, enviarConfirmacionCita, enviarRecordatorioCita,
    atrapar, deref, modificar, lanzar, bind, ret.
  repeat caso; simpl;
    repeat match goal with
           | H : (_, _) = (_, _) |- _ => inversion H; clear H; subst
           end;
    eexists; repeat first [apply sa_nada | apply sa_guardar].
Qed.

Lemma avisarActualizacion_agrega (dir : Directorios) (msj : Mensajeria)
    (ahora : Fecha) (cita : Cita) (citas : list Cita) :
  exists d,
    soloAgrega cita citas d
      (snd (avisarActualizacion dir msj ahora cita citas)).
Proof.
  unfold avisarActualizacion, enviarConfirmacionCita, atrapar, deref,
    modificar, lanzar, bind, ret.
  repeat caso; simpl;
    eexists; repeat first [apply sa_nada | apply sa_guardar].
Qed.

Lemma soloAgrega_forma (c : Cita) (citas antes : list Cita) (d : Cita)
    (despues : list Cita) :
  soloAgrega c antes d despues ->
  antes = save c citas ->
  despues = save d citas
  /\ sinRecordatorios d = sinRecordatorios c
  /\ prefijo (recordatoriosEnviados c) (recordatoriosEnviados d).
Proof.
  induction 1 as [|d l r H IH]; intros Ha.
  - repeat split; [exact Ha | apply prefijo_refl].
  - destruct (IH Ha) as (-> & Hs & Hp).
    split; [now apply save_save|]. split; [exact Hs|].
    eapply prefijo_trans; [exact Hp|]. now exists [r].
Qed.

Lemma o_actual_difiere (f : option Fecha) (actual : Fecha) :
  difiere f actual = false -> o_actual f actual = actual.
Proof.
  destruct f as [t|]; simpl; [|reflexivity].
  intros H. apply negb_false_iff, Z.eqb_eq in H. exact H.
Qed.

(** What each handler leaves: the collection as it was, with a refusal, or
    one document saved over the collection. *)
Lemma crearCita_escritura (dir : Directorios) (msj : Mensajeria)
    (ahora : Fecha) (b : CrearBody) (citas : list Cita) :
  (snd (crearCita dir msj ahora b citas) = citas
   /\ exito (fst (crearCita dir msj ahora b citas)) = false)
  \/ (exists d,
        snd (crearCita dir msj ahora b citas) = save d citas
        /\ sinRecordatorios d = citaNueva b citas
        /\ citaSolapada None (b_medico b) (b_fechaInicio b) (b_fechaFin b)
             citas = None
        /\ exito (fst (crearCita dir msj ahora b citas)) = true).
Proof.
  unfold crearCita.
  destruct (buscarPaciente _ _) as [pac|]; [|now left].
  destruct (buscarMedicoActivo _ _) as [med|]; [|now left].
  destruct (buscarTratamientoActivo _ _) as [trat|]; [|now left].
  destruct (_ && _); [now left|].
  destruct (citaSolapada _ _ _ _ _) eqn:Es; [now left|].
  right. cbn zeta. cbn [fst snd].
  match goal with
  | |- context [avisarCreacion ?m ?a ?p ?u ?me ?t ?n ?l] =>
      destruct (avisarCreacion_agrega m a p u me t n l) as (d & Hd)
  end.
  destruct (soloAgrega_forma _ citas _ _ _ Hd eq_refl) as (He & Hs & _).
  exists d. repeat split; [exact He | exact Hs].
Qed.

Lemma actualizarCita_escritura (dir : Directorios) (msj : Mensajeria)
    (ahora : Fecha) (citaId : ObjectId) (b : ActualizarBody)
    (citas : list Cita) :
  (snd (actualizarCita dir msj ahora citaId b citas) = citas
   /\ exito (fst (actualizarCita dir msj ahora citaId b citas)) = false)
  \/ (exists cita d,
        findById citaId citas = Some cita
        /\ snd (actualizarCita dir msj ahora citaId b citas) = save d citas
        /\ mismoMarco d cita
        /\ fechaInicio d = o_actual (a_fechaInicio b) (fechaInicio cita)
        /\ fechaFin d = o_actual (a_fechaFin b) (fechaFin cita)
        /\ prefijo (recordatoriosEnviados cita) (recordatoriosEnviados d)
        /\ (mismaVentana cita d
            \/ citaSolapada (Some citaId) (medico cita)
                 (fechaInicio d) (fechaFin d) citas = None)
        /\ exito (fst (actualizarCita dir msj ahora citaId b citas)) = true).
Proof.
  unfold actualizarCita.
  destruct (findById citaId citas) as [cita|] eqn:Hf; [|now left].
  destruct (includes _ _); [now left|].
  set (c2 := if difiere (a_fechaInicio b) (fechaInicio cita)
                || difiere (a_fechaFin b) (fechaFin cita)
             then _ else _).
  assert (Hc2 :
    c2 = None
    \/ exists c, c2 = Some c
         /\ mismoMarco c cita
         /\ notas c = notas cita
         /\ recordatoriosEnviados c = recordatoriosEnviados cita
         /\ fechaInicio c = o_actual (a_fechaInicio b) (fechaInicio cita)
         /\ fechaFin c = o_actual (a_fechaFin b) (fechaFin cita)
         /\ (mismaVentana cita c
             \/ citaSolapada (Some citaId) (medico cita)
                  (fechaInicio c) (fechaFin c) citas = None)).
  { subst c2.
    destruct (difiere (a_fechaInicio b) (fechaInicio cita)) eqn:D1;
      [|destruct (difiere (a_fechaFin b) (fechaFin cita)) eqn:D2]; simpl.
    3: { right. exists cita.
         rewrite (o_actual_difiere _ _ D1), (o_actual_difiere _ _ D2).
         unfold mismoMarco, mismaVentana. now auto 15. }
    all: destruct (citaSolapada _ _ _ _ _) eqn:Es; [now left|];
      right; eexists; split; [reflexivity|];
      destruct (a_fechaInicio b), (a_fechaFin b); simpl in *;
      unfold mismoMarco; simpl; now auto 15. }
  destruct Hc2 as [-> | (c & -> & Hm & Hn & Hr & Hi & Hfi & Hv)];
    [now left|].
  right. cbn zeta.
  set (c3 := match a_notas b with
             | Some n => con_notas (Some n) c
             | None => c
             end).
  assert (H3 : mismoMarco c3 cita
               /\ recordatoriosEnviados c3 = recordatoriosEnviados cita
               /\ fechaInicio c3 = fechaInicio c
               /\ fechaFin c3 = fechaFin c).
  { subst c3. destruct (a_notas b); simpl; auto. }
  destruct H3 as (Hm3 & Hr3 & Hi3 & Hf3). clearbody c3.
  assert (Hfin : forall d l,
            l = save d citas ->
            sinRecordatorios d = sinRecordatorios c3 ->
            prefijo (recordatoriosEnviados c3) (recordatoriosEnviados d) ->
            exists cita0 d0,
              Some cita = Some cita0
              /\ l = save d0 citas
              /\ mismoMarco d0 cita0
              /\ fechaInicio d0
                 = o_actual (a_fechaInicio b) (fechaInicio cita0)
              /\ fechaFin d0 = o_actual (a_fechaFin b) (fechaFin cita0)
              /\ prefijo (recordatoriosEnviados cita0)
                   (recordatoriosEnviados d0)
              /\ (mismaVentana cita0 d0
                  \/ citaSolapada (Some citaId) (medico cita0)
                       (fechaInicio d0) (fechaFin d0) citas = None)
              /\ true = true).
  { intros d l -> Hs Hp. exists cita, d.
    pose proof (f_equal fechaInicio Hs) as E1.
    pose proof (f_equal fechaFin Hs) as E2. simpl in E1, E2.
    split; [reflexivity|]. split; [reflexivity|].
    split; [|split; [congruence|split; [congruence|split; [|split]]]].
    - apply mismoMarco_sinRecordatorios in Hs.
      eapply mismoMarco_trans; eassumption.
    - now rewrite <- Hr3.
    - unfold mismaVentana in *. rewrite E1, E2, Hi3, Hf3.
      destruct Hv as [Hv | Hv]; [left; exact Hv | right; exact Hv].
    - reflexivity. }
  destruct (presente (a_fechaInicio b) || presente (a_fechaFin b)).
  - cbn [fst snd].
    match goal with
    | |- context [avisarActualizacion ?dd ?m ?a ?cc ?l] =>
        destruct (avisarActualizacion_agrega dd m a cc l) as (d & Hd)
    end.
    destruct (soloAgrega_forma _ citas _ _ _ Hd eq_refl) as (He & Hs & Hp).
    apply (Hfin d); assumption.
  - cbn [fst snd]. apply (Hfin c3); [reflexivity | reflexivity|].
    apply prefijo_refl.
Qed.

Lemma cambiarEstadoCita_escritura (user : ReqUser) (citaId : ObjectId)
    (b : EstadoBody) (citas : list Cita) :
  (snd (cambiarEstadoCita user citaId b citas) = citas
   /\ exito (fst (cambiarEstadoCita user citaId b citas)) = false)
  \/ (exists cita est d,
        findById citaId citas = Some cita
        /\ estadoPedido b = Some est
        /\ snd (cambiarEstadoCita user citaId b citas) = save d citas
        /\ perdura cita d
        /\ mismaVentana cita d
        /\ estado d = est
        /\ (includes estadosFinales (estado cita) = true ->
            est = estado cita)
        /\ exito (fst (cambiarEstadoCita user citaId b citas)) = true).
Proof.
  unfold cambiarEstadoCita.
  destruct (estadoPedido b) as [est|]; [|now left].
  destruct (findById citaId citas) as [cita|] eqn:Hf; [|now left].
  destruct (includes estadosFinales (estado cita)) eqn:Ei;
    [destruct (Estado_eqb_spec (estado cita) est) as [He | He]|];
    simpl; [| now left |].
  all: right; exists cita, est; eexists;
    split; [reflexivity|]; split; [reflexivity|];
    split; [reflexivity|];
    unfold perdura, mismaVentana;
    destruct est, (e_notas b); simpl;
    repeat split; auto using prefijo_refl; intros Hx; congruence.
Qed.

Lemma cancelarCita_escritura (dir : Directorios) (user : ReqUser)
    (citaId : ObjectId) (b : CancelarBody) (citas : list Cita) :
  (snd (cancelarCita dir user citaId b citas) = citas
   /\ exito (fst (cancelarCita dir user citaId b citas)) = false)
  \/ (exists cita d,
        findById citaId citas = Some cita
        /\ snd (cancelarCita dir user citaId b citas) = save d citas
        /\ perdura cita d
        /\ mismaVentana cita d
        /\ estado d = cancelada
        /\ exito (fst (cancelarCita dir user citaId b citas)) = true).
Proof.
  unfold cancelarCita.
  destruct (findById citaId citas) as [cita|] eqn:Hf; [|now left].
  destruct (includes _ _); [now left|].
  destruct (sinPermiso _ _ _); [now left|].
  destruct (parseCanceladoPor _); [|now left].
  right. exists cita. eexists. split; [reflexivity|].
  split; [reflexivity|].
  unfold perdura, mismaVentana; simpl.
  repeat split; auto using prefijo_refl.
Qed.

Lemma aplicar_forma (cita' nueva : Cita) (r : Recordatorio)
    (extra : list Cita) (citas : list Cita) :
  extra = [] \/ extra = [push_recordatorio r nueva] ->
  exists n,
    aplicar ([cita'; nueva] ++ extra) citas = save n (save cita' citas)
    /\ sinRecordatorios n = sinRecordatorios nueva
    /\ prefijo (recordatoriosEnviados nueva) (recordatoriosEnviados n).
Proof.
  intros [-> | ->]; unfold aplicar; simpl.
  - exists nueva. repeat split; auto using prefijo_refl.
  - exists (push_recordatorio r nueva).
    split; [now apply save_save|]. split; [reflexivity|]. now exists [r].
Qed.

(** The reschedule, whatever its plan: the collection as it was and no
    success, or the retired original and a successor saved over it. *)
Lemma ejecutarReprogramar_escritura (plan : Plan) (dir : Directorios)
    (msj : Mensajeria) (ahora : Fecha) (user : ReqUser) (citaId : ObjectId)
    (b : ReprogramarBody) (citas : list Cita) :
  let corrida :=
    ejecutarReprogramar plan dir msj ahora user citaId b citas in
  (snd corrida = citas /\ fallida (fst corrida) = true)
  \/ (exists cita n,
        let cita' := retirada user (r_motivo b) cita in
        findById citaId citas = Some cita
        /\ includes [cancelada; completada; no_asistio; reprogramada]
                    (estado cita) = false
        /\ citaSolapada (Some citaId) (medico cita)
             (r_fechaInicio b) (r_fechaFin b) citas = None
        /\ snd corrida = save n (save cita' citas)
        /\ sinRecordatorios n = sucesora (nuevoId citas) b cita'
        /\ forall s m, fst corrida <> Valor (Rechazo s m)).
Proof.
  cbn zeta.
  destruct (ejecutarReprogramar_casos plan dir msj ahora user citaId b citas)
    as (r & citas' & -> & [(-> & Hfa & _) | (cita & extra & H)]).
  - left. split; [reflexivity | exact Hfa].
  - cbn zeta in H. destruct H as (Hf & Hi & Hs & -> & Hex & ->).
    right.
    destruct (aplicar_forma (retirada user (r_motivo b) cita)
                (sucesora (nuevoId citas) b
                   (retirada user (r_motivo b) cita))
                (recordatorio canal_email ahora) extra citas Hex)
      as (n & Hn & Hsn & _).
    exists cita, n. cbn [fst snd].
    split; [exact Hf|]. split; [exact Hi|]. split; [exact Hs|].
    split; [exact Hn|]. split; [exact Hsn|].
    intros s m. destruct (plan PPoblar); discriminate.
Qed.

(** Back-references stay sound under a save of a document that keeps the
    practitioner of the one it replaces and whose own back-reference is
    sound. *)
Lemma referenciasSanas_save (d : Cita) (citas : list Cita) :
  referenciasSanas citas ->
  (forall old, findById (_id d) citas = Some old -> medico d = medico old) ->
  (forall i, citaOriginal d = Some i ->
     i = _id d
     \/ exists o, findById i citas = Some o /\ medico o = medico d) ->
  referenciasSanas (save d citas).
Proof.
  intros Hs Hold Hd.
  assert (Hpaso : forall i o m,
            findById i citas = Some o -> medico o = m ->
            exists o', findById i (save d citas) = Some o' /\ medico o' = m).
  { intros i o m Ho Hm. destruct (Nat.eq_dec i (_id d)) as [-> | E].
    - exists d. split; [apply findById_save_mismo|].
      rewrite <- Hm. now apply Hold.
    - exists o. now rewrite findById_save_otro. }
  intros c i Hin Hi. apply save_In in Hin. destruct Hin as [-> | Hin].
  - destruct (Hd i Hi) as [-> | (o & Ho & Hm)].
    + exists d. split; [apply findById_save_mismo | reflexivity].
    + now apply (Hpaso i o).
  - destruct (Hs c i Hin Hi) as (o & Ho & Hm). now apply (Hpaso i o).
Qed.

(** Every request leaves the back-references sound: a successor names the
    appointment it replaces, of the same practitioner, and no route
    changes the practitioner or the back-reference of a stored
    appointment. *)
Lemma atender_referenciasSanas (dir : Directorios) (p : Peticion)
    (citas : list Cita) :
  referenciasSanas citas -> referenciasSanas (atender dir p citas).
Proof.
  intros Hs.
  assert (Hmisma : forall cita d,
            findById (_id d) citas = Some cita ->
            medico d = medico cita ->
            citaOriginal d = citaOriginal cita ->
            referenciasSanas (save d citas)).
  { intros cita d Hf Hm Ho. apply referenciasSanas_save; [exact Hs | |].
    - intros old Hold. congruence.
    - intros i Hi. right. rewrite Ho in Hi.
      destruct (Hs cita i (findById_In _ _ _ Hf) Hi) as (o & Hfo & Hmo).
      exists o. split; [exact Hfo | congruence]. }
  destruct p as [msj ahora b | msj ahora citaId b | user citaId b
                | plan msj ahora user citaId b | user citaId b]; simpl.
  - destruct (crearCita_escritura dir msj ahora b citas)
      as [[-> _] | (d & -> & Hd & _)]; [exact Hs|].
    pose proof (f_equal _id Hd) as Hid.
    pose proof (f_equal citaOriginal Hd) as Hco. simpl in Hid, Hco.
    apply referenciasSanas_save; [exact Hs | |].
    + intros old Hold. rewrite Hid, findById_nuevoId in Hold. discriminate.
    + intros i Hi. congruence.
  - destruct (actualizarCita_escritura dir msj ahora citaId b citas)
      as [[-> _] | (cita & d & Hf & -> & Hm & _)]; [exact Hs|].
    destruct Hm as (M1 & _ & M3 & _ & _ & M6 & _).
    apply (Hmisma cita d); [|exact M3 | exact M6].
    now rewrite M1, (findById_id _ _ _ Hf).
  - destruct (cambiarEstadoCita_escritura user citaId b citas)
      as [[-> _] | (cita & est & d & Hf & _ & -> & Hp & _)]; [exact Hs|].
    destruct Hp as (M1 & _ & M3 & _ & M5 & _).
    apply (Hmisma cita d); [|exact M3 | exact M5].
    now rewrite M1, (findById_id _ _ _ Hf).
  - destruct (ejecutarReprogramar_escritura plan dir msj ahora user citaId b
                citas)
      as [[-> _] | (cita & n & Hf & _ & _ & -> & Hn & _)]; [exact Hs|].
    pose proof (f_equal _id Hn) as Hid.
    pose proof (f_equal citaOriginal Hn) as Hco.
    pose proof (f_equal medico Hn) as Hme.
    simpl in Hid, Hco, Hme.
    pose proof (findById_id _ _ _ Hf) as Hcid.
    apply referenciasSanas_save.
    + apply (Hmisma cita); [simpl; now rewrite Hcid | reflexivity..].
    + intros old Hold. rewrite Hid in Hold.
      rewrite findById_save_otro in Hold.
      * rewrite findById_nuevoId in Hold. discriminate.
      * simpl. apply not_eq_sym, nuevoId_fresco. eapply findById_In, Hf.
    + intros i Hi. right. rewrite Hco in Hi. inversion Hi; subst i.
      exists (retirada user (r_motivo b) cita). split; [|now rewrite Hme].
      change (_id cita) with (_id (retirada user (r_motivo b) cita)).
      apply findById_save_mismo.
  - destruct (cancelarCita_escritura dir user citaId b citas)
      as [[-> _] | (cita & d & Hf & -> & Hp & _)]; [exact Hs|].
    destruct Hp as (M1 & _ & M3 & _ & M5 & _).
    apply (Hmisma cita d); [|exact M3 | exact M5].
    now rewrite M1, (findById_id _ _ _ Hf).
Qed.

(** So the back-references of every collection the scheduler builds from
    an empty one are sound. *)
Lemma atenderTodas_referenciasSanas (dir : Directorios)
    (ps : list Peticion) :
  referenciasSanas (atenderTodas dir ps []).
Proof.
  unfold atenderTodas.
  assert (H : forall citas, referenciasSanas citas ->
                referenciasSanas
                  (fold_left (fun acc p => atender dir p acc) ps citas)).
  { induction ps as [|p ps IH]; intros citas Hs; simpl; [exact Hs|].
    apply IH. now apply atender_referenciasSanas. }
  apply H. intros c i [].
Qed.

(** X9. An answer that is an error means nothing was written: after a request
    that is answered with a refusal or with an internal error, the
    collection is the one before the request. *)
Theorem error_no_escribe (dir : Directorios) (p : Peticion)
    (citas : list Cita) (status : nat) (m : Mensaje) :
  responder dir p citas = Valor (Rechazo status m) ->
  atender dir p citas = citas.
Proof.
  destruct p as [msj ahora b | msj ahora citaId b | user citaId b
                | plan msj ahora user citaId b | user citaId b]; simpl.
  - destruct (crearCita_escritura dir msj ahora b citas)
      as [[H _] | (d & _ & _ & _ & He)]; [auto|].
    intros [= Hr]. rewrite Hr in He. discriminate.
  - destruct (actualizarCita_escritura dir msj ahora citaId b citas)
      as [[H _] | (cita & d & _ & _ & _ & _ & _ & _ & _ & He)]; [auto|].
    intros [= Hr]. rewrite Hr in He. discriminate.
  - destruct (cambiarEstadoCita_escritura user citaId b citas)
      as [[H _] | (cita & est & d & _ & _ & _ & _ & _ & _ & _ & He)];
      [auto|].
    intros [= Hr]. rewrite Hr in He. discriminate.
  - destruct (ejecutarReprogramar_escritura plan dir msj ahora user citaId b
                citas) as [[H _] | (cita & n & _ & _ & _ & _ & _ & Hno)];
      [auto|].
    intros Hr. now apply Hno in Hr.
  - destruct (cancelarCita_escritura dir user citaId b citas)
      as [[H _] | (cita & d & _ & _ & _ & _ & _ & He)]; [auto|].
    intros [= Hr]. rewrite Hr in He. discriminate.
Qed.

Lemma error_no_escribe_witness :
  responder clinica
    (PideCancelar ana 1%nat
       {| k_motivo := Some "viaje"; k_canceladoPor := None |})
    [citaDe 1%nat completada 600 630]
  = Valor (Rechazo 400 (NoSePuedeCancelar completada))
  /\ atender clinica
       (PideCancelar ana 1%nat
          {| k_motivo := Some "viaje"; k_canceladoPor := None |})
       [citaDe 1%nat completada 600 630]
     = [citaDe 1%nat completada 600 630].
Proof.
  split; [reflexivity|].
  apply (error_no_escribe clinica
           (PideCancelar ana 1%nat
              {| k_motivo := Some "viaje"; k_canceladoPor := None |})
           [citaDe 1%nat completada 600 630] 400
           (NoSePuedeCancelar completada)).
  reflexivity.
Defined.

(** X10. A request touches the appointment it names and no other: every other
    stored appointment is found unchanged afterwards (a booking names
    none, and a reschedule adds its successor under a new identifier). *)
Theorem atender_ajenas (dir : Directorios) (p : Peticion)
    (citas : list Cita) (i : ObjectId) (c : Cita) :
  objetivo p <> Some i ->
  findById i citas = Some c ->
  findById i (atender dir p citas) = Some c.
Proof.
  intros Ho Hc.
  assert (Hfresco : i <> nuevoId citas).
  { pose proof (findById_id _ _ _ Hc) as <-.
    apply nuevoId_fresco. eapply findById_In, Hc. }
  destruct p as [msj ahora b | msj ahora citaId b | user citaId b
                | plan msj ahora user citaId b | user citaId b];
    simpl in *.
  - destruct (crearCita_escritura dir msj ahora b citas)
      as [[-> _] | (d & -> & Hs & _)]; [exact Hc|].
    apply (f_equal _id) in Hs. simpl in Hs.
    rewrite findById_save_otro; [exact Hc | congruence].
  - destruct (actualizarCita_escritura dir msj ahora citaId b citas)
      as [[-> _] | (cita & d & Hf & -> & Hm & _)]; [exact Hc|].
    destruct Hm as (Hid & _). apply findById_id in Hf.
    rewrite findById_save_otro; [exact Hc | congruence].
  - destruct (cambiarEstadoCita_escritura user citaId b citas)
      as [[-> _] | (cita & est & d & Hf & _ & -> & Hp & _)]; [exact Hc|].
    destruct Hp as (Hid & _). apply findById_id in Hf.
    rewrite findById_save_otro; [exact Hc | congruence].
  - destruct (ejecutarReprogramar_escritura plan dir msj ahora user citaId b
                citas)
      as [[-> _] | (cita & n & Hf & _ & _ & -> & Hs & _)]; [exact Hc|].
    apply (f_equal _id) in Hs. simpl in Hs. apply findById_id in Hf.
    rewrite findById_save_otro by congruence.
    rewrite findById_save_otro; [exact Hc | simpl; congruence].
  - destruct (cancelarCita_escritura dir user citaId b citas)
      as [[-> _] | (cita & d & Hf & -> & Hp & _)]; [exact Hc|].
    destruct Hp as (Hid & _). apply findById_id in Hf.
    rewrite findById_save_otro; [exact Hc | congruence].
Qed.

Lemma atender_ajenas_witness :
  objetivo (PideCancelar secretaria 4%nat
              {| k_motivo := Some "viaje"; k_canceladoPor := None |})
  <> Some 1%nat
  /\ findById 4%nat
       (atender clinicaDos
          (PideCancelar secretaria 4%nat
             {| k_motivo := Some "viaje"; k_canceladoPor := None |})
          jornada)
     <> findById 4%nat jornada
  /\ findById 1%nat
       (atender clinicaDos
          (PideCancelar secretaria 4%nat
             {| k_motivo := Some "viaje"; k_canceladoPor := None |})
          jornada)
     = Some (citaDe 1%nat programada 600 630).
Proof.
  split; [discriminate|]. split; [discriminate|].
  apply (atender_ajenas clinicaDos
           (PideCancelar secretaria 4%nat
              {| k_motivo := Some "viaje"; k_canceladoPor := None |})
           jornada 1%nat (citaDe 1%nat programada 600 630));
    [discriminate | reflexivity].
Defined.

Lemma atender_conserva (dir : Directorios) (p : Peticion)
    (citas : list Cita) :
  conserva citas (atender dir p citas).
Proof.
  destruct p as [msj ahora b | msj ahora citaId b | user citaId b
                | plan msj ahora user citaId b | user citaId b]; simpl.
  - destruct (crearCita_escritura dir msj ahora b citas)
      as [[-> _] | (d & -> & Hs & _)]; [apply conserva_refl|].
    apply conserva_save. intros c Hc.
    apply (f_equal _id) in Hs. simpl in Hs.
    rewrite Hs, findById_nuevoId in Hc. discriminate.
  - destruct (actualizarCita_escritura dir msj ahora citaId b citas)
      as [[-> _] | (cita & d & Hf & -> & Hm & _ & _ & Hp & _)];
      [apply conserva_refl|].
    apply conserva_save. intros c Hc.
    destruct Hm as (M1 & M2 & M3 & M4 & _ & M6 & _).
    rewrite M1, (findById_id _ _ _ Hf), Hf in Hc. inversion Hc; subst c.
    unfold perdura. auto 10.
  - destruct (cambiarEstadoCita_escritura user citaId b citas)
      as [[-> _] | (cita & est & d & Hf & _ & -> & Hp & _)];
      [apply conserva_refl|].
    apply conserva_save. intros c Hc.
    pose proof Hp as (M1 & _).
    rewrite M1, (findById_id _ _ _ Hf), Hf in Hc. now inversion Hc; subst c.
  - destruct (ejecutarReprogramar_escritura plan dir msj ahora user citaId b
                citas)
      as [[-> _] | (cita & n & Hf & _ & _ & -> & Hs & _)];
      [apply conserva_refl|].
    apply (conserva_trans _ (save (retirada user (r_motivo b) cita) citas)).
    + apply conserva_save. intros c Hc. simpl in Hc.
      rewrite (findById_id _ _ _ Hf), Hf in Hc. inversion Hc; subst c.
      unfold perdura. simpl. repeat split; auto using prefijo_refl.
    + apply conserva_save. intros c Hc.
      apply (f_equal _id) in Hs. simpl in Hs.
      rewrite Hs, findById_save_otro, findById_nuevoId in Hc;
        [discriminate|].
      simpl. intros He.
      apply (nuevoId_fresco citas cita);
        [eapply findById_In, Hf | now symmetry].
  - destruct (cancelarCita_escritura dir user citaId b citas)
      as [[-> _] | (cita & d & Hf & -> & Hp & _)]; [apply conserva_refl|].
    apply conserva_save. intros c Hc.
    pose proof Hp as (M1 & _).
    rewrite M1, (findById_id _ _ _ Hf), Hf in Hc. now inversion Hc; subst c.
Qed.

(** X11. Whatever requests are served, no stored appointment is deleted, none
    changes its patient, practitioner, treatment or back-reference, and
    the notification log of each only grows. *)
Theorem atenderTodas_conserva (dir : Directorios) (ps : list Peticion)
    (citas : list Cita) :
  conserva citas (atenderTodas dir ps citas).
Proof.
  unfold atenderTodas. revert citas.
  induction ps as [|p ps IH]; intros citas; simpl.
  - apply conserva_refl.
  - eapply conserva_trans; [apply atender_conserva | apply IH].
Qed.

(** ** No double booking *)

Lemma chocan_sym (a b : Cita) : chocan a b -> chocan b a.
Proof.
  unfold chocan, intersecan. intros (H1 & H2 & H3 & H4 & H5 & H6).
  repeat split; auto.
Qed.

Lemma ocupa_estados (c : Cita) :
  ocupa c = true <-> estado c <> cancelada /\ estado c <> reprogramada.
Proof.
  unfold ocupa, ocupaEstado. destruct (estado c); cbv; split;
    try discriminate; try (intros [H1 H2]; congruence);
    intros _; split; discriminate.
Qed.

(** A window the availability query finds free collides with no stored
    appointment the query looks at. *)
Lemma libre_sin_choque (excl : option ObjectId) (med : ObjectId)
    (ini fin : Fecha) (citas : list Cita) (a d : Cita) :
  citaSolapada excl med ini fin citas = None ->
  In a citas -> ventana_valida a -> ini < fin ->
  medico d = med -> fechaInicio d = ini -> fechaFin d = fin ->
  excl <> Some (_id a) ->
  ~ chocan a d.
Proof.
  intros Hn Hin Hva Hlt Hmed Hi Hf Hex (_ & Hm & Hoa & _ & Hint).
  pose proof (find_none _ _ Hn a Hin) as Hfalse.
  assert (Htrue : filtroSolapada excl med ini fin a = true).
  { apply filtroSolapada_candidata. split.
    - apply ocupa_estados in Hoa. unfold candidata.
      repeat split; try tauto. congruence.
    - apply solapa_intersecan; auto. now rewrite <- Hi, <- Hf. }
  congruence.
Qed.

Lemma agendaSana_save (d : Cita) (citas : list Cita) :
  agendaSana citas -> ventana_valida d ->
  (forall a, In a citas -> _id a <> _id d -> ~ chocan a d) ->
  agendaSana (save d citas).
Proof.
  intros (Hnd & Hv & Hno) Hvd Hd.
  split; [now apply NoDup_save|]. split.
  - apply Forall_forall. intros a Ha. apply save_In in Ha.
    destruct Ha as [-> | Ha]; [exact Hvd|].
    rewrite Forall_forall in Hv. now apply Hv.
  - intros a b Ha Hb.
    apply (save_In_otro _ _ _ Hnd) in Ha.
    apply (save_In_otro _ _ _ Hnd) in Hb.
    destruct Ha as [-> | [Ha Hia]], Hb as [-> | [Hb Hib]].
    + intros (H & _). now apply H.
    + intros H. apply chocan_sym in H. revert H. now apply Hd.
    + now apply Hd.
    + now apply Hno.
Qed.

Lemma sin_ocupar_no_choca (a d : Cita) : ocupa d = false -> ~ chocan a d.
Proof. intros H (_ & _ & _ & Ho & _). congruence. Qed.

(** An appointment that takes the place of another of the same
    practitioner, with the same window, collides with what the other
    collided with. *)
Lemma choque_heredado (a c d : Cita) :
  _id d = _id c -> medico d = medico c -> mismaVentana c d ->
  ocupa c = true ->
  chocan a d -> chocan a c.
Proof.
  unfold chocan. intros Hi Hm [V1 V2] Ho (H1 & H2 & H3 & H4 & H5).
  rewrite V1, V2 in H5. repeat split; try congruence; apply H5.
Qed.

Lemma fechaFinPosterior_lt (ini fin : Fecha) :
  fechaFinPosterior ini fin = true <-> ini < fin.
Proof.
  unfold fechaFinPosterior. rewrite negb_true_iff, Z.leb_gt. tauto.
Qed.

(** X12. The write handlers keep the agenda free of double booking: from a
    collection with distinct identifiers, windows that end after they
    start and no two blocking appointments of one practitioner that
    intersect, a request whose window is in the right order (the order
    the validator [fechaFinPosterior] checks), and which does not put a
    rescheduled appointment back into a blocking state, leaves such a
    collection. *)
Theorem atender_agendaSana (dir : Directorios) (p : Peticion)
    (citas : list Cita) :
  agendaSana citas -> pedidoSano p citas -> agendaSana (atender dir p citas).
Proof.
  intros Hs Hp. pose proof Hs as (Hnd & Hv & Hno).
  rewrite Forall_forall in Hv.
  destruct p as [msj ahora b | msj ahora citaId b | user citaId b
                | plan msj ahora user citaId b | user citaId b];
    simpl in *.
  - destruct (crearCita_escritura dir msj ahora b citas)
      as [[-> _] | (d & -> & Hd & Hsol & _)]; [exact Hs|].
    apply fechaFinPosterior_lt in Hp.
    pose proof (f_equal fechaInicio Hd) as E1.
    pose proof (f_equal fechaFin Hd) as E2.
    pose proof (f_equal medico Hd) as E3. simpl in E1, E2, E3.
    apply agendaSana_save; [exact Hs | |].
    + unfold ventana_valida. now rewrite E1, E2.
    + intros a Ha _.
      apply (libre_sin_choque None (b_medico b) (b_fechaInicio b)
               (b_fechaFin b) citas); auto. discriminate.
  - destruct (actualizarCita_escritura dir msj ahora citaId b citas)
      as [[-> _]
         | (cita & d & Hf & -> & Hm & Hi & Hfi & _ & Hvent & _)];
      [exact Hs|].
    destruct Hm as (M1 & _ & M3 & _ & M5 & _).
    pose proof (findById_In _ _ _ Hf) as Hin.
    pose proof (findById_id _ _ _ Hf) as Hid.
    specialize (Hp cita Hf).
    apply agendaSana_save; [exact Hs | |].
    + unfold ventana_valida. now rewrite Hi, Hfi.
    + intros a Ha Hia. destruct Hvent as [Hmv | Hsol].
      * destruct (ocupa d) eqn:Ho; [|now apply sin_ocupar_no_choca].
        intros Hch. apply (Hno a cita Ha Hin).
        apply (choque_heredado a cita d); auto.
        unfold ocupa in *. now rewrite <- M5.
      * apply (libre_sin_choque (Some citaId) (medico cita)
                 (fechaInicio d) (fechaFin d) citas); auto.
        -- now rewrite Hi, Hfi.
        -- intros [= He]. apply Hia. congruence.
  - destruct (cambiarEstadoCita_escritura user citaId b citas)
      as [[-> _]
         | (cita & est & d & Hf & He & -> & Hper & Hmv & Hest & Hfin & _)];
      [exact Hs|].
    destruct Hper as (M1 & _ & M3 & _).
    pose proof (findById_In _ _ _ Hf) as Hin.
    specialize (Hp cita est Hf He).
    apply agendaSana_save; [exact Hs | |].
    + destruct Hmv as [V1 V2]. unfold ventana_valida. rewrite V1, V2.
      now apply Hv.
    + intros a Ha Hia.
      destruct (ocupa d) eqn:Ho; [|now apply sin_ocupar_no_choca].
      intros Hch. apply (Hno a cita Ha Hin).
      apply (choque_heredado a cita d); auto.
      unfold ocupa in *. rewrite Hest in Ho.
      destruct (estado cita) eqn:Ec; try reflexivity.
      * rewrite Hfin in Ho by reflexivity. discriminate.
      * rewrite Hp in Ho by reflexivity. discriminate.
  - destruct (ejecutarReprogramar_escritura plan dir msj ahora user citaId b
                citas)
      as [[-> _] | (cita & n & Hf & _ & Hsol & -> & Hn & _)]; [exact Hs|].
    apply fechaFinPosterior_lt in Hp.
    pose proof (findById_In _ _ _ Hf) as Hin.
    pose proof (findById_id _ _ _ Hf) as Hid.
    pose proof (f_equal fechaInicio Hn) as E1.
    pose proof (f_equal fechaFin Hn) as E2.
    pose proof (f_equal medico Hn) as E3.
    pose proof (f_equal _id Hn) as E4. simpl in E1, E2, E3, E4.
    assert (Hs1 : agendaSana (save (retirada user (r_motivo b) cita) citas)).
    { apply agendaSana_save; [exact Hs | |].
      - apply (Hv cita Hin).
      - intros a _ _. now apply sin_ocupar_no_choca. }
    apply agendaSana_save; [exact Hs1 | |].
    + unfold ventana_valida. now rewrite E1, E2.
    + intros a Ha _. apply (save_In_otro _ _ _ Hnd) in Ha.
      destruct Ha as [-> | [Ha Hia]].
      * intros Hch. apply chocan_sym in Hch. revert Hch.
        now apply sin_ocupar_no_choca.
      * apply (libre_sin_choque (Some citaId) (medico cita)
                 (r_fechaInicio b) (r_fechaFin b) citas); auto.
        intros [= He]. apply Hia. simpl. congruence.
  - destruct (cancelarCita_escritura dir user citaId b citas)
      as [[-> _] | (cita & d & Hf & -> & Hper & Hmv & Hest & _)];
      [exact Hs|].
    pose proof (findById_In _ _ _ Hf) as Hin.
    apply agendaSana_save; [exact Hs | |].
    + destruct Hmv as [V1 V2]. unfold ventana_valida. rewrite V1, V2.
      now apply Hv.
    + intros a _ _. apply sin_ocupar_no_choca.
      unfold ocupa. now rewrite Hest.
Qed.

Lemma atender_agendaSana_witness :
  agendaSana agenda
  /\ pedidoSano (PideCrear entrega 0 reservaSiguiente) agenda
  /\ agendaSana (atender clinica (PideCrear entrega 0 reservaSiguiente)
                   agenda)
  /\ List.length (atender clinica (PideCrear entrega 0 reservaSiguiente)
                    agenda) = 2%nat.
Proof.
  assert (Hs : agendaSana agenda).
  { split; [repeat constructor; simpl; tauto|]. split.
    - repeat constructor; unfold ventana_valida; simpl; lia.
    - intros a b [<- | []] [<- | []] (H & _). now apply H. }
  assert (Hp : pedidoSano (PideCrear entrega 0 reservaSiguiente) agenda)
    by reflexivity.
  split; [exact Hs|]. split; [exact Hp|].
  split; [|reflexivity].
  exact (atender_agendaSana clinica (PideCrear entrega 0 reservaSiguiente)
           agenda Hs Hp).
Defined.

(** ** Final states, again *)

(** X13. A request for the state an appointment already has is always let
    through, also in a final state, and it runs the bookkeeping of the
    state again: on a canceled appointment it overwrites canceled-by with
    patient for a patient caller and practitioner for every other caller,
    and the reason with the notes of the request, trimmed (or the default
    reason when the notes are missing or empty); on a no-show it resets
    both; on every state it replaces the notes by those of the request,
    trimmed, when the request carries some. *)
Theorem cambiarEstado_mismo_estado (user : ReqUser) (citaId : ObjectId)
    (b : EstadoBody) (citas : list Cita) (cita : Cita) :
  findById citaId citas = Some cita ->
  estadoPedido b = Some (estado cita) ->
  exists c',
    cambiarEstadoCita user citaId b citas
    = (EstadoActualizado c' (Estado_eqb (estado cita) completada),
       save c' citas)
    /\ findById citaId (save c' citas) = Some c'
    /\ estado c' = estado cita
    /\ notas c' = match e_notas b with
                  | Some n => Some (trim n)
                  | None => notas cita
                  end
    /\ (estado cita = cancelada ->
        (rol user = rol_paciente -> canceladoPor c' = por_paciente)
        /\ (rol user <> rol_paciente -> canceladoPor c' = por_medico)
        /\ (forall n, e_notas b = Some n -> n <> "" ->
              motivoCancelacion c' = Some (trim n))
        /\ (e_notas b = None \/ e_notas b = Some "" ->
            motivoCancelacion c' = Some "No se especificó motivo"))
    /\ (estado cita = no_asistio ->
        canceladoPor c' = no_aplica
        /\ motivoCancelacion c' = Some "Paciente no asistió")
    /\ (estado cita <> cancelada -> estado cita <> no_asistio ->
        canceladoPor c' = canceladoPor cita
        /\ motivoCancelacion c' = motivoCancelacion cita).
Proof.
  intros Hf He. unfold cambiarEstadoCita. rewrite He, Hf.
  rewrite Estado_eqb_refl, andb_false_r.
  eexists. split; [reflexivity|].
  pose proof (findById_id _ _ _ Hf) as Hid.
  split.
  { match goal with
    | |- findById _ (save ?d _) = _ =>
        replace citaId with (_id d);
        [apply findById_save_mismo|]
    end.
    destruct (estado cita), (e_notas b); exact Hid. }
  split; [destruct (estado cita), (e_notas b); reflexivity|].
  split; [destruct (estado cita), (e_notas b); reflexivity|].
  split; [|split].
  - intros Hc. rewrite Hc.
    cbn [canceladoPor motivoCancelacion con_motivoCancelacion
         con_canceladoPor option_map].
    split; [intros ->; reflexivity|].
    split; [destruct (rol user); intros Hr;
            first [reflexivity | now contradiction Hr]|].
    split.
    + intros n Hn Hne. now rewrite Hn, (o_bien_no_vacio _ _ Hne).
    + intros Hn. apply truthy_false in Hn.
      now rewrite (o_bien_falsy _ _ Hn).
  - intros Hc. rewrite Hc. split; reflexivity.
  - intros H1 H2.
    destruct (estado cita), (e_notas b); try (split; reflexivity);
      congruence.
Qed.

(** A practitioner sends "cancelada" again for an appointment the patient
    had canceled. *)
Lemma cambiarEstado_mismo_estado_witness :
  exists c',
    cambiarEstadoCita doctora 1%nat
      {| e_estado := Some "cancelada"; e_notas := Some " ya no " |}
      [con_motivoCancelacion (Some "viaje")
         (con_canceladoPor por_paciente (citaDe 1%nat cancelada 600 630))]
    = (EstadoActualizado c' false, [c'])
    /\ canceladoPor c' = por_medico
    /\ motivoCancelacion c' = Some "ya no"
    /\ notas c' = Some "ya no".
Proof.
  destruct (cambiarEstado_mismo_estado doctora 1%nat
              {| e_estado := Some "cancelada"; e_notas := Some " ya no " |}
              [con_motivoCancelacion (Some "viaje")
                 (con_canceladoPor por_paciente
                    (citaDe 1%nat cancelada 600 630))]
              _ eq_refl eq_refl)
    as (c' & Hr & _ & _ & Hn & Hc & _).
  exists c'. destruct (Hc eq_refl) as (_ & Hme & Hmo & _).
  split; [rewrite Hr; inversion Hr; reflexivity|].
  split; [apply Hme; discriminate|].
  split; [exact (Hmo " ya no " eq_refl ltac:(discriminate)) | exact Hn].
Defined.

(** ** Bookings and cancellations against the availability query *)

Lemma find_ext_in {A} (f g : A -> bool) (l : list A) :
  (forall x, In x l -> f x = g x) -> find f l = find g l.
Proof.
  induction l as [|a l IH]; simpl; intros H; [reflexivity|].
  rewrite <- (H a (or_introl eq_refl)).
  destruct (f a); [reflexivity|]. apply IH. intros x Hx. apply H. now right.
Qed.

Lemma find_In_Some {A} (f : A -> bool) (l : list A) (a : A) :
  In a l -> f a = true -> exists x, find f l = Some x.
Proof.
  intros Hin Hf. destruct (find f l) as [x|] eqn:E; [now exists x|].
  pose proof (find_none _ _ E a Hin). congruence.
Qed.

(** X14. An accepted booking blocks its own window: the same request sent
    again, to whatever state the notifications left the collection in, is
    answered "occupied", also when the window is empty or inverted. *)
Theorem crearCita_bloquea (dir : Directorios) (msj msj' : Mensajeria)
    (ahora ahora' : Fecha) (b : CrearBody) (citas : list Cita) :
  exito (fst (crearCita dir msj ahora b citas)) = true ->
  crearCita dir msj' ahora' b (snd (crearCita dir msj ahora b citas))
  = (Rechazo 400 MedicoOcupado, snd (crearCita dir msj ahora b citas)).
Proof.
  destruct (crearCita_escritura dir msj ahora b citas)
    as [[_ He] | (d & Hsnd & Hd & _ & _)]; [congruence|].
  rewrite Hsnd. clear Hsnd. revert Hd. unfold crearCita.
  destruct (buscarPaciente _ _) as [pac|]; [|discriminate].
  destruct (buscarMedicoActivo _ _) as [med|]; [|discriminate].
  destruct (buscarTratamientoActivo _ _) as [trat|]; [|discriminate].
  destruct (_ && _); [discriminate|].
  destruct (citaSolapada _ _ _ _ citas); [discriminate|].
  intros Hd _.
  pose proof (f_equal fechaInicio Hd) as E1.
  pose proof (f_equal fechaFin Hd) as E2.
  pose proof (f_equal medico Hd) as E3.
  pose proof (f_equal estado Hd) as E4. simpl in E1, E2, E3, E4.
  destruct (find_In_Some
              (filtroSolapada None (b_medico b) (b_fechaInicio b)
                 (b_fechaFin b)) (save d citas) d (save_esta d citas))
    as (x & Hx).
  { unfold filtroSolapada, solapa. rewrite E1, E2, E3, E4.
    rewrite Nat.eqb_refl, !Z.leb_refl. cbn. apply orb_true_r. }
  unfold citaSolapada. now rewrite Hx.
Qed.

Lemma crearCita_bloquea_witness :
  exito (fst (crearCita clinica entrega 0 reservaSiguiente agenda)) = true
  /\ fst (crearCita clinica noEntrega 5 reservaSiguiente
            (snd (crearCita clinica entrega 0 reservaSiguiente agenda)))
     = Rechazo 400 MedicoOcupado.
Proof.
  split; [reflexivity|].
  rewrite (crearCita_bloquea clinica entrega noEntrega 0 5 reservaSiguiente
             agenda eq_refl).
  reflexivity.
Defined.

Lemma citaSolapada_save_libre (d : Cita) (citas : list Cita)
    (med : ObjectId) (ini fin : Fecha) :
  NoDup (map _id citas) -> ocupa d = false ->
  citaSolapada None med ini fin (save d citas)
  = citaSolapada (Some (_id d)) med ini fin citas.
Proof.
  intros Hnd Ho. unfold citaSolapada.
  assert (Hd : forall excl, filtroSolapada excl med ini fin d = false).
  { intros excl. unfold filtroSolapada. unfold ocupa, ocupaEstado in Ho.
    rewrite Ho. now rewrite andb_false_r. }
  induction citas as [|c citas IH]; simpl.
  - now rewrite Hd.
  - inversion Hnd as [|? ? Hn Hdd]; subst.
    destruct (Nat.eqb (_id c) (_id d)) eqn:E; simpl.
    + rewrite Hd. unfold filtroSolapada at 2. rewrite E. simpl.
      apply Nat.eqb_eq in E. apply find_ext_in. intros x Hx.
      unfold filtroSolapada.
      assert (Hne : Nat.eqb (_id x) (_id d) = false).
      { apply Nat.eqb_neq. intros Heq. apply Hn. rewrite E, <- Heq.
        now apply in_map. }
      now rewrite Hne.
    + replace (filtroSolapada (Some (_id d)) med ini fin c)
        with (filtroSolapada None med ini fin c)
        by (unfold filtroSolapada; now rewrite E).
      destruct (filtroSolapada None med ini fin c); [reflexivity|].
      now apply IH.
Qed.

(** X15. A cancellation frees the slot: after it, the availability query of a
    booking gives on every window what the query that leaves the
    appointment out gave before. *)
Theorem cancelar_libera (dir : Directorios) (user : ReqUser)
    (citaId : ObjectId) (k : CancelarBody) (citas citas' : list Cita)
    (c : Cita) (med : ObjectId) (ini fin : Fecha) :
  NoDup (map _id citas) ->
  cancelarCita dir user citaId k citas = (CitaCancelada c, citas') ->
  citaSolapada None med ini fin citas'
  = citaSolapada (Some citaId) med ini fin citas.
Proof.
  intros Hnd Hc.
  destruct (cancelarCita_escritura dir user citaId k citas)
    as [[_ He] | (cita & d & Hf & Hs & Hp & _ & Hest & _)].
  - rewrite Hc in He. discriminate.
  - rewrite Hc in Hs. cbn [snd] in Hs. subst citas'.
    destruct Hp as (Hid & _). apply findById_id in Hf.
    rewrite <- Hf, <- Hid. apply citaSolapada_save_libre; [exact Hnd|].
    unfold ocupa. now rewrite Hest.
Qed.

Lemma cancelar_libera_witness :
  NoDup (map _id agenda)
  /\ (exists c citas',
        cancelarCita clinica secretaria 1%nat porViaje agenda
        = (CitaCancelada c, citas')
        /\ citaSolapada None 20%nat 600 630 citas' = None)
  /\ citaSolapada None 20%nat 600 630 agenda <> None.
Proof.
  assert (Hnd : NoDup (map _id agenda))
    by (repeat constructor; simpl; tauto).
  split; [exact Hnd|]. split; [|discriminate].
  do 2 eexists. split; [reflexivity|].
  rewrite (cancelar_libera clinica secretaria 1%nat porViaje agenda _ _
             20%nat 600 630 Hnd eq_refl).
  reflexivity.
Defined.

(** ** The validator of the overlap *)

Lemma find_None_filter {A} (f : A -> bool) (l : list A) :
  find f l = None <-> filter f l = [].
Proof.
  induction l as [|a l IH]; simpl; [tauto|].
  destruct (f a); [split; discriminate | exact IH].
Qed.

(** X16. [validadores.sinSuperposicionCitas], which no route of the scheduler
    applies, decides what the controllers decide: it passes exactly when
    their availability query finds nothing. A booking it would refuse is
    never accepted, and a booking it would pass is never answered
    "occupied". *)
Theorem sinSuperposicionCitas_controlador (paramId : option ObjectId)
    (medicoId : ObjectId) (ini fin : Fecha) (citas : list Cita) :
  (sinSuperposicionCitas paramId medicoId ini fin citas = true
   <-> citaSolapada paramId medicoId ini fin citas = None)
  /\ (forall dir msj ahora b,
        b_medico b = medicoId -> b_fechaInicio b = ini ->
        b_fechaFin b = fin ->
        if sinSuperposicionCitas None medicoId ini fin citas
        then fst (crearCita dir msj ahora b citas)
             <> Rechazo 400 MedicoOcupado
        else exito (fst (crearCita dir msj ahora b citas)) = false).
Proof.
  assert (Hiff : forall p,
            sinSuperposicionCitas p medicoId ini fin citas = true
            <-> citaSolapada p medicoId ini fin citas = None).
  { intros p. unfold sinSuperposicionCitas, citaSolapada.
    rewrite find_None_filter, negb_true_iff, Nat.ltb_ge.
    destruct (filter _ citas); simpl; split;
      try reflexivity; try discriminate; lia. }
  split; [apply Hiff|].
  intros dir msj ahora b <- <- <-.
  destruct (sinSuperposicionCitas None _ _ _ citas) eqn:E.
  - apply Hiff in E. intros H.
    now apply crearCita_ocupado in H.
  - apply crearCita_solapada. intros H. apply Hiff in H. congruence.
Qed.

(** ** The session of reprogramarCita *)



(** ** Notifications that fail *)

(** X19. The two notifications of a booking share one [try] block: when the
    patient is to be told by e-mail and the e-mail service throws, the
    booking is answered as created with nothing in its notification log,
    whatever the SMS preference of the patient and whether or not the SMS
    service works. *)
Theorem crearCita_email_fallido (dir : Directorios) (msj : Mensajeria)
    (ahora : Fecha) (b : CrearBody) (citas : list Cita) (pac : Paciente)
    (u : Usuario) :
  exito (fst (crearCita dir msj ahora b citas)) = true ->
  buscarPaciente dir (b_paciente b) = Some pac ->
  recordatoriosEmail pac = true ->
  buscarUsuario dir (usuario pac) = Some u ->
  truthy (email u) = true ->
  emailOk msj = false ->
  crearCita dir msj ahora b citas
  = (Creada (Some (citaNueva b citas)), save (citaNueva b citas) citas).
Proof.
  intros He Hp Hre Hu Hem Hok. revert He. unfold crearCita. rewrite Hp.
  destruct (buscarMedicoActivo _ _) as [med|]; [|discriminate].
  destruct (buscarTratamientoActivo _ _) as [trat|]; [|discriminate].
  destruct (_ && _); [discriminate|].
  destruct (citaSolapada _ _ _ _ _); [discriminate|].
  intros _. cbn zeta.
  unfold avisarCreacion, enviarConfirmacionCita, atrapar, deref, modificar,
    lanzar, bind, ret.
  rewrite Hre, Hu, Hem, Hok. cbn [fst snd _id].
  fold (citaNueva b citas).
  change (nuevoId citas) with (_id (citaNueva b citas)) at 1.
  now rewrite findById_save_mismo.
Qed.

Lemma crearCita_email_fallido_witness :
  crearCita clinica {| emailOk := false; smsOk := true |} 0 reservaSiguiente
    agenda
  = (Creada (Some (citaNueva reservaSiguiente agenda)),
     save (citaNueva reservaSiguiente agenda) agenda)
  /\ recordatoriosEnviados (citaNueva reservaSiguiente agenda) = []
  /\ exists d,
       fst (crearCita clinica {| emailOk := true; smsOk := true |} 0
              reservaSiguiente agenda) = Creada (Some d)
       /\ List.length (recordatoriosEnviados d) = 2%nat.
Proof.
  split; [|split; [reflexivity|eexists; split; reflexivity]].
  apply (crearCita_email_fallido clinica
           {| emailOk := false; smsOk := true |} 0 reservaSiguiente agenda
           _ _ eq_refl eq_refl eq_refl eq_refl eq_refl eq_refl).
Defined.

(** ** The validators against the booking *)

Lemma buscarTratamientoActivo_Some (dir : Directorios) (id : ObjectId)
    (t : Tratamiento) :
  NoDup (map t_id (tratamientos dir)) ->
  buscarTratamientoActivo dir id = Some t ->
  buscarTratamiento dir id = Some t.
Proof.
  unfold buscarTratamientoActivo, buscarTratamiento.
  induction (tratamientos dir) as [|t0 l IH]; simpl; [discriminate|].
  intros Hnd H. inversion Hnd as [|? ? Hn Hd]; subst.
  destruct (Nat.eqb (t_id t0) id) eqn:E; simpl in H.
  - destruct (t_activo t0); [exact H|].
    apply find_some in H. destruct H as [Hin Ht].
    apply andb_true_iff in Ht. destruct Ht as [Ht _].
    apply Nat.eqb_eq in E, Ht. exfalso. apply Hn.
    rewrite E, <- Ht. now apply in_map.
  - now apply IH.
Qed.

(** X17. The validators [medicoHabilitado] and [sinSuperposicionCitas] of
    middleware/validacion.js against the booking they were written for:
    every booking the controller accepts passes both, and a booking that
    passes both is accepted as soon as the patient exists and the
    practitioner and the treatment are active. *)
Theorem validadores_crearCita (dir : Directorios) (msj : Mensajeria)
    (ahora : Fecha) (b : CrearBody) (citas : list Cita) :
  NoDup (map t_id (tratamientos dir)) ->
  let pasan :=
    medicoHabilitado dir (b_medico b) (b_tratamiento b)
    && sinSuperposicionCitas None (b_medico b) (b_fechaInicio b)
         (b_fechaFin b) citas in
  (exito (fst (crearCita dir msj ahora b citas)) = true -> pasan = true)
  /\ (pasan = true ->
      buscarPaciente dir (b_paciente b) <> None ->
      buscarMedicoActivo dir (b_medico b) <> None ->
      buscarTratamientoActivo dir (b_tratamiento b) <> None ->
      exito (fst (crearCita dir msj ahora b citas)) = true).
Proof.
  intros Hnd. cbn zeta.
  unfold crearCita, medicoHabilitado, sinSuperposicionCitas, citaSolapada.
  destruct (buscarPaciente _ _) as [pac|];
    [|split; [discriminate | intros _ H; now contradiction H]].
  destruct (buscarMedicoActivo _ _) as [med|] eqn:Hm;
    [|split; [discriminate | intros _ _ H; now contradiction H]].
  destruct (buscarTratamientoActivo _ _) as [trat|] eqn:Ht;
    [|split; [discriminate | intros _ _ _ H; now contradiction H]].
  rewrite (buscarTratamientoActivo_Some _ _ _ Hnd Ht).
  rewrite (buscarMedicoActivo_Some _ _ _ Hm).
  destruct (profesionalesHabilitados trat) as [|x l] eqn:El; simpl.
  - destruct (find _ citas) eqn:Ef.
    + apply find_some in Ef. destruct Ef as [Hin Hf].
      assert (Hne : filter (filtroSolapada None (b_medico b)
                              (b_fechaInicio b) (b_fechaFin b)) citas
                    <> []).
      { intros He.
        assert (Hx : In c (filter (filtroSolapada None (b_medico b)
                                     (b_fechaInicio b) (b_fechaFin b))
                             citas))
          by (apply filter_In; auto).
        rewrite He in Hx. exact Hx. }
      destruct (filter _ citas); [now contradiction Hne|].
      simpl. split; discriminate.
    + apply find_None_filter in Ef. rewrite Ef. simpl. auto.
  - destruct (Nat.eqb (b_medico b) x || existsb (Nat.eqb (b_medico b)) l);
      simpl; [|split; discriminate].
    destruct (find _ citas) eqn:Ef.
    + apply find_some in Ef. destruct Ef as [Hin Hf].
      assert (Hne : filter (filtroSolapada None (b_medico b)
                              (b_fechaInicio b) (b_fechaFin b)) citas
                    <> []).
      { intros He.
        assert (Hx : In c (filter (filtroSolapada None (b_medico b)
                                     (b_fechaInicio b) (b_fechaFin b))
                             citas))
          by (apply filter_In; auto).
        rewrite He in Hx. exact Hx. }
      destruct (filter _ citas); [now contradiction Hne|].
      simpl. split; discriminate.
    + apply find_None_filter in Ef. rewrite Ef. simpl. auto.
Qed.

Lemma validadores_crearCita_witness :
  NoDup (map t_id (tratamientos clinica))
  /\ medicoHabilitado clinica 20%nat 30%nat
     && sinSuperposicionCitas None 20%nat 630 660 agenda = true
  /\ exito (fst (crearCita clinica entrega 0 reservaSiguiente agenda)) = true.
Proof.
  assert (Hnd : NoDup (map t_id (tratamientos clinica)))
    by (repeat constructor; simpl; tauto).
  split; [exact Hnd|]. split; [reflexivity|].
  apply (validadores_crearCita clinica entrega 0 reservaSiguiente agenda
           Hnd); [reflexivity | discriminate..].
Defined.

(** ** Rescheduling twice *)

(** An appointment stored as rescheduled or canceled stays so under every
    request other than a change of state that names it. *)
Lemma atender_retirada (dir : Directorios) (p : Peticion)
    (citas : list Cita) (citaId : ObjectId) :
  (forall user b, p <> PideCambiarEstado user citaId b) ->
  (exists c, findById citaId citas = Some c
             /\ (estado c = reprogramada \/ estado c = cancelada)) ->
  exists c, findById citaId (atender dir p citas) = Some c
            /\ (estado c = reprogramada \/ estado c = cancelada).
Proof.
  intros Hp (c & Hc & He).
  assert (Hfresco : citaId <> nuevoId citas).
  { pose proof (findById_id _ _ _ Hc) as <-.
    apply nuevoId_fresco. eapply findById_In, Hc. }
  assert (Hsave : forall l d,
            (exists c0, findById citaId l = Some c0
                        /\ (estado c0 = reprogramada
                            \/ estado c0 = cancelada)) ->
            (_id d = citaId ->
             estado d = reprogramada \/ estado d = cancelada) ->
            exists c', findById citaId (save d l) = Some c'
                       /\ (estado c' = reprogramada
                           \/ estado c' = cancelada)).
  { intros l d (c0 & Hc0 & He0) Hd.
    destruct (Nat.eq_dec (_id d) citaId) as [E | E].
    - exists d. split; [rewrite <- E; apply findById_save_mismo | auto].
    - exists c0. rewrite findById_save_otro by congruence. auto. }
  assert (Hinv : exists c0, findById citaId citas = Some c0
                            /\ (estado c0 = reprogramada
                                \/ estado c0 = cancelada))
    by (exists c; auto).
  destruct p as [msj ahora b | msj ahora citaId0 b | user citaId0 b
                | plan msj ahora user citaId0 b | user citaId0 b]; simpl.
  - destruct (crearCita_escritura dir msj ahora b citas)
      as [[-> _] | (d & -> & Hs & _)]; [exact Hinv|].
    apply Hsave; [exact Hinv|]. intros Hid.
    apply (f_equal _id) in Hs. simpl in Hs. congruence.
  - destruct (actualizarCita_escritura dir msj ahora citaId0 b citas)
      as [[-> _] | (cita & d & Hf & -> & Hm & _)]; [exact Hinv|].
    apply Hsave; [exact Hinv|]. intros Hid.
    destruct Hm as (M1 & _ & _ & _ & M5 & _).
    pose proof (findById_id _ _ _ Hf) as Hid0.
    assert (citaId0 = citaId) as -> by congruence.
    rewrite Hc in Hf. inversion Hf; subst cita. now rewrite M5.
  - assert (Hne : citaId0 <> citaId)
      by (intros ->; now apply (Hp user b)).
    destruct (cambiarEstadoCita_escritura user citaId0 b citas)
      as [[-> _] | (cita & est & d & Hf & _ & -> & Hpe & _)];
      [exact Hinv|].
    apply Hsave; [exact Hinv|]. intros Hid.
    destruct Hpe as (M1 & _). apply findById_id in Hf. congruence.
  - destruct (ejecutarReprogramar_escritura plan dir msj ahora user citaId0 b
                citas)
      as [[-> _] | (cita & n & Hf & Hi & _ & -> & Hs & _)]; [exact Hinv|].
    apply (f_equal _id) in Hs. simpl in Hs.
    apply Hsave; [apply Hsave; [exact Hinv|] | congruence].
    simpl. intros Hid.
    pose proof (findById_id _ _ _ Hf) as Hid0.
    assert (citaId0 = citaId) as -> by congruence.
    rewrite Hc in Hf. inversion Hf; subst cita.
    destruct He as [He | He]; rewrite He in Hi; discriminate.
  - destruct (cancelarCita_escritura dir user citaId0 b citas)
      as [[-> _] | (cita & d & Hf & -> & _ & _ & Hd & _)]; [exact Hinv|].
    apply Hsave; [exact Hinv|]. intros _. now right.
Qed.

Lemma atenderTodas_retirada (dir : Directorios) (citaId : ObjectId)
    (ps : list Peticion) :
  sinCambioDeEstado citaId ps ->
  forall citas,
    (exists c, findById citaId citas = Some c
               /\ (estado c = reprogramada \/ estado c = cancelada)) ->
    exists c, findById citaId (atenderTodas dir ps citas) = Some c
              /\ (estado c = reprogramada \/ estado c = cancelada).
Proof.
  unfold atenderTodas, sinCambioDeEstado.
  induction ps as [|p ps IH]; intros Hps citas Hinv; simpl; [exact Hinv|].
  apply IH.
  - intros user b Hin. apply (Hps user b). now right.
  - apply atender_retirada; [|exact Hinv].
    intros user b ->. apply (Hps user b). now left.
Qed.

(** X20. A rescheduled appointment is not rescheduled again unless its
    state is changed back. After a reschedule that answered with a
    success the original is stored in state rescheduled. After any
    further requests, none of them a change of state naming it, it is
    stored as rescheduled or canceled, and a reschedule of it, with
    whatever window and caller, is refused with "No se puede reprogramar"
    and writes nothing. The state route lifts this: a change of the
    original to programada, confirmada or en_curso is applied, and a
    reschedule after it is decided by availability alone: it succeeds
    when the query finds no overlap. *)
Theorem reprogramar_una_vez (plan : Plan) (dir : Directorios)
    (msj : Mensajeria) (ahora : Fecha) (user : ReqUser)
    (citaId : ObjectId) (b : ReprogramarBody) (citas citas' : list Cita)
    (resp : Respuesta) :
  ejecutarReprogramar plan dir msj ahora user citaId b citas
  = (Valor resp, citas') ->
  exito resp = true ->
  (exists c, findById citaId citas' = Some c /\ estado c = reprogramada)
  /\ (forall ps, sinCambioDeEstado citaId ps ->
        let luego := atenderTodas dir ps citas' in
        exists c,
          findById citaId luego = Some c
          /\ (estado c = reprogramada \/ estado c = cancelada)
          /\ forall msj' ahora' user' b',
               ejecutarReprogramar sinFallos dir msj' ahora' user' citaId b'
                 luego
               = (Valor (Rechazo 400 (NoSePuedeReprogramar (estado c))),
                  luego))
  /\ (forall user' eb est,
        estadoPedido eb = Some est ->
        In est [programada; confirmada; en_curso] ->
        let luego := snd (cambiarEstadoCita user' citaId eb citas') in
        exists c,
          findById citaId luego = Some c
          /\ estado c = est
          /\ forall msj' ahora' user'' b',
               let r :=
                 fst (ejecutarReprogramar sinFallos dir msj' ahora' user''
                        citaId b' luego) in
               (forall e, r <> Valor (Rechazo 400 (NoSePuedeReprogramar e)))
               /\ (citaSolapada (Some citaId) (medico c)
                     (r_fechaInicio b') (r_fechaFin b') luego = None ->
                   exists resp', r = Valor resp' /\ exito resp' = true)).
Proof.
  intros Hrun Hex.
  destruct (ejecutarReprogramar_escritura plan dir msj ahora user citaId b
              citas) as [[_ Hfa] | (cita & n & Hf & _ & _ & Hs & Hn & _)].
  { rewrite Hrun in Hfa. simpl in Hfa. rewrite Hex in Hfa. discriminate. }
  cbn zeta in Hs. rewrite Hrun in Hs. cbn [snd] in Hs. subst citas'.
  pose proof (findById_id _ _ _ Hf) as Hid.
  pose proof (f_equal _id Hn) as Hidn. simpl in Hidn.
  set (cita' := retirada user (r_motivo b) cita) in *.
  assert (Hesta : findById citaId (save n (save cita' citas)) = Some cita').
  { rewrite findById_save_otro.
    - rewrite <- Hid. change (_id cita) with (_id cita').
      apply findById_save_mismo.
    - rewrite Hidn, <- Hid. apply nuevoId_fresco. eapply findById_In, Hf. }
  split; [eexists; split; [exact Hesta | reflexivity]|]. split.
  - intros ps Hps luego.
    destruct (atenderTodas_retirada dir citaId ps Hps
                (save n (save cita' citas)))
      as (c & Hc & He).
    { exists cita'. split; [exact Hesta | now left]. }
    fold luego in Hc. exists c. split; [exact Hc|]. split; [exact He|].
    intros msj' ahora' user' b'.
    pose proof (ejecutarReprogramar_sinFallos dir msj' ahora' user' citaId b'
                  luego) as H.
    cbn zeta in H. rewrite Hc in H.
    destruct He as [He | He]; rewrite He in H |- *; exact H.
  - intros user' eb est Hest Hin luego.
    set (c2 := match e_notas eb with
               | Some nn => con_notas (Some nn) (con_estado est cita')
               | None => con_estado est cita'
               end).
    assert (Hluego : luego = save c2 (save n (save cita' citas))).
    { subst luego. unfold cambiarEstadoCita. rewrite Hest, Hesta.
      simpl in Hin.
      destruct Hin as [<- | [<- | [<- | []]]]; reflexivity. }
    assert (Hid2 : _id c2 = citaId)
      by (subst c2; destruct (e_notas eb); simpl; exact Hid).
    assert (He2 : estado c2 = est)
      by (subst c2; destruct (e_notas eb); reflexivity).
    assert (Hc2 : findById citaId luego = Some c2)
      by (rewrite Hluego, <- Hid2; apply findById_save_mismo).
    exists c2. split; [exact Hc2|]. split; [exact He2|].
    intros msj' ahora' user'' b' r. subst r.
    pose proof (ejecutarReprogramar_sinFallos dir msj' ahora' user'' citaId
                  b' luego) as H.
    cbn zeta in H. rewrite Hc2, He2 in H.
    assert (Hi : includes [cancelada; completada; no_asistio; reprogramada]
                   est = false)
      by (simpl in Hin; destruct Hin as [<- | [<- | [<- | []]]];
          reflexivity).
    rewrite Hi in H.
    destruct (citaSolapada _ _ _ _ luego) as [otra|].
    + rewrite H. cbn [fst]. split; [discriminate | discriminate].
    + destruct H as (extra & _ & ->). cbn [fst].
      split; [discriminate|]. intros _. eexists. split; reflexivity.
Qed.

(** The booking of scenario 1 moved to 14:00: a move to 15:00 is refused
    after an update of the notes, and goes through after the state is
    set back to programada. *)
Lemma reprogramar_una_vez_witness :
  exists resp citas',
    ejecutarReprogramar sinFallos clinica entrega 0 secretaria 1%nat mudanza
      agenda = (Valor resp, citas')
    /\ exito resp = true
    /\ (let luego := atenderTodas clinica [PideActualizar entrega 3 1%nat
                                             soloNotas] citas' in
        ejecutarReprogramar sinFallos clinica noEntrega 5 doctora 1%nat
          otraMudanza luego
        = (Valor (Rechazo 400 (NoSePuedeReprogramar reprogramada)), luego))
    /\ (exists resp',
          fst (ejecutarReprogramar sinFallos clinica noEntrega 5 doctora
                 1%nat otraMudanza
                 (snd (cambiarEstadoCita secretaria 1%nat aProgramada
                         citas')))
          = Valor resp'
          /\ exito resp' = true).
Proof.
  do 2 eexists. split; [reflexivity|]. split; [reflexivity|].
  destruct (reprogramar_una_vez sinFallos clinica entrega 0 secretaria 1%nat
              mudanza agenda _ _ eq_refl eq_refl) as (_ & H2 & H3).
  split.
  - destruct (H2 [PideActualizar entrega 3 1%nat soloNotas])
      as (c & Hc & _ & Hrun).
    { intros u eb [H | []]. discriminate. }
    vm_compute in Hc. inversion Hc; subst c.
    exact (Hrun noEntrega 5 doctora otraMudanza).
  - destruct (H3 secretaria aProgramada programada eq_refl)
      as (c & Hc & _ & Hrun); [now left|].
    vm_compute in Hc. inversion Hc; subst c.
    destruct (Hrun noEntrega 5 doctora otraMudanza) as [_ Hok].
    apply Hok. reflexivity.
Defined.
